(** * VerifyPulse: the diagnostic pipeline runtime

    A shallow embedding of the Python sources of the VerifyPulse quality
    agent, and the properties of its specification settled against it.

    - [Py]        the Python string and value primitives the sources use
    - [TestCases] quality_agent/core/test_cases.py
    - [Runner]    quality_agent/core/native_test_runner.py
    - [Logger]    quality_agent/core/logger.py
    - [Llm]       quality_agent/llm/client.py
    - [Rag]       quality_agent/core/rag_pipeline.py
    - [Skyflow]   verifypulse/integrations/skyflow_client.py
    - [Redis]     verifypulse/integrations/redis_client.py
    - [Loader]    quality_agent/core/test_cases.py, the loader from a dictionary
    - [Report]    quality_agent/core/html_report.py
    - [Agent]     quality_agent/agent_runner.py
    - [Api]       verifypulse/api_server.py, the endpoints over the store
    - [Pii]       verifypulse/pii_tokenizer.py
    - [Parallel]  verifypulse/integrations/parallel_client.py
    - [Planner]   verifypulse/models.py and verifypulse/planner.py

    Strings are byte strings, a Python [str] by its UTF-8 encoding.
    [upper], [strip] and [repr] follow Unicode: its case mappings, its
    white space and its printable characters, by the tables of Unicode
    14.0.  [lower] acts on the ASCII letters: the sources only ask
    whether one of a few keywords occurs in a lowered text, and on that
    it agrees with [str.lower].  Python values of type [Any] that
    travel through the pipeline are JSON-shaped and are modelled by
    [json]; floats are left out, no property below looks inside a
    number. *)

From Stdlib Require Import ZArith String Ascii List DecimalString Decimal Lia.
From stdpp Require Import gmap strings list fin_maps.

Set Warnings "-register-all".

(* ================================================================== *)
(** * Part I: the program *)
(* ================================================================== *)

(** ** Python primitives *)

Module Py.

Definition in_range (lo hi : nat) (c : ascii) : bool :=
  let n := nat_of_ascii c in (lo <=? n)%nat && (n <=? hi)%nat.

Definition upper_char (c : ascii) : ascii :=
  if in_range 97 122 c then ascii_of_nat (nat_of_ascii c - 32) else c.

Definition lower_char (c : ascii) : ascii :=
  if in_range 65 90 c then ascii_of_nat (nat_of_ascii c + 32) else c.

(** The UTF-8 encoding of a character takes as many bytes as its first
    byte says. *)
Definition utf8_width (c : ascii) : nat :=
  let n := nat_of_ascii c in
  if (n <? 192)%nat then 1 else if (n <? 224)%nat then 2 else if (n <? 240)%nat then 3 else 4.

(** The characters of a UTF-8 string, each by its bytes: [pending] bytes
    of the character begun in [cur] are still to come. *)
Fixpoint characters (pending : nat) (cur : string) (s : string) : list string :=
  match s with
  | EmptyString => match cur with EmptyString => [] | _ => [cur] end
  | String c s' =>
      match pending with
      | S k =>
          let cur' := cur +:+ String c EmptyString in
          match k with
          | O => cur' :: characters 0 EmptyString s'
          | _ => characters k cur' s'
          end
      | O =>
          match utf8_width c with
          | 1 => String c EmptyString :: characters 0 EmptyString s'
          | w => characters (w - 1) (String c EmptyString) s'
          end
      end
  end.

(** The characters outside ASCII that [str.upper] changes, each with
    its upper-case form, in UTF-8: the case mappings of Unicode 14.0,
    the special ones included (the long s gives [S], a ligature gives
    its letters). *)
Definition UPPERCASE : list (string * string) :=
  [
    ("µ", "Μ"); ("ß", "SS"); ("à", "À"); ("á", "Á"); ("â", "Â");
    ("ã", "Ã"); ("ä", "Ä"); ("å", "Å"); ("æ", "Æ"); ("ç", "Ç");
    ("è", "È"); ("é", "É"); ("ê", "Ê"); ("ë", "Ë"); ("ì", "Ì");
    ("í", "Í"); ("î", "Î"); ("ï", "Ï"); ("ð", "Ð"); ("ñ", "Ñ");
    ("ò", "Ò"); ("ó", "Ó"); ("ô", "Ô"); ("õ", "Õ"); ("ö", "Ö");
    ("ø", "Ø"); ("ù", "Ù"); ("ú", "Ú"); ("û", "Û"); ("ü", "Ü");
    ("ý", "Ý"); ("þ", "Þ"); ("ÿ", "Ÿ"); ("ā", "Ā"); ("ă", "Ă");
    ("ą", "Ą"); ("ć", "Ć"); ("ĉ", "Ĉ"); ("ċ", "Ċ"); ("č", "Č");
    ("ď", "Ď"); ("đ", "Đ"); ("ē", "Ē"); ("ĕ", "Ĕ"); ("ė", "Ė");
    ("ę", "Ę"); ("ě", "Ě"); ("ĝ", "Ĝ"); ("ğ", "Ğ"); ("ġ", "Ġ");
    ("ģ", "Ģ"); ("ĥ", "Ĥ"); ("ħ", "Ħ"); ("ĩ", "Ĩ"); ("ī", "Ī");
    ("ĭ", "Ĭ"); ("į", "Į"); ("ı", "I"); ("ĳ", "Ĳ"); ("ĵ", "Ĵ");
    ("ķ", "Ķ"); ("ĺ", "Ĺ"); ("ļ", "Ļ"); ("ľ", "Ľ"); ("ŀ", "Ŀ");
    ("ł", "Ł"); ("ń", "Ń"); ("ņ", "Ņ"); ("ň", "Ň"); ("ŉ", "ʼN");
    ("ŋ", "Ŋ"); ("ō", "Ō"); ("ŏ", "Ŏ"); ("ő", "Ő"); ("œ", "Œ");
    ("ŕ", "Ŕ"); ("ŗ", "Ŗ"); ("ř", "Ř"); ("ś", "Ś"); ("ŝ", "Ŝ");
    ("ş", "Ş"); ("š", "Š"); ("ţ", "Ţ"); ("ť", "Ť"); ("ŧ", "Ŧ");
    ("ũ", "Ũ"); ("ū", "Ū"); ("ŭ", "Ŭ"); ("ů", "Ů"); ("ű", "Ű");
    ("ų", "Ų"); ("ŵ", "Ŵ"); ("ŷ", "Ŷ"); ("ź", "Ź"); ("ż", "Ż");
    ("ž", "Ž"); ("ſ", "S"); ("ƀ", "Ƀ"); ("ƃ", "Ƃ"); ("ƅ", "Ƅ");
    ("ƈ", "Ƈ"); ("ƌ", "Ƌ"); ("ƒ", "Ƒ"); ("ƕ", "Ƕ"); ("ƙ", "Ƙ");
    ("ƚ", "Ƚ"); ("ƞ", "Ƞ"); ("ơ", "Ơ"); ("ƣ", "Ƣ"); ("ƥ", "Ƥ");
    ("ƨ", "Ƨ"); ("ƭ", "Ƭ"); ("ư", "Ư"); ("ƴ", "Ƴ"); ("ƶ", "Ƶ");
    ("ƹ", "Ƹ"); ("ƽ", "Ƽ"); ("ƿ", "Ƿ"); ("ǅ", "Ǆ"); ("ǆ", "Ǆ");
    ("ǈ", "Ǉ"); ("ǉ", "Ǉ"); ("ǋ", "Ǌ"); ("ǌ", "Ǌ"); ("ǎ", "Ǎ");
    ("ǐ", "Ǐ"); ("ǒ", "Ǒ"); ("ǔ", "Ǔ"); ("ǖ", "Ǖ"); ("ǘ", "Ǘ");
    ("ǚ", "Ǚ"); ("ǜ", "Ǜ"); ("ǝ", "Ǝ"); ("ǟ", "Ǟ"); ("ǡ", "Ǡ");
    ("ǣ", "Ǣ"); ("ǥ", "Ǥ"); ("ǧ", "Ǧ"); ("ǩ", "Ǩ"); ("ǫ", "Ǫ");
    ("ǭ", "Ǭ"); ("ǯ", "Ǯ"); ("ǰ", "J̌"); ("ǲ", "Ǳ"); ("ǳ", "Ǳ");
    ("ǵ", "Ǵ"); ("ǹ", "Ǹ"); ("ǻ", "Ǻ"); ("ǽ", "Ǽ"); ("ǿ", "Ǿ");
    ("ȁ", "Ȁ"); ("ȃ", "Ȃ"); ("ȅ", "Ȅ"); ("ȇ", "Ȇ"); ("ȉ", "Ȉ");
    ("ȋ", "Ȋ"); ("ȍ", "Ȍ"); ("ȏ", "Ȏ"); ("ȑ", "Ȑ"); ("ȓ", "Ȓ");
    ("ȕ", "Ȕ"); ("ȗ", "Ȗ"); ("ș", "Ș"); ("ț", "Ț"); ("ȝ", "Ȝ");
    ("ȟ", "Ȟ"); ("ȣ", "Ȣ"); ("ȥ", "Ȥ"); ("ȧ", "Ȧ"); ("ȩ", "Ȩ");
    ("ȫ", "Ȫ"); ("ȭ", "Ȭ"); ("ȯ", "Ȯ"); ("ȱ", "Ȱ"); ("ȳ", "Ȳ");
    ("ȼ", "Ȼ"); ("ȿ", "Ȿ"); ("ɀ", "Ɀ"); ("ɂ", "Ɂ"); ("ɇ", "Ɇ");
    ("ɉ", "Ɉ"); ("ɋ", "Ɋ"); ("ɍ", "Ɍ"); ("ɏ", "Ɏ"); ("ɐ", "Ɐ");
    ("ɑ", "Ɑ"); ("ɒ", "Ɒ"); ("ɓ", "Ɓ"); ("ɔ", "Ɔ"); ("ɖ", "Ɖ");
    ("ɗ", "Ɗ"); ("ə", "Ə"); ("ɛ", "Ɛ"); ("ɜ", "Ɜ"); ("ɠ", "Ɠ");
    ("ɡ", "Ɡ"); ("ɣ", "Ɣ"); ("ɥ", "Ɥ"); ("ɦ", "Ɦ"); ("ɨ", "Ɨ");
    ("ɩ", "Ɩ"); ("ɪ", "Ɪ"); ("ɫ", "Ɫ"); ("ɬ", "Ɬ"); ("ɯ", "Ɯ");
    ("ɱ", "Ɱ"); ("ɲ", "Ɲ"); ("ɵ", "Ɵ"); ("ɽ", "Ɽ"); ("ʀ", "Ʀ");
    ("ʂ", "Ʂ"); ("ʃ", "Ʃ"); ("ʇ", "Ʇ"); ("ʈ", "Ʈ"); ("ʉ", "Ʉ");
    ("ʊ", "Ʊ"); ("ʋ", "Ʋ"); ("ʌ", "Ʌ"); ("ʒ", "Ʒ"); ("ʝ", "Ʝ");
    ("ʞ", "Ʞ"); ("ͅ", "Ι"); ("ͱ", "Ͱ"); ("ͳ", "Ͳ"); ("ͷ", "Ͷ");
    ("ͻ", "Ͻ"); ("ͼ", "Ͼ"); ("ͽ", "Ͽ"); ("ΐ", "Ϊ́"); ("ά", "Ά");
    ("έ", "Έ"); ("ή", "Ή"); ("ί", "Ί"); ("ΰ", "Ϋ́"); ("α", "Α");
    ("β", "Β"); ("γ", "Γ"); ("δ", "Δ"); ("ε", "Ε"); ("ζ", "Ζ");
    ("η", "Η"); ("θ", "Θ"); ("ι", "Ι"); ("κ", "Κ"); ("λ", "Λ");
    ("μ", "Μ"); ("ν", "Ν"); ("ξ", "Ξ"); ("ο", "Ο"); ("π", "Π");
    ("ρ", "Ρ"); ("ς", "Σ"); ("σ", "Σ"); ("τ", "Τ"); ("υ", "Υ");
    ("φ", "Φ"); ("χ", "Χ"); ("ψ", "Ψ"); ("ω", "Ω"); ("ϊ", "Ϊ");
    ("ϋ", "Ϋ"); ("ό", "Ό"); ("ύ", "Ύ"); ("ώ", "Ώ"); ("ϐ", "Β");
    ("ϑ", "Θ"); ("ϕ", "Φ"); ("ϖ", "Π"); ("ϗ", "Ϗ"); ("ϙ", "Ϙ");
    ("ϛ", "Ϛ"); ("ϝ", "Ϝ"); ("ϟ", "Ϟ"); ("ϡ", "Ϡ"); ("ϣ", "Ϣ");
    ("ϥ", "Ϥ"); ("ϧ", "Ϧ"); ("ϩ", "Ϩ"); ("ϫ", "Ϫ"); ("ϭ", "Ϭ");
    ("ϯ", "Ϯ"); ("ϰ", "Κ"); ("ϱ", "Ρ"); ("ϲ", "Ϲ"); ("ϳ", "Ϳ");
    ("ϵ", "Ε"); ("ϸ", "Ϸ"); ("ϻ", "Ϻ"); ("а", "А"); ("б", "Б");
    ("в", "В"); ("г", "Г"); ("д", "Д"); ("е", "Е"); ("ж", "Ж");
    ("з", "З"); ("и", "И"); ("й", "Й"); ("к", "К"); ("л", "Л");
    ("м", "М"); ("н", "Н"); ("о", "О"); ("п", "П"); ("р", "Р");
    ("с", "С"); ("т", "Т"); ("у", "У"); ("ф", "Ф"); ("х", "Х");
    ("ц", "Ц"); ("ч", "Ч"); ("ш", "Ш"); ("щ", "Щ"); ("ъ", "Ъ");
    ("ы", "Ы"); ("ь", "Ь"); ("э", "Э"); ("ю", "Ю"); ("я", "Я");
    ("ѐ", "Ѐ"); ("ё", "Ё"); ("ђ", "Ђ"); ("ѓ", "Ѓ"); ("є", "Є");
    ("ѕ", "Ѕ"); ("і", "І"); ("ї", "Ї"); ("ј", "Ј"); ("љ", "Љ");
    ("њ", "Њ"); ("ћ", "Ћ"); ("ќ", "Ќ"); ("ѝ", "Ѝ"); ("ў", "Ў");
    ("џ", "Џ"); ("ѡ", "Ѡ"); ("ѣ", "Ѣ"); ("ѥ", "Ѥ"); ("ѧ", "Ѧ");
    ("ѩ", "Ѩ"); ("ѫ", "Ѫ"); ("ѭ", "Ѭ"); ("ѯ", "Ѯ"); ("ѱ", "Ѱ");
    ("ѳ", "Ѳ"); ("ѵ", "Ѵ"); ("ѷ", "Ѷ"); ("ѹ", "Ѹ"); ("ѻ", "Ѻ");
    ("ѽ", "Ѽ"); ("ѿ", "Ѿ"); ("ҁ", "Ҁ"); ("ҋ", "Ҋ"); ("ҍ", "Ҍ");
    ("ҏ", "Ҏ"); ("ґ", "Ґ"); ("ғ", "Ғ"); ("ҕ", "Ҕ"); ("җ", "Җ");
    ("ҙ", "Ҙ"); ("қ", "Қ"); ("ҝ", "Ҝ"); ("ҟ", "Ҟ"); ("ҡ", "Ҡ");
    ("ң", "Ң"); ("ҥ", "Ҥ"); ("ҧ", "Ҧ"); ("ҩ", "Ҩ"); ("ҫ", "Ҫ");
    ("ҭ", "Ҭ"); ("ү", "Ү"); ("ұ", "Ұ"); ("ҳ", "Ҳ"); ("ҵ", "Ҵ");
    ("ҷ", "Ҷ"); ("ҹ", "Ҹ"); ("һ", "Һ"); ("ҽ", "Ҽ"); ("ҿ", "Ҿ");
    ("ӂ", "Ӂ"); ("ӄ", "Ӄ"); ("ӆ", "Ӆ"); ("ӈ", "Ӈ"); ("ӊ", "Ӊ");
    ("ӌ", "Ӌ"); ("ӎ", "Ӎ"); ("ӏ", "Ӏ"); ("ӑ", "Ӑ"); ("ӓ", "Ӓ");
    ("ӕ", "Ӕ"); ("ӗ", "Ӗ"); ("ә", "Ә"); ("ӛ", "Ӛ"); ("ӝ", "Ӝ");
    ("ӟ", "Ӟ"); ("ӡ", "Ӡ"); ("ӣ", "Ӣ"); ("ӥ", "Ӥ"); ("ӧ", "Ӧ");
    ("ө", "Ө"); ("ӫ", "Ӫ"); ("ӭ", "Ӭ"); ("ӯ", "Ӯ"); ("ӱ", "Ӱ");
    ("ӳ", "Ӳ"); ("ӵ", "Ӵ"); ("ӷ", "Ӷ"); ("ӹ", "Ӹ"); ("ӻ", "Ӻ");
    ("ӽ", "Ӽ"); ("ӿ", "Ӿ"); ("ԁ", "Ԁ"); ("ԃ", "Ԃ"); ("ԅ", "Ԅ");
    ("ԇ", "Ԇ"); ("ԉ", "Ԉ"); ("ԋ", "Ԋ"); ("ԍ", "Ԍ"); ("ԏ", "Ԏ");
    ("ԑ", "Ԑ"); ("ԓ", "Ԓ"); ("ԕ", "Ԕ"); ("ԗ", "Ԗ"); ("ԙ", "Ԙ");
    ("ԛ", "Ԛ"); ("ԝ", "Ԝ"); ("ԟ", "Ԟ"); ("ԡ", "Ԡ"); ("ԣ", "Ԣ");
    ("ԥ", "Ԥ"); ("ԧ", "Ԧ"); ("ԩ", "Ԩ"); ("ԫ", "Ԫ"); ("ԭ", "Ԭ");
    ("ԯ", "Ԯ"); ("ա", "Ա"); ("բ", "Բ"); ("գ", "Գ"); ("դ", "Դ");
    ("ե", "Ե"); ("զ", "Զ"); ("է", "Է"); ("ը", "Ը"); ("թ", "Թ");
    ("ժ", "Ժ"); ("ի", "Ի"); ("լ", "Լ"); ("խ", "Խ"); ("ծ", "Ծ");
    ("կ", "Կ"); ("հ", "Հ"); ("ձ", "Ձ"); ("ղ", "Ղ"); ("ճ", "Ճ");
    ("մ", "Մ"); ("յ", "Յ"); ("ն", "Ն"); ("շ", "Շ"); ("ո", "Ո");
    ("չ", "Չ"); ("պ", "Պ"); ("ջ", "Ջ"); ("ռ", "Ռ"); ("ս", "Ս");
    ("վ", "Վ"); ("տ", "Տ"); ("ր", "Ր"); ("ց", "Ց"); ("ւ", "Ւ");
    ("փ", "Փ"); ("ք", "Ք"); ("օ", "Օ"); ("ֆ", "Ֆ"); ("և", "ԵՒ");
    ("ა", "Ა"); ("ბ", "Ბ"); ("გ", "Გ"); ("დ", "Დ"); ("ე", "Ე");
    ("ვ", "Ვ"); ("ზ", "Ზ"); ("თ", "Თ"); ("ი", "Ი"); ("კ", "Კ");
    ("ლ", "Ლ"); ("მ", "Მ"); ("ნ", "Ნ"); ("ო", "Ო"); ("პ", "Პ");
    ("ჟ", "Ჟ"); ("რ", "Რ"); ("ს", "Ს"); ("ტ", "Ტ"); ("უ", "Უ");
    ("ფ", "Ფ"); ("ქ", "Ქ"); ("ღ", "Ღ"); ("ყ", "Ყ"); ("შ", "Შ");
    ("ჩ", "Ჩ"); ("ც", "Ც"); ("ძ", "Ძ"); ("წ", "Წ"); ("ჭ", "Ჭ");
    ("ხ", "Ხ"); ("ჯ", "Ჯ"); ("ჰ", "Ჰ"); ("ჱ", "Ჱ"); ("ჲ", "Ჲ");
    ("ჳ", "Ჳ"); ("ჴ", "Ჴ"); ("ჵ", "Ჵ"); ("ჶ", "Ჶ"); ("ჷ", "Ჷ");
    ("ჸ", "Ჸ"); ("ჹ", "Ჹ"); ("ჺ", "Ჺ"); ("ჽ", "Ჽ"); ("ჾ", "Ჾ");
    ("ჿ", "Ჿ"); ("ᏸ", "Ᏸ"); ("ᏹ", "Ᏹ"); ("ᏺ", "Ᏺ"); ("ᏻ", "Ᏻ");
    ("ᏼ", "Ᏼ"); ("ᏽ", "Ᏽ"); ("ᲀ", "В"); ("ᲁ", "Д"); ("ᲂ", "О");
    ("ᲃ", "С"); ("ᲄ", "Т"); ("ᲅ", "Т"); ("ᲆ", "Ъ"); ("ᲇ", "Ѣ");
    ("ᲈ", "Ꙋ"); ("ᵹ", "Ᵹ"); ("ᵽ", "Ᵽ"); ("ᶎ", "Ᶎ"); ("ḁ", "Ḁ");
    ("ḃ", "Ḃ"); ("ḅ", "Ḅ"); ("ḇ", "Ḇ"); ("ḉ", "Ḉ"); ("ḋ", "Ḋ");
    ("ḍ", "Ḍ"); ("ḏ", "Ḏ"); ("ḑ", "Ḑ"); ("ḓ", "Ḓ"); ("ḕ", "Ḕ");
    ("ḗ", "Ḗ"); ("ḙ", "Ḙ"); ("ḛ", "Ḛ"); ("ḝ", "Ḝ"); ("ḟ", "Ḟ");
    ("ḡ", "Ḡ"); ("ḣ", "Ḣ"); ("ḥ", "Ḥ"); ("ḧ", "Ḧ"); ("ḩ", "Ḩ");
    ("ḫ", "Ḫ"); ("ḭ", "Ḭ"); ("ḯ", "Ḯ"); ("ḱ", "Ḱ"); ("ḳ", "Ḳ");
    ("ḵ", "Ḵ"); ("ḷ", "Ḷ"); ("ḹ", "Ḹ"); ("ḻ", "Ḻ"); ("ḽ", "Ḽ");
    ("ḿ", "Ḿ"); ("ṁ", "Ṁ"); ("ṃ", "Ṃ"); ("ṅ", "Ṅ"); ("ṇ", "Ṇ");
    ("ṉ", "Ṉ"); ("ṋ", "Ṋ"); ("ṍ", "Ṍ"); ("ṏ", "Ṏ"); ("ṑ", "Ṑ");
    ("ṓ", "Ṓ"); ("ṕ", "Ṕ"); ("ṗ", "Ṗ"); ("ṙ", "Ṙ"); ("ṛ", "Ṛ");
    ("ṝ", "Ṝ"); ("ṟ", "Ṟ"); ("ṡ", "Ṡ"); ("ṣ", "Ṣ"); ("ṥ", "Ṥ");
    ("ṧ", "Ṧ"); ("ṩ", "Ṩ"); ("ṫ", "Ṫ"); ("ṭ", "Ṭ"); ("ṯ", "Ṯ");
    ("ṱ", "Ṱ"); ("ṳ", "Ṳ"); ("ṵ", "Ṵ"); ("ṷ", "Ṷ"); ("ṹ", "Ṹ");
    ("ṻ", "Ṻ"); ("ṽ", "Ṽ"); ("ṿ", "Ṿ"); ("ẁ", "Ẁ"); ("ẃ", "Ẃ");
    ("ẅ", "Ẅ"); ("ẇ", "Ẇ"); ("ẉ", "Ẉ"); ("ẋ", "Ẋ"); ("ẍ", "Ẍ");
    ("ẏ", "Ẏ"); ("ẑ", "Ẑ"); ("ẓ", "Ẓ"); ("ẕ", "Ẕ"); ("ẖ", "H̱");
    ("ẗ", "T̈"); ("ẘ", "W̊"); ("ẙ", "Y̊"); ("ẚ", "Aʾ"); ("ẛ", "Ṡ");
    ("ạ", "Ạ"); ("ả", "Ả"); ("ấ", "Ấ"); ("ầ", "Ầ"); ("ẩ", "Ẩ");
    ("ẫ", "Ẫ"); ("ậ", "Ậ"); ("ắ", "Ắ"); ("ằ", "Ằ"); ("ẳ", "Ẳ");
    ("ẵ", "Ẵ"); ("ặ", "Ặ"); ("ẹ", "Ẹ"); ("ẻ", "Ẻ"); ("ẽ", "Ẽ");
    ("ế", "Ế"); ("ề", "Ề"); ("ể", "Ể"); ("ễ", "Ễ"); ("ệ", "Ệ");
    ("ỉ", "Ỉ"); ("ị", "Ị"); ("ọ", "Ọ"); ("ỏ", "Ỏ"); ("ố", "Ố");
    ("ồ", "Ồ"); ("ổ", "Ổ"); ("ỗ", "Ỗ"); ("ộ", "Ộ"); ("ớ", "Ớ");
    ("ờ", "Ờ"); ("ở", "Ở"); ("ỡ", "Ỡ"); ("ợ", "Ợ"); ("ụ", "Ụ");
    ("ủ", "Ủ"); ("ứ", "Ứ"); ("ừ", "Ừ"); ("ử", "Ử"); ("ữ", "Ữ");
    ("ự", "Ự"); ("ỳ", "Ỳ"); ("ỵ", "Ỵ"); ("ỷ", "Ỷ"); ("ỹ", "Ỹ");
    ("ỻ", "Ỻ"); ("ỽ", "Ỽ"); ("ỿ", "Ỿ"); ("ἀ", "Ἀ"); ("ἁ", "Ἁ");
    ("ἂ", "Ἂ"); ("ἃ", "Ἃ"); ("ἄ", "Ἄ"); ("ἅ", "Ἅ"); ("ἆ", "Ἆ");
    ("ἇ", "Ἇ"); ("ἐ", "Ἐ"); ("ἑ", "Ἑ"); ("ἒ", "Ἒ"); ("ἓ", "Ἓ");
    ("ἔ", "Ἔ"); ("ἕ", "Ἕ"); ("ἠ", "Ἠ"); ("ἡ", "Ἡ"); ("ἢ", "Ἢ");
    ("ἣ", "Ἣ"); ("ἤ", "Ἤ"); ("ἥ", "Ἥ"); ("ἦ", "Ἦ"); ("ἧ", "Ἧ");
    ("ἰ", "Ἰ"); ("ἱ", "Ἱ"); ("ἲ", "Ἲ"); ("ἳ", "Ἳ"); ("ἴ", "Ἴ");
    ("ἵ", "Ἵ"); ("ἶ", "Ἶ"); ("ἷ", "Ἷ"); ("ὀ", "Ὀ"); ("ὁ", "Ὁ");
    ("ὂ", "Ὂ"); ("ὃ", "Ὃ"); ("ὄ", "Ὄ"); ("ὅ", "Ὅ"); ("ὐ", "Υ̓");
    ("ὑ", "Ὑ"); ("ὒ", "Υ̓̀"); ("ὓ", "Ὓ"); ("ὔ", "Υ̓́"); ("ὕ", "Ὕ");
    ("ὖ", "Υ̓͂"); ("ὗ", "Ὗ"); ("ὠ", "Ὠ"); ("ὡ", "Ὡ"); ("ὢ", "Ὢ");
    ("ὣ", "Ὣ"); ("ὤ", "Ὤ"); ("ὥ", "Ὥ"); ("ὦ", "Ὦ"); ("ὧ", "Ὧ");
    ("ὰ", "Ὰ"); ("ά", "Ά"); ("ὲ", "Ὲ"); ("έ", "Έ"); ("ὴ", "Ὴ");
    ("ή", "Ή"); ("ὶ", "Ὶ"); ("ί", "Ί"); ("ὸ", "Ὸ"); ("ό", "Ό");
    ("ὺ", "Ὺ"); ("ύ", "Ύ"); ("ὼ", "Ὼ"); ("ώ", "Ώ"); ("ᾀ", "ἈΙ");
    ("ᾁ", "ἉΙ"); ("ᾂ", "ἊΙ"); ("ᾃ", "ἋΙ"); ("ᾄ", "ἌΙ"); ("ᾅ", "ἍΙ");
    ("ᾆ", "ἎΙ"); ("ᾇ", "ἏΙ"); ("ᾈ", "ἈΙ"); ("ᾉ", "ἉΙ"); ("ᾊ", "ἊΙ");
    ("ᾋ", "ἋΙ"); ("ᾌ", "ἌΙ"); ("ᾍ", "ἍΙ"); ("ᾎ", "ἎΙ"); ("ᾏ", "ἏΙ");
    ("ᾐ", "ἨΙ"); ("ᾑ", "ἩΙ"); ("ᾒ", "ἪΙ"); ("ᾓ", "ἫΙ"); ("ᾔ", "ἬΙ");
    ("ᾕ", "ἭΙ"); ("ᾖ", "ἮΙ"); ("ᾗ", "ἯΙ"); ("ᾘ", "ἨΙ"); ("ᾙ", "ἩΙ");
    ("ᾚ", "ἪΙ"); ("ᾛ", "ἫΙ"); ("ᾜ", "ἬΙ"); ("ᾝ", "ἭΙ"); ("ᾞ", "ἮΙ");
    ("ᾟ", "ἯΙ"); ("ᾠ", "ὨΙ"); ("ᾡ", "ὩΙ"); ("ᾢ", "ὪΙ"); ("ᾣ", "ὫΙ");
    ("ᾤ", "ὬΙ"); ("ᾥ", "ὭΙ"); ("ᾦ", "ὮΙ"); ("ᾧ", "ὯΙ"); ("ᾨ", "ὨΙ");
    ("ᾩ", "ὩΙ"); ("ᾪ", "ὪΙ"); ("ᾫ", "ὫΙ"); ("ᾬ", "ὬΙ"); ("ᾭ", "ὭΙ");
    ("ᾮ", "ὮΙ"); ("ᾯ", "ὯΙ"); ("ᾰ", "Ᾰ"); ("ᾱ", "Ᾱ"); ("ᾲ", "ᾺΙ");
    ("ᾳ", "ΑΙ"); ("ᾴ", "ΆΙ"); ("ᾶ", "Α͂"); ("ᾷ", "Α͂Ι"); ("ᾼ", "ΑΙ");
    ("ι", "Ι"); ("ῂ", "ῊΙ"); ("ῃ", "ΗΙ"); ("ῄ", "ΉΙ"); ("ῆ", "Η͂");
    ("ῇ", "Η͂Ι"); ("ῌ", "ΗΙ"); ("ῐ", "Ῐ"); ("ῑ", "Ῑ"); ("ῒ", "Ϊ̀");
    ("ΐ", "Ϊ́"); ("ῖ", "Ι͂"); ("ῗ", "Ϊ͂"); ("ῠ", "Ῠ"); ("ῡ", "Ῡ");
    ("ῢ", "Ϋ̀"); ("ΰ", "Ϋ́"); ("ῤ", "Ρ̓"); ("ῥ", "Ῥ"); ("ῦ", "Υ͂");
    ("ῧ", "Ϋ͂"); ("ῲ", "ῺΙ"); ("ῳ", "ΩΙ"); ("ῴ", "ΏΙ"); ("ῶ", "Ω͂");
    ("ῷ", "Ω͂Ι"); ("ῼ", "ΩΙ"); ("ⅎ", "Ⅎ"); ("ⅰ", "Ⅰ"); ("ⅱ", "Ⅱ");
    ("ⅲ", "Ⅲ"); ("ⅳ", "Ⅳ"); ("ⅴ", "Ⅴ"); ("ⅵ", "Ⅵ"); ("ⅶ", "Ⅶ");
    ("ⅷ", "Ⅷ"); ("ⅸ", "Ⅸ"); ("ⅹ", "Ⅹ"); ("ⅺ", "Ⅺ"); ("ⅻ", "Ⅻ");
    ("ⅼ", "Ⅼ"); ("ⅽ", "Ⅽ"); ("ⅾ", "Ⅾ"); ("ⅿ", "Ⅿ"); ("ↄ", "Ↄ");
    ("ⓐ", "Ⓐ"); ("ⓑ", "Ⓑ"); ("ⓒ", "Ⓒ"); ("ⓓ", "Ⓓ"); ("ⓔ", "Ⓔ");
    ("ⓕ", "Ⓕ"); ("ⓖ", "Ⓖ"); ("ⓗ", "Ⓗ"); ("ⓘ", "Ⓘ"); ("ⓙ", "Ⓙ");
    ("ⓚ", "Ⓚ"); ("ⓛ", "Ⓛ"); ("ⓜ", "Ⓜ"); ("ⓝ", "Ⓝ"); ("ⓞ", "Ⓞ");
    ("ⓟ", "Ⓟ"); ("ⓠ", "Ⓠ"); ("ⓡ", "Ⓡ"); ("ⓢ", "Ⓢ"); ("ⓣ", "Ⓣ");
    ("ⓤ", "Ⓤ"); ("ⓥ", "Ⓥ"); ("ⓦ", "Ⓦ"); ("ⓧ", "Ⓧ"); ("ⓨ", "Ⓨ");
    ("ⓩ", "Ⓩ"); ("ⰰ", "Ⰰ"); ("ⰱ", "Ⰱ"); ("ⰲ", "Ⰲ"); ("ⰳ", "Ⰳ");
    ("ⰴ", "Ⰴ"); ("ⰵ", "Ⰵ"); ("ⰶ", "Ⰶ"); ("ⰷ", "Ⰷ"); ("ⰸ", "Ⰸ");
    ("ⰹ", "Ⰹ"); ("ⰺ", "Ⰺ"); ("ⰻ", "Ⰻ"); ("ⰼ", "Ⰼ"); ("ⰽ", "Ⰽ");
    ("ⰾ", "Ⰾ"); ("ⰿ", "Ⰿ"); ("ⱀ", "Ⱀ"); ("ⱁ", "Ⱁ"); ("ⱂ", "Ⱂ");
    ("ⱃ", "Ⱃ"); ("ⱄ", "Ⱄ"); ("ⱅ", "Ⱅ"); ("ⱆ", "Ⱆ"); ("ⱇ", "Ⱇ");
    ("ⱈ", "Ⱈ"); ("ⱉ", "Ⱉ"); ("ⱊ", "Ⱊ"); ("ⱋ", "Ⱋ"); ("ⱌ", "Ⱌ");
    ("ⱍ", "Ⱍ"); ("ⱎ", "Ⱎ"); ("ⱏ", "Ⱏ"); ("ⱐ", "Ⱐ"); ("ⱑ", "Ⱑ");
    ("ⱒ", "Ⱒ"); ("ⱓ", "Ⱓ"); ("ⱔ", "Ⱔ"); ("ⱕ", "Ⱕ"); ("ⱖ", "Ⱖ");
    ("ⱗ", "Ⱗ"); ("ⱘ", "Ⱘ"); ("ⱙ", "Ⱙ"); ("ⱚ", "Ⱚ"); ("ⱛ", "Ⱛ");
    ("ⱜ", "Ⱜ"); ("ⱝ", "Ⱝ"); ("ⱞ", "Ⱞ"); ("ⱟ", "Ⱟ"); ("ⱡ", "Ⱡ");
    ("ⱥ", "Ⱥ"); ("ⱦ", "Ⱦ"); ("ⱨ", "Ⱨ"); ("ⱪ", "Ⱪ"); ("ⱬ", "Ⱬ");
    ("ⱳ", "Ⱳ"); ("ⱶ", "Ⱶ"); ("ⲁ", "Ⲁ"); ("ⲃ", "Ⲃ"); ("ⲅ", "Ⲅ");
    ("ⲇ", "Ⲇ"); ("ⲉ", "Ⲉ"); ("ⲋ", "Ⲋ"); ("ⲍ", "Ⲍ"); ("ⲏ", "Ⲏ");
    ("ⲑ", "Ⲑ"); ("ⲓ", "Ⲓ"); ("ⲕ", "Ⲕ"); ("ⲗ", "Ⲗ"); ("ⲙ", "Ⲙ");
    ("ⲛ", "Ⲛ"); ("ⲝ", "Ⲝ"); ("ⲟ", "Ⲟ"); ("ⲡ", "Ⲡ"); ("ⲣ", "Ⲣ");
    ("ⲥ", "Ⲥ"); ("ⲧ", "Ⲧ"); ("ⲩ", "Ⲩ"); ("ⲫ", "Ⲫ"); ("ⲭ", "Ⲭ");
    ("ⲯ", "Ⲯ"); ("ⲱ", "Ⲱ"); ("ⲳ", "Ⲳ"); ("ⲵ", "Ⲵ"); ("ⲷ", "Ⲷ");
    ("ⲹ", "Ⲹ"); ("ⲻ", "Ⲻ"); ("ⲽ", "Ⲽ"); ("ⲿ", "Ⲿ"); ("ⳁ", "Ⳁ");
    ("ⳃ", "Ⳃ"); ("ⳅ", "Ⳅ"); ("ⳇ", "Ⳇ"); ("ⳉ", "Ⳉ"); ("ⳋ", "Ⳋ");
    ("ⳍ", "Ⳍ"); ("ⳏ", "Ⳏ"); ("ⳑ", "Ⳑ"); ("ⳓ", "Ⳓ"); ("ⳕ", "Ⳕ");
    ("ⳗ", "Ⳗ"); ("ⳙ", "Ⳙ"); ("ⳛ", "Ⳛ"); ("ⳝ", "Ⳝ"); ("ⳟ", "Ⳟ");
    ("ⳡ", "Ⳡ"); ("ⳣ", "Ⳣ"); ("ⳬ", "Ⳬ"); ("ⳮ", "Ⳮ"); ("ⳳ", "Ⳳ");
    ("ⴀ", "Ⴀ"); ("ⴁ", "Ⴁ"); ("ⴂ", "Ⴂ"); ("ⴃ", "Ⴃ"); ("ⴄ", "Ⴄ");
    ("ⴅ", "Ⴅ"); ("ⴆ", "Ⴆ"); ("ⴇ", "Ⴇ"); ("ⴈ", "Ⴈ"); ("ⴉ", "Ⴉ");
    ("ⴊ", "Ⴊ"); ("ⴋ", "Ⴋ"); ("ⴌ", "Ⴌ"); ("ⴍ", "Ⴍ"); ("ⴎ", "Ⴎ");
    ("ⴏ", "Ⴏ"); ("ⴐ", "Ⴐ"); ("ⴑ", "Ⴑ"); ("ⴒ", "Ⴒ"); ("ⴓ", "Ⴓ");
    ("ⴔ", "Ⴔ"); ("ⴕ", "Ⴕ"); ("ⴖ", "Ⴖ"); ("ⴗ", "Ⴗ"); ("ⴘ", "Ⴘ");
    ("ⴙ", "Ⴙ"); ("ⴚ", "Ⴚ"); ("ⴛ", "Ⴛ"); ("ⴜ", "Ⴜ"); ("ⴝ", "Ⴝ");
    ("ⴞ", "Ⴞ"); ("ⴟ", "Ⴟ"); ("ⴠ", "Ⴠ"); ("ⴡ", "Ⴡ"); ("ⴢ", "Ⴢ");
    ("ⴣ", "Ⴣ"); ("ⴤ", "Ⴤ"); ("ⴥ", "Ⴥ"); ("ⴧ", "Ⴧ"); ("ⴭ", "Ⴭ");
    ("ꙁ", "Ꙁ"); ("ꙃ", "Ꙃ"); ("ꙅ", "Ꙅ"); ("ꙇ", "Ꙇ"); ("ꙉ", "Ꙉ");
    ("ꙋ", "Ꙋ"); ("ꙍ", "Ꙍ"); ("ꙏ", "Ꙏ"); ("ꙑ", "Ꙑ"); ("ꙓ", "Ꙓ");
    ("ꙕ", "Ꙕ"); ("ꙗ", "Ꙗ"); ("ꙙ", "Ꙙ"); ("ꙛ", "Ꙛ"); ("ꙝ", "Ꙝ");
    ("ꙟ", "Ꙟ"); ("ꙡ", "Ꙡ"); ("ꙣ", "Ꙣ"); ("ꙥ", "Ꙥ"); ("ꙧ", "Ꙧ");
    ("ꙩ", "Ꙩ"); ("ꙫ", "Ꙫ"); ("ꙭ", "Ꙭ"); ("ꚁ", "Ꚁ"); ("ꚃ", "Ꚃ");
    ("ꚅ", "Ꚅ"); ("ꚇ", "Ꚇ"); ("ꚉ", "Ꚉ"); ("ꚋ", "Ꚋ"); ("ꚍ", "Ꚍ");
    ("ꚏ", "Ꚏ"); ("ꚑ", "Ꚑ"); ("ꚓ", "Ꚓ"); ("ꚕ", "Ꚕ"); ("ꚗ", "Ꚗ");
    ("ꚙ", "Ꚙ"); ("ꚛ", "Ꚛ"); ("ꜣ", "Ꜣ"); ("ꜥ", "Ꜥ"); ("ꜧ", "Ꜧ");
    ("ꜩ", "Ꜩ"); ("ꜫ", "Ꜫ"); ("ꜭ", "Ꜭ"); ("ꜯ", "Ꜯ"); ("ꜳ", "Ꜳ");
    ("ꜵ", "Ꜵ"); ("ꜷ", "Ꜷ"); ("ꜹ", "Ꜹ"); ("ꜻ", "Ꜻ"); ("ꜽ", "Ꜽ");
    ("ꜿ", "Ꜿ"); ("ꝁ", "Ꝁ"); ("ꝃ", "Ꝃ"); ("ꝅ", "Ꝅ"); ("ꝇ", "Ꝇ");
    ("ꝉ", "Ꝉ"); ("ꝋ", "Ꝋ"); ("ꝍ", "Ꝍ"); ("ꝏ", "Ꝏ"); ("ꝑ", "Ꝑ");
    ("ꝓ", "Ꝓ"); ("ꝕ", "Ꝕ"); ("ꝗ", "Ꝗ"); ("ꝙ", "Ꝙ"); ("ꝛ", "Ꝛ");
    ("ꝝ", "Ꝝ"); ("ꝟ", "Ꝟ"); ("ꝡ", "Ꝡ"); ("ꝣ", "Ꝣ"); ("ꝥ", "Ꝥ");
    ("ꝧ", "Ꝧ"); ("ꝩ", "Ꝩ"); ("ꝫ", "Ꝫ"); ("ꝭ", "Ꝭ"); ("ꝯ", "Ꝯ");
    ("ꝺ", "Ꝺ"); ("ꝼ", "Ꝼ"); ("ꝿ", "Ꝿ"); ("ꞁ", "Ꞁ"); ("ꞃ", "Ꞃ");
    ("ꞅ", "Ꞅ"); ("ꞇ", "Ꞇ"); ("ꞌ", "Ꞌ"); ("ꞑ", "Ꞑ"); ("ꞓ", "Ꞓ");
    ("ꞔ", "Ꞔ"); ("ꞗ", "Ꞗ"); ("ꞙ", "Ꞙ"); ("ꞛ", "Ꞛ"); ("ꞝ", "Ꞝ");
    ("ꞟ", "Ꞟ"); ("ꞡ", "Ꞡ"); ("ꞣ", "Ꞣ"); ("ꞥ", "Ꞥ"); ("ꞧ", "Ꞧ");
    ("ꞩ", "Ꞩ"); ("ꞵ", "Ꞵ"); ("ꞷ", "Ꞷ"); ("ꞹ", "Ꞹ"); ("ꞻ", "Ꞻ");
    ("ꞽ", "Ꞽ"); ("ꞿ", "Ꞿ"); ("ꟁ", "Ꟁ"); ("ꟃ", "Ꟃ"); ("ꟈ", "Ꟈ");
    ("ꟊ", "Ꟊ"); ("ꟑ", "Ꟑ"); ("ꟗ", "Ꟗ"); ("ꟙ", "Ꟙ"); ("ꟶ", "Ꟶ");
    ("ꭓ", "Ꭓ"); ("ꭰ", "Ꭰ"); ("ꭱ", "Ꭱ"); ("ꭲ", "Ꭲ"); ("ꭳ", "Ꭳ");
    ("ꭴ", "Ꭴ"); ("ꭵ", "Ꭵ"); ("ꭶ", "Ꭶ"); ("ꭷ", "Ꭷ"); ("ꭸ", "Ꭸ");
    ("ꭹ", "Ꭹ"); ("ꭺ", "Ꭺ"); ("ꭻ", "Ꭻ"); ("ꭼ", "Ꭼ"); ("ꭽ", "Ꭽ");
    ("ꭾ", "Ꭾ"); ("ꭿ", "Ꭿ"); ("ꮀ", "Ꮀ"); ("ꮁ", "Ꮁ"); ("ꮂ", "Ꮂ");
    ("ꮃ", "Ꮃ"); ("ꮄ", "Ꮄ"); ("ꮅ", "Ꮅ"); ("ꮆ", "Ꮆ"); ("ꮇ", "Ꮇ");
    ("ꮈ", "Ꮈ"); ("ꮉ", "Ꮉ"); ("ꮊ", "Ꮊ"); ("ꮋ", "Ꮋ"); ("ꮌ", "Ꮌ");
    ("ꮍ", "Ꮍ"); ("ꮎ", "Ꮎ"); ("ꮏ", "Ꮏ"); ("ꮐ", "Ꮐ"); ("ꮑ", "Ꮑ");
    ("ꮒ", "Ꮒ"); ("ꮓ", "Ꮓ"); ("ꮔ", "Ꮔ"); ("ꮕ", "Ꮕ"); ("ꮖ", "Ꮖ");
    ("ꮗ", "Ꮗ"); ("ꮘ", "Ꮘ"); ("ꮙ", "Ꮙ"); ("ꮚ", "Ꮚ"); ("ꮛ", "Ꮛ");
    ("ꮜ", "Ꮜ"); ("ꮝ", "Ꮝ"); ("ꮞ", "Ꮞ"); ("ꮟ", "Ꮟ"); ("ꮠ", "Ꮠ");
    ("ꮡ", "Ꮡ"); ("ꮢ", "Ꮢ"); ("ꮣ", "Ꮣ"); ("ꮤ", "Ꮤ"); ("ꮥ", "Ꮥ");
    ("ꮦ", "Ꮦ"); ("ꮧ", "Ꮧ"); ("ꮨ", "Ꮨ"); ("ꮩ", "Ꮩ"); ("ꮪ", "Ꮪ");
    ("ꮫ", "Ꮫ"); ("ꮬ", "Ꮬ"); ("ꮭ", "Ꮭ"); ("ꮮ", "Ꮮ"); ("ꮯ", "Ꮯ");
    ("ꮰ", "Ꮰ"); ("ꮱ", "Ꮱ"); ("ꮲ", "Ꮲ"); ("ꮳ", "Ꮳ"); ("ꮴ", "Ꮴ");
    ("ꮵ", "Ꮵ"); ("ꮶ", "Ꮶ"); ("ꮷ", "Ꮷ"); ("ꮸ", "Ꮸ"); ("ꮹ", "Ꮹ");
    ("ꮺ", "Ꮺ"); ("ꮻ", "Ꮻ"); ("ꮼ", "Ꮼ"); ("ꮽ", "Ꮽ"); ("ꮾ", "Ꮾ");
    ("ꮿ", "Ꮿ"); ("ﬀ", "FF"); ("ﬁ", "FI"); ("ﬂ", "FL"); ("ﬃ", "FFI");
    ("ﬄ", "FFL"); ("ﬅ", "ST"); ("ﬆ", "ST"); ("ﬓ", "ՄՆ"); ("ﬔ", "ՄԵ");
    ("ﬕ", "ՄԻ"); ("ﬖ", "ՎՆ"); ("ﬗ", "ՄԽ"); ("ａ", "Ａ"); ("ｂ", "Ｂ");
    ("ｃ", "Ｃ"); ("ｄ", "Ｄ"); ("ｅ", "Ｅ"); ("ｆ", "Ｆ"); ("ｇ", "Ｇ");
    ("ｈ", "Ｈ"); ("ｉ", "Ｉ"); ("ｊ", "Ｊ"); ("ｋ", "Ｋ"); ("ｌ", "Ｌ");
    ("ｍ", "Ｍ"); ("ｎ", "Ｎ"); ("ｏ", "Ｏ"); ("ｐ", "Ｐ"); ("ｑ", "Ｑ");
    ("ｒ", "Ｒ"); ("ｓ", "Ｓ"); ("ｔ", "Ｔ"); ("ｕ", "Ｕ"); ("ｖ", "Ｖ");
    ("ｗ", "Ｗ"); ("ｘ", "Ｘ"); ("ｙ", "Ｙ"); ("ｚ", "Ｚ"); ("𐐨", "𐐀");
    ("𐐩", "𐐁"); ("𐐪", "𐐂"); ("𐐫", "𐐃"); ("𐐬", "𐐄"); ("𐐭", "𐐅");
    ("𐐮", "𐐆"); ("𐐯", "𐐇"); ("𐐰", "𐐈"); ("𐐱", "𐐉"); ("𐐲", "𐐊");
    ("𐐳", "𐐋"); ("𐐴", "𐐌"); ("𐐵", "𐐍"); ("𐐶", "𐐎"); ("𐐷", "𐐏");
    ("𐐸", "𐐐"); ("𐐹", "𐐑"); ("𐐺", "𐐒"); ("𐐻", "𐐓"); ("𐐼", "𐐔");
    ("𐐽", "𐐕"); ("𐐾", "𐐖"); ("𐐿", "𐐗"); ("𐑀", "𐐘"); ("𐑁", "𐐙");
    ("𐑂", "𐐚"); ("𐑃", "𐐛"); ("𐑄", "𐐜"); ("𐑅", "𐐝"); ("𐑆", "𐐞");
    ("𐑇", "𐐟"); ("𐑈", "𐐠"); ("𐑉", "𐐡"); ("𐑊", "𐐢"); ("𐑋", "𐐣");
    ("𐑌", "𐐤"); ("𐑍", "𐐥"); ("𐑎", "𐐦"); ("𐑏", "𐐧"); ("𐓘", "𐒰");
    ("𐓙", "𐒱"); ("𐓚", "𐒲"); ("𐓛", "𐒳"); ("𐓜", "𐒴"); ("𐓝", "𐒵");
    ("𐓞", "𐒶"); ("𐓟", "𐒷"); ("𐓠", "𐒸"); ("𐓡", "𐒹"); ("𐓢", "𐒺");
    ("𐓣", "𐒻"); ("𐓤", "𐒼"); ("𐓥", "𐒽"); ("𐓦", "𐒾"); ("𐓧", "𐒿");
    ("𐓨", "𐓀"); ("𐓩", "𐓁"); ("𐓪", "𐓂"); ("𐓫", "𐓃"); ("𐓬", "𐓄");
    ("𐓭", "𐓅"); ("𐓮", "𐓆"); ("𐓯", "𐓇"); ("𐓰", "𐓈"); ("𐓱", "𐓉");
    ("𐓲", "𐓊"); ("𐓳", "𐓋"); ("𐓴", "𐓌"); ("𐓵", "𐓍"); ("𐓶", "𐓎");
    ("𐓷", "𐓏"); ("𐓸", "𐓐"); ("𐓹", "𐓑"); ("𐓺", "𐓒"); ("𐓻", "𐓓");
    ("𐖗", "𐕰"); ("𐖘", "𐕱"); ("𐖙", "𐕲"); ("𐖚", "𐕳"); ("𐖛", "𐕴");
    ("𐖜", "𐕵"); ("𐖝", "𐕶"); ("𐖞", "𐕷"); ("𐖟", "𐕸"); ("𐖠", "𐕹");
    ("𐖡", "𐕺"); ("𐖣", "𐕼"); ("𐖤", "𐕽"); ("𐖥", "𐕾"); ("𐖦", "𐕿");
    ("𐖧", "𐖀"); ("𐖨", "𐖁"); ("𐖩", "𐖂"); ("𐖪", "𐖃"); ("𐖫", "𐖄");
    ("𐖬", "𐖅"); ("𐖭", "𐖆"); ("𐖮", "𐖇"); ("𐖯", "𐖈"); ("𐖰", "𐖉");
    ("𐖱", "𐖊"); ("𐖳", "𐖌"); ("𐖴", "𐖍"); ("𐖵", "𐖎"); ("𐖶", "𐖏");
    ("𐖷", "𐖐"); ("𐖸", "𐖑"); ("𐖹", "𐖒"); ("𐖻", "𐖔"); ("𐖼", "𐖕");
    ("𐳀", "𐲀"); ("𐳁", "𐲁"); ("𐳂", "𐲂"); ("𐳃", "𐲃"); ("𐳄", "𐲄");
    ("𐳅", "𐲅"); ("𐳆", "𐲆"); ("𐳇", "𐲇"); ("𐳈", "𐲈"); ("𐳉", "𐲉");
    ("𐳊", "𐲊"); ("𐳋", "𐲋"); ("𐳌", "𐲌"); ("𐳍", "𐲍"); ("𐳎", "𐲎");
    ("𐳏", "𐲏"); ("𐳐", "𐲐"); ("𐳑", "𐲑"); ("𐳒", "𐲒"); ("𐳓", "𐲓");
    ("𐳔", "𐲔"); ("𐳕", "𐲕"); ("𐳖", "𐲖"); ("𐳗", "𐲗"); ("𐳘", "𐲘");
    ("𐳙", "𐲙"); ("𐳚", "𐲚"); ("𐳛", "𐲛"); ("𐳜", "𐲜"); ("𐳝", "𐲝");
    ("𐳞", "𐲞"); ("𐳟", "𐲟"); ("𐳠", "𐲠"); ("𐳡", "𐲡"); ("𐳢", "𐲢");
    ("𐳣", "𐲣"); ("𐳤", "𐲤"); ("𐳥", "𐲥"); ("𐳦", "𐲦"); ("𐳧", "𐲧");
    ("𐳨", "𐲨"); ("𐳩", "𐲩"); ("𐳪", "𐲪"); ("𐳫", "𐲫"); ("𐳬", "𐲬");
    ("𐳭", "𐲭"); ("𐳮", "𐲮"); ("𐳯", "𐲯"); ("𐳰", "𐲰"); ("𐳱", "𐲱");
    ("𐳲", "𐲲"); ("𑣀", "𑢠"); ("𑣁", "𑢡"); ("𑣂", "𑢢"); ("𑣃", "𑢣");
    ("𑣄", "𑢤"); ("𑣅", "𑢥"); ("𑣆", "𑢦"); ("𑣇", "𑢧"); ("𑣈", "𑢨");
    ("𑣉", "𑢩"); ("𑣊", "𑢪"); ("𑣋", "𑢫"); ("𑣌", "𑢬"); ("𑣍", "𑢭");
    ("𑣎", "𑢮"); ("𑣏", "𑢯"); ("𑣐", "𑢰"); ("𑣑", "𑢱"); ("𑣒", "𑢲");
    ("𑣓", "𑢳"); ("𑣔", "𑢴"); ("𑣕", "𑢵"); ("𑣖", "𑢶"); ("𑣗", "𑢷");
    ("𑣘", "𑢸"); ("𑣙", "𑢹"); ("𑣚", "𑢺"); ("𑣛", "𑢻"); ("𑣜", "𑢼");
    ("𑣝", "𑢽"); ("𑣞", "𑢾"); ("𑣟", "𑢿"); ("𖹠", "𖹀"); ("𖹡", "𖹁");
    ("𖹢", "𖹂"); ("𖹣", "𖹃"); ("𖹤", "𖹄"); ("𖹥", "𖹅"); ("𖹦", "𖹆");
    ("𖹧", "𖹇"); ("𖹨", "𖹈"); ("𖹩", "𖹉"); ("𖹪", "𖹊"); ("𖹫", "𖹋");
    ("𖹬", "𖹌"); ("𖹭", "𖹍"); ("𖹮", "𖹎"); ("𖹯", "𖹏"); ("𖹰", "𖹐");
    ("𖹱", "𖹑"); ("𖹲", "𖹒"); ("𖹳", "𖹓"); ("𖹴", "𖹔"); ("𖹵", "𖹕");
    ("𖹶", "𖹖"); ("𖹷", "𖹗"); ("𖹸", "𖹘"); ("𖹹", "𖹙"); ("𖹺", "𖹚");
    ("𖹻", "𖹛"); ("𖹼", "𖹜"); ("𖹽", "𖹝"); ("𖹾", "𖹞"); ("𖹿", "𖹟");
    ("𞤢", "𞤀"); ("𞤣", "𞤁"); ("𞤤", "𞤂"); ("𞤥", "𞤃"); ("𞤦", "𞤄");
    ("𞤧", "𞤅"); ("𞤨", "𞤆"); ("𞤩", "𞤇"); ("𞤪", "𞤈"); ("𞤫", "𞤉");
    ("𞤬", "𞤊"); ("𞤭", "𞤋"); ("𞤮", "𞤌"); ("𞤯", "𞤍"); ("𞤰", "𞤎");
    ("𞤱", "𞤏"); ("𞤲", "𞤐"); ("𞤳", "𞤑"); ("𞤴", "𞤒"); ("𞤵", "𞤓");
    ("𞤶", "𞤔"); ("𞤷", "𞤕"); ("𞤸", "𞤖"); ("𞤹", "𞤗"); ("𞤺", "𞤘");
    ("𞤻", "𞤙"); ("𞤼", "𞤚"); ("𞤽", "𞤛"); ("𞤾", "𞤜"); ("𞤿", "𞤝");
    ("𞥀", "𞤞"); ("𞥁", "𞤟"); ("𞥂", "𞤠"); ("𞥃", "𞤡")
  ].

Fixpoint upper_form (table : list (string * string)) (ch : string) : string :=
  match table with
  | [] => ch
  | (small, capital) :: rest => if String.eqb small ch then capital else upper_form rest ch
  end.

(** The upper-case form of one character *)
Definition upper_character (ch : string) : string :=
  match ch with
  | String c EmptyString => String (upper_char c) EmptyString
  | _ => upper_form UPPERCASE ch
  end.

(** [s.upper()]: character by character, whatever stands around it. *)
Definition upper (s : string) : string :=
  String.concat EmptyString (map upper_character (characters 0 EmptyString s)).

(** [s.lower()], on the ASCII letters.  A character above ASCII is
    lowered by [str.lower] to characters above ASCII, but for the dotted
    capital I, which gives [i] and a combining dot, and the Kelvin sign,
    which gives [k]: a word without [k] that does not end in [i] occurs
    in the one lowered text exactly when it occurs in the other. *)
Fixpoint lower (s : string) : string :=
  match s with
  | EmptyString => EmptyString
  | String c s' => String (lower_char c) (lower s')
  end.

(** [needle in hay] on strings *)
Fixpoint contains (needle hay : string) : bool :=
  String.prefix needle hay ||
  match hay with
  | EmptyString => false
  | String _ hay' => contains needle hay'
  end.

(** [s.startswith(p)] *)
Definition startswith (p s : string) : bool := String.prefix p s.

(** [s.rstrip(c)] for a single character [c] *)
Fixpoint rstrip (c : ascii) (s : string) : string :=
  match s with
  | EmptyString => EmptyString
  | String a s' =>
      match rstrip c s' with
      | EmptyString => if Ascii.eqb a c then EmptyString else String a EmptyString
      | r => String a r
      end
  end.

(** [s.endswith(c)] for a single character, and [s[:-1]] *)
Fixpoint endswith_char (c : ascii) (s : string) : bool :=
  match s with
  | EmptyString => false
  | String a EmptyString => Ascii.eqb a c
  | String _ s' => endswith_char c s'
  end.

Fixpoint drop_last (s : string) : string :=
  match s with
  | EmptyString => EmptyString
  | String _ EmptyString => EmptyString
  | String a s' => String a (drop_last s')
  end.

(** The code point of a character given by its UTF-8 bytes *)
Definition code_point (ch : string) : N :=
  let byte (c : ascii) (base : N) : N := (N_of_ascii c - base)%N in
  match ch with
  | String a EmptyString => N_of_ascii a
  | String a (String b EmptyString) => (byte a 192 * 64 + byte b 128)%N
  | String a (String b (String c EmptyString)) =>
      (byte a 224 * 4096 + byte b 128 * 64 + byte c 128)%N
  | String a (String b (String c (String d EmptyString))) =>
      (byte a 240 * 262144 + byte b 128 * 4096 + byte c 128 * 64 + byte d 128)%N
  | _ => 0%N
  end.

Definition within (ranges : list (N * N)) (n : N) : bool :=
  existsb (fun '(lo, hi) => (lo <=? n)%N && (n <=? hi)%N) ranges.

(** The characters [str.strip()] removes: the white space of Unicode. *)
Definition WHITESPACE : list (N * N) :=
  [ (0x09, 0x0d); (0x1c, 0x20); (0x85, 0x85); (0xa0, 0xa0); (0x1680, 0x1680);
    (0x2000, 0x200a); (0x2028, 0x2029); (0x202f, 0x202f); (0x205f, 0x205f);
    (0x3000, 0x3000) ]%N.

Definition is_space (ch : string) : bool := within WHITESPACE (code_point ch).

Definition all_space (s : string) : bool :=
  forallb is_space (characters 0 EmptyString s).

(** Truth value of [s.strip()]: false exactly when only blanks remain. *)
Definition strip_truthy (s : string) : bool := negb (all_space s).

(** Truth value of a string, and of an optional string ([None] is false). *)
Definition truthy_str (s : string) : bool :=
  match s with EmptyString => false | _ => true end.

Definition truthy_opt (o : option string) : bool :=
  match o with Some s => truthy_str s | None => false end.

(** [a or b] on optional strings *)
Definition or_opt (a b : option string) : option string :=
  if truthy_opt a then a else b.

(** [str(n)] for an integer *)
Definition str_int (z : Z) : string := NilZero.string_of_int (Z.to_int z).

(** [sep.join(l)] *)
Definition join (sep : string) (l : list string) : string := String.concat sep l.

Definition dquote : string := String (ascii_of_nat 34) EmptyString.
Definition squote : string := String (ascii_of_nat 39) EmptyString.
Definition backslash : string := String (ascii_of_nat 92) EmptyString.

Definition hex_digit (n : nat) : ascii :=
  if (n <? 10)%nat then ascii_of_nat (48 + n) else ascii_of_nat (87 + n).

(** [n] in [digits] hexadecimal digits, in lower case *)
Fixpoint hex (digits : nat) (n : N) : string :=
  match digits with
  | O => EmptyString
  | S k => hex k (n / 16) +:+ String (hex_digit (N.to_nat (n mod 16))) EmptyString
  end.

(** The code points above ASCII that are not printable ([str.isprintable]
    is false: controls, formats, separators, surrogates, private use,
    unassigned), as ranges with both ends included; Unicode 14.0. *)
Definition NONPRINTABLE : list (N * N) :=
  [
    (0x80, 0xa0); (0xad, 0xad); (0x378, 0x379); (0x380, 0x383); (0x38b, 0x38b);
    (0x38d, 0x38d); (0x3a2, 0x3a2); (0x530, 0x530); (0x557, 0x558); (0x58b, 0x58c);
    (0x590, 0x590); (0x5c8, 0x5cf); (0x5eb, 0x5ee); (0x5f5, 0x605); (0x61c, 0x61c);
    (0x6dd, 0x6dd); (0x70e, 0x70f); (0x74b, 0x74c); (0x7b2, 0x7bf); (0x7fb, 0x7fc);
    (0x82e, 0x82f); (0x83f, 0x83f); (0x85c, 0x85d); (0x85f, 0x85f); (0x86b, 0x86f);
    (0x88f, 0x897); (0x8e2, 0x8e2); (0x984, 0x984); (0x98d, 0x98e); (0x991, 0x992);
    (0x9a9, 0x9a9); (0x9b1, 0x9b1); (0x9b3, 0x9b5); (0x9ba, 0x9bb); (0x9c5, 0x9c6);
    (0x9c9, 0x9ca); (0x9cf, 0x9d6); (0x9d8, 0x9db); (0x9de, 0x9de); (0x9e4, 0x9e5);
    (0x9ff, 0xa00); (0xa04, 0xa04); (0xa0b, 0xa0e); (0xa11, 0xa12); (0xa29, 0xa29);
    (0xa31, 0xa31); (0xa34, 0xa34); (0xa37, 0xa37); (0xa3a, 0xa3b); (0xa3d, 0xa3d);
    (0xa43, 0xa46); (0xa49, 0xa4a); (0xa4e, 0xa50); (0xa52, 0xa58); (0xa5d, 0xa5d);
    (0xa5f, 0xa65); (0xa77, 0xa80); (0xa84, 0xa84); (0xa8e, 0xa8e); (0xa92, 0xa92);
    (0xaa9, 0xaa9); (0xab1, 0xab1); (0xab4, 0xab4); (0xaba, 0xabb); (0xac6, 0xac6);
    (0xaca, 0xaca); (0xace, 0xacf); (0xad1, 0xadf); (0xae4, 0xae5); (0xaf2, 0xaf8);
    (0xb00, 0xb00); (0xb04, 0xb04); (0xb0d, 0xb0e); (0xb11, 0xb12); (0xb29, 0xb29);
    (0xb31, 0xb31); (0xb34, 0xb34); (0xb3a, 0xb3b); (0xb45, 0xb46); (0xb49, 0xb4a);
    (0xb4e, 0xb54); (0xb58, 0xb5b); (0xb5e, 0xb5e); (0xb64, 0xb65); (0xb78, 0xb81);
    (0xb84, 0xb84); (0xb8b, 0xb8d); (0xb91, 0xb91); (0xb96, 0xb98); (0xb9b, 0xb9b);
    (0xb9d, 0xb9d); (0xba0, 0xba2); (0xba5, 0xba7); (0xbab, 0xbad); (0xbba, 0xbbd);
    (0xbc3, 0xbc5); (0xbc9, 0xbc9); (0xbce, 0xbcf); (0xbd1, 0xbd6); (0xbd8, 0xbe5);
    (0xbfb, 0xbff); (0xc0d, 0xc0d); (0xc11, 0xc11); (0xc29, 0xc29); (0xc3a, 0xc3b);
    (0xc45, 0xc45); (0xc49, 0xc49); (0xc4e, 0xc54); (0xc57, 0xc57); (0xc5b, 0xc5c);
    (0xc5e, 0xc5f); (0xc64, 0xc65); (0xc70, 0xc76); (0xc8d, 0xc8d); (0xc91, 0xc91);
    (0xca9, 0xca9); (0xcb4, 0xcb4); (0xcba, 0xcbb); (0xcc5, 0xcc5); (0xcc9, 0xcc9);
    (0xcce, 0xcd4); (0xcd7, 0xcdc); (0xcdf, 0xcdf); (0xce4, 0xce5); (0xcf0, 0xcf0);
    (0xcf3, 0xcff); (0xd0d, 0xd0d); (0xd11, 0xd11); (0xd45, 0xd45); (0xd49, 0xd49);
    (0xd50, 0xd53); (0xd64, 0xd65); (0xd80, 0xd80); (0xd84, 0xd84); (0xd97, 0xd99);
    (0xdb2, 0xdb2); (0xdbc, 0xdbc); (0xdbe, 0xdbf); (0xdc7, 0xdc9); (0xdcb, 0xdce);
    (0xdd5, 0xdd5); (0xdd7, 0xdd7); (0xde0, 0xde5); (0xdf0, 0xdf1); (0xdf5, 0xe00);
    (0xe3b, 0xe3e); (0xe5c, 0xe80); (0xe83, 0xe83); (0xe85, 0xe85); (0xe8b, 0xe8b);
    (0xea4, 0xea4); (0xea6, 0xea6); (0xebe, 0xebf); (0xec5, 0xec5); (0xec7, 0xec7);
    (0xece, 0xecf); (0xeda, 0xedb); (0xee0, 0xeff); (0xf48, 0xf48); (0xf6d, 0xf70);
    (0xf98, 0xf98); (0xfbd, 0xfbd); (0xfcd, 0xfcd); (0xfdb, 0xfff); (0x10c6, 0x10c6);
    (0x10c8, 0x10cc); (0x10ce, 0x10cf); (0x1249, 0x1249); (0x124e, 0x124f);
    (0x1257, 0x1257); (0x1259, 0x1259); (0x125e, 0x125f); (0x1289, 0x1289);
    (0x128e, 0x128f); (0x12b1, 0x12b1); (0x12b6, 0x12b7); (0x12bf, 0x12bf);
    (0x12c1, 0x12c1); (0x12c6, 0x12c7); (0x12d7, 0x12d7); (0x1311, 0x1311);
    (0x1316, 0x1317); (0x135b, 0x135c); (0x137d, 0x137f); (0x139a, 0x139f);
    (0x13f6, 0x13f7); (0x13fe, 0x13ff); (0x1680, 0x1680); (0x169d, 0x169f);
    (0x16f9, 0x16ff); (0x1716, 0x171e); (0x1737, 0x173f); (0x1754, 0x175f);
    (0x176d, 0x176d); (0x1771, 0x1771); (0x1774, 0x177f); (0x17de, 0x17df);
    (0x17ea, 0x17ef); (0x17fa, 0x17ff); (0x180e, 0x180e); (0x181a, 0x181f);
    (0x1879, 0x187f); (0x18ab, 0x18af); (0x18f6, 0x18ff); (0x191f, 0x191f);
    (0x192c, 0x192f); (0x193c, 0x193f); (0x1941, 0x1943); (0x196e, 0x196f);
    (0x1975, 0x197f); (0x19ac, 0x19af); (0x19ca, 0x19cf); (0x19db, 0x19dd);
    (0x1a1c, 0x1a1d); (0x1a5f, 0x1a5f); (0x1a7d, 0x1a7e); (0x1a8a, 0x1a8f);
    (0x1a9a, 0x1a9f); (0x1aae, 0x1aaf); (0x1acf, 0x1aff); (0x1b4d, 0x1b4f);
    (0x1b7f, 0x1b7f); (0x1bf4, 0x1bfb); (0x1c38, 0x1c3a); (0x1c4a, 0x1c4c);
    (0x1c89, 0x1c8f); (0x1cbb, 0x1cbc); (0x1cc8, 0x1ccf); (0x1cfb, 0x1cff);
    (0x1f16, 0x1f17); (0x1f1e, 0x1f1f); (0x1f46, 0x1f47); (0x1f4e, 0x1f4f);
    (0x1f58, 0x1f58); (0x1f5a, 0x1f5a); (0x1f5c, 0x1f5c); (0x1f5e, 0x1f5e);
    (0x1f7e, 0x1f7f); (0x1fb5, 0x1fb5); (0x1fc5, 0x1fc5); (0x1fd4, 0x1fd5);
    (0x1fdc, 0x1fdc); (0x1ff0, 0x1ff1); (0x1ff5, 0x1ff5); (0x1fff, 0x200f);
    (0x2028, 0x202f); (0x205f, 0x206f); (0x2072, 0x2073); (0x208f, 0x208f);
    (0x209d, 0x209f); (0x20c1, 0x20cf); (0x20f1, 0x20ff); (0x218c, 0x218f);
    (0x2427, 0x243f); (0x244b, 0x245f); (0x2b74, 0x2b75); (0x2b96, 0x2b96);
    (0x2cf4, 0x2cf8); (0x2d26, 0x2d26); (0x2d28, 0x2d2c); (0x2d2e, 0x2d2f);
    (0x2d68, 0x2d6e); (0x2d71, 0x2d7e); (0x2d97, 0x2d9f); (0x2da7, 0x2da7);
    (0x2daf, 0x2daf); (0x2db7, 0x2db7); (0x2dbf, 0x2dbf); (0x2dc7, 0x2dc7);
    (0x2dcf, 0x2dcf); (0x2dd7, 0x2dd7); (0x2ddf, 0x2ddf); (0x2e5e, 0x2e7f);
    (0x2e9a, 0x2e9a); (0x2ef4, 0x2eff); (0x2fd6, 0x2fef); (0x2ffc, 0x3000);
    (0x3040, 0x3040); (0x3097, 0x3098); (0x3100, 0x3104); (0x3130, 0x3130);
    (0x318f, 0x318f); (0x31e4, 0x31ef); (0x321f, 0x321f); (0xa48d, 0xa48f);
    (0xa4c7, 0xa4cf); (0xa62c, 0xa63f); (0xa6f8, 0xa6ff); (0xa7cb, 0xa7cf);
    (0xa7d2, 0xa7d2); (0xa7d4, 0xa7d4); (0xa7da, 0xa7f1); (0xa82d, 0xa82f);
    (0xa83a, 0xa83f); (0xa878, 0xa87f); (0xa8c6, 0xa8cd); (0xa8da, 0xa8df);
    (0xa954, 0xa95e); (0xa97d, 0xa97f); (0xa9ce, 0xa9ce); (0xa9da, 0xa9dd);
    (0xa9ff, 0xa9ff); (0xaa37, 0xaa3f); (0xaa4e, 0xaa4f); (0xaa5a, 0xaa5b);
    (0xaac3, 0xaada); (0xaaf7, 0xab00); (0xab07, 0xab08); (0xab0f, 0xab10);
    (0xab17, 0xab1f); (0xab27, 0xab27); (0xab2f, 0xab2f); (0xab6c, 0xab6f);
    (0xabee, 0xabef); (0xabfa, 0xabff); (0xd7a4, 0xd7af); (0xd7c7, 0xd7ca);
    (0xd7fc, 0xf8ff); (0xfa6e, 0xfa6f); (0xfada, 0xfaff); (0xfb07, 0xfb12);
    (0xfb18, 0xfb1c); (0xfb37, 0xfb37); (0xfb3d, 0xfb3d); (0xfb3f, 0xfb3f);
    (0xfb42, 0xfb42); (0xfb45, 0xfb45); (0xfbc3, 0xfbd2); (0xfd90, 0xfd91);
    (0xfdc8, 0xfdce); (0xfdd0, 0xfdef); (0xfe1a, 0xfe1f); (0xfe53, 0xfe53);
    (0xfe67, 0xfe67); (0xfe6c, 0xfe6f); (0xfe75, 0xfe75); (0xfefd, 0xff00);
    (0xffbf, 0xffc1); (0xffc8, 0xffc9); (0xffd0, 0xffd1); (0xffd8, 0xffd9);
    (0xffdd, 0xffdf); (0xffe7, 0xffe7); (0xffef, 0xfffb); (0xfffe, 0xffff);
    (0x1000c, 0x1000c); (0x10027, 0x10027); (0x1003b, 0x1003b); (0x1003e, 0x1003e);
    (0x1004e, 0x1004f); (0x1005e, 0x1007f); (0x100fb, 0x100ff); (0x10103, 0x10106);
    (0x10134, 0x10136); (0x1018f, 0x1018f); (0x1019d, 0x1019f); (0x101a1, 0x101cf);
    (0x101fe, 0x1027f); (0x1029d, 0x1029f); (0x102d1, 0x102df); (0x102fc, 0x102ff);
    (0x10324, 0x1032c); (0x1034b, 0x1034f); (0x1037b, 0x1037f); (0x1039e, 0x1039e);
    (0x103c4, 0x103c7); (0x103d6, 0x103ff); (0x1049e, 0x1049f); (0x104aa, 0x104af);
    (0x104d4, 0x104d7); (0x104fc, 0x104ff); (0x10528, 0x1052f); (0x10564, 0x1056e);
    (0x1057b, 0x1057b); (0x1058b, 0x1058b); (0x10593, 0x10593); (0x10596, 0x10596);
    (0x105a2, 0x105a2); (0x105b2, 0x105b2); (0x105ba, 0x105ba); (0x105bd, 0x105ff);
    (0x10737, 0x1073f); (0x10756, 0x1075f); (0x10768, 0x1077f); (0x10786, 0x10786);
    (0x107b1, 0x107b1); (0x107bb, 0x107ff); (0x10806, 0x10807); (0x10809, 0x10809);
    (0x10836, 0x10836); (0x10839, 0x1083b); (0x1083d, 0x1083e); (0x10856, 0x10856);
    (0x1089f, 0x108a6); (0x108b0, 0x108df); (0x108f3, 0x108f3); (0x108f6, 0x108fa);
    (0x1091c, 0x1091e); (0x1093a, 0x1093e); (0x10940, 0x1097f); (0x109b8, 0x109bb);
    (0x109d0, 0x109d1); (0x10a04, 0x10a04); (0x10a07, 0x10a0b); (0x10a14, 0x10a14);
    (0x10a18, 0x10a18); (0x10a36, 0x10a37); (0x10a3b, 0x10a3e); (0x10a49, 0x10a4f);
    (0x10a59, 0x10a5f); (0x10aa0, 0x10abf); (0x10ae7, 0x10aea); (0x10af7, 0x10aff);
    (0x10b36, 0x10b38); (0x10b56, 0x10b57); (0x10b73, 0x10b77); (0x10b92, 0x10b98);
    (0x10b9d, 0x10ba8); (0x10bb0, 0x10bff); (0x10c49, 0x10c7f); (0x10cb3, 0x10cbf);
    (0x10cf3, 0x10cf9); (0x10d28, 0x10d2f); (0x10d3a, 0x10e5f); (0x10e7f, 0x10e7f);
    (0x10eaa, 0x10eaa); (0x10eae, 0x10eaf); (0x10eb2, 0x10eff); (0x10f28, 0x10f2f);
    (0x10f5a, 0x10f6f); (0x10f8a, 0x10faf); (0x10fcc, 0x10fdf); (0x10ff7, 0x10fff);
    (0x1104e, 0x11051); (0x11076, 0x1107e); (0x110bd, 0x110bd); (0x110c3, 0x110cf);
    (0x110e9, 0x110ef); (0x110fa, 0x110ff); (0x11135, 0x11135); (0x11148, 0x1114f);
    (0x11177, 0x1117f); (0x111e0, 0x111e0); (0x111f5, 0x111ff); (0x11212, 0x11212);
    (0x1123f, 0x1127f); (0x11287, 0x11287); (0x11289, 0x11289); (0x1128e, 0x1128e);
    (0x1129e, 0x1129e); (0x112aa, 0x112af); (0x112eb, 0x112ef); (0x112fa, 0x112ff);
    (0x11304, 0x11304); (0x1130d, 0x1130e); (0x11311, 0x11312); (0x11329, 0x11329);
    (0x11331, 0x11331); (0x11334, 0x11334); (0x1133a, 0x1133a); (0x11345, 0x11346);
    (0x11349, 0x1134a); (0x1134e, 0x1134f); (0x11351, 0x11356); (0x11358, 0x1135c);
    (0x11364, 0x11365); (0x1136d, 0x1136f); (0x11375, 0x113ff); (0x1145c, 0x1145c);
    (0x11462, 0x1147f); (0x114c8, 0x114cf); (0x114da, 0x1157f); (0x115b6, 0x115b7);
    (0x115de, 0x115ff); (0x11645, 0x1164f); (0x1165a, 0x1165f); (0x1166d, 0x1167f);
    (0x116ba, 0x116bf); (0x116ca, 0x116ff); (0x1171b, 0x1171c); (0x1172c, 0x1172f);
    (0x11747, 0x117ff); (0x1183c, 0x1189f); (0x118f3, 0x118fe); (0x11907, 0x11908);
    (0x1190a, 0x1190b); (0x11914, 0x11914); (0x11917, 0x11917); (0x11936, 0x11936);
    (0x11939, 0x1193a); (0x11947, 0x1194f); (0x1195a, 0x1199f); (0x119a8, 0x119a9);
    (0x119d8, 0x119d9); (0x119e5, 0x119ff); (0x11a48, 0x11a4f); (0x11aa3, 0x11aaf);
    (0x11af9, 0x11bff); (0x11c09, 0x11c09); (0x11c37, 0x11c37); (0x11c46, 0x11c4f);
    (0x11c6d, 0x11c6f); (0x11c90, 0x11c91); (0x11ca8, 0x11ca8); (0x11cb7, 0x11cff);
    (0x11d07, 0x11d07); (0x11d0a, 0x11d0a); (0x11d37, 0x11d39); (0x11d3b, 0x11d3b);
    (0x11d3e, 0x11d3e); (0x11d48, 0x11d4f); (0x11d5a, 0x11d5f); (0x11d66, 0x11d66);
    (0x11d69, 0x11d69); (0x11d8f, 0x11d8f); (0x11d92, 0x11d92); (0x11d99, 0x11d9f);
    (0x11daa, 0x11edf); (0x11ef9, 0x11faf); (0x11fb1, 0x11fbf); (0x11ff2, 0x11ffe);
    (0x1239a, 0x123ff); (0x1246f, 0x1246f); (0x12475, 0x1247f); (0x12544, 0x12f8f);
    (0x12ff3, 0x12fff); (0x1342f, 0x143ff); (0x14647, 0x167ff); (0x16a39, 0x16a3f);
    (0x16a5f, 0x16a5f); (0x16a6a, 0x16a6d); (0x16abf, 0x16abf); (0x16aca, 0x16acf);
    (0x16aee, 0x16aef); (0x16af6, 0x16aff); (0x16b46, 0x16b4f); (0x16b5a, 0x16b5a);
    (0x16b62, 0x16b62); (0x16b78, 0x16b7c); (0x16b90, 0x16e3f); (0x16e9b, 0x16eff);
    (0x16f4b, 0x16f4e); (0x16f88, 0x16f8e); (0x16fa0, 0x16fdf); (0x16fe5, 0x16fef);
    (0x16ff2, 0x16fff); (0x187f8, 0x187ff); (0x18cd6, 0x18cff); (0x18d09, 0x1afef);
    (0x1aff4, 0x1aff4); (0x1affc, 0x1affc); (0x1afff, 0x1afff); (0x1b123, 0x1b14f);
    (0x1b153, 0x1b163); (0x1b168, 0x1b16f); (0x1b2fc, 0x1bbff); (0x1bc6b, 0x1bc6f);
    (0x1bc7d, 0x1bc7f); (0x1bc89, 0x1bc8f); (0x1bc9a, 0x1bc9b); (0x1bca0, 0x1ceff);
    (0x1cf2e, 0x1cf2f); (0x1cf47, 0x1cf4f); (0x1cfc4, 0x1cfff); (0x1d0f6, 0x1d0ff);
    (0x1d127, 0x1d128); (0x1d173, 0x1d17a); (0x1d1eb, 0x1d1ff); (0x1d246, 0x1d2df);
    (0x1d2f4, 0x1d2ff); (0x1d357, 0x1d35f); (0x1d379, 0x1d3ff); (0x1d455, 0x1d455);
    (0x1d49d, 0x1d49d); (0x1d4a0, 0x1d4a1); (0x1d4a3, 0x1d4a4); (0x1d4a7, 0x1d4a8);
    (0x1d4ad, 0x1d4ad); (0x1d4ba, 0x1d4ba); (0x1d4bc, 0x1d4bc); (0x1d4c4, 0x1d4c4);
    (0x1d506, 0x1d506); (0x1d50b, 0x1d50c); (0x1d515, 0x1d515); (0x1d51d, 0x1d51d);
    (0x1d53a, 0x1d53a); (0x1d53f, 0x1d53f); (0x1d545, 0x1d545); (0x1d547, 0x1d549);
    (0x1d551, 0x1d551); (0x1d6a6, 0x1d6a7); (0x1d7cc, 0x1d7cd); (0x1da8c, 0x1da9a);
    (0x1daa0, 0x1daa0); (0x1dab0, 0x1deff); (0x1df1f, 0x1dfff); (0x1e007, 0x1e007);
    (0x1e019, 0x1e01a); (0x1e022, 0x1e022); (0x1e025, 0x1e025); (0x1e02b, 0x1e0ff);
    (0x1e12d, 0x1e12f); (0x1e13e, 0x1e13f); (0x1e14a, 0x1e14d); (0x1e150, 0x1e28f);
    (0x1e2af, 0x1e2bf); (0x1e2fa, 0x1e2fe); (0x1e300, 0x1e7df); (0x1e7e7, 0x1e7e7);
    (0x1e7ec, 0x1e7ec); (0x1e7ef, 0x1e7ef); (0x1e7ff, 0x1e7ff); (0x1e8c5, 0x1e8c6);
    (0x1e8d7, 0x1e8ff); (0x1e94c, 0x1e94f); (0x1e95a, 0x1e95d); (0x1e960, 0x1ec70);
    (0x1ecb5, 0x1ed00); (0x1ed3e, 0x1edff); (0x1ee04, 0x1ee04); (0x1ee20, 0x1ee20);
    (0x1ee23, 0x1ee23); (0x1ee25, 0x1ee26); (0x1ee28, 0x1ee28); (0x1ee33, 0x1ee33);
    (0x1ee38, 0x1ee38); (0x1ee3a, 0x1ee3a); (0x1ee3c, 0x1ee41); (0x1ee43, 0x1ee46);
    (0x1ee48, 0x1ee48); (0x1ee4a, 0x1ee4a); (0x1ee4c, 0x1ee4c); (0x1ee50, 0x1ee50);
    (0x1ee53, 0x1ee53); (0x1ee55, 0x1ee56); (0x1ee58, 0x1ee58); (0x1ee5a, 0x1ee5a);
    (0x1ee5c, 0x1ee5c); (0x1ee5e, 0x1ee5e); (0x1ee60, 0x1ee60); (0x1ee63, 0x1ee63);
    (0x1ee65, 0x1ee66); (0x1ee6b, 0x1ee6b); (0x1ee73, 0x1ee73); (0x1ee78, 0x1ee78);
    (0x1ee7d, 0x1ee7d); (0x1ee7f, 0x1ee7f); (0x1ee8a, 0x1ee8a); (0x1ee9c, 0x1eea0);
    (0x1eea4, 0x1eea4); (0x1eeaa, 0x1eeaa); (0x1eebc, 0x1eeef); (0x1eef2, 0x1efff);
    (0x1f02c, 0x1f02f); (0x1f094, 0x1f09f); (0x1f0af, 0x1f0b0); (0x1f0c0, 0x1f0c0);
    (0x1f0d0, 0x1f0d0); (0x1f0f6, 0x1f0ff); (0x1f1ae, 0x1f1e5); (0x1f203, 0x1f20f);
    (0x1f23c, 0x1f23f); (0x1f249, 0x1f24f); (0x1f252, 0x1f25f); (0x1f266, 0x1f2ff);
    (0x1f6d8, 0x1f6dc); (0x1f6ed, 0x1f6ef); (0x1f6fd, 0x1f6ff); (0x1f774, 0x1f77f);
    (0x1f7d9, 0x1f7df); (0x1f7ec, 0x1f7ef); (0x1f7f1, 0x1f7ff); (0x1f80c, 0x1f80f);
    (0x1f848, 0x1f84f); (0x1f85a, 0x1f85f); (0x1f888, 0x1f88f); (0x1f8ae, 0x1f8af);
    (0x1f8b2, 0x1f8ff); (0x1fa54, 0x1fa5f); (0x1fa6e, 0x1fa6f); (0x1fa75, 0x1fa77);
    (0x1fa7d, 0x1fa7f); (0x1fa87, 0x1fa8f); (0x1faad, 0x1faaf); (0x1fabb, 0x1fabf);
    (0x1fac6, 0x1facf); (0x1fada, 0x1fadf); (0x1fae8, 0x1faef); (0x1faf7, 0x1faff);
    (0x1fb93, 0x1fb93); (0x1fbcb, 0x1fbef); (0x1fbfa, 0x1ffff); (0x2a6e0, 0x2a6ff);
    (0x2b739, 0x2b73f); (0x2b81e, 0x2b81f); (0x2cea2, 0x2ceaf); (0x2ebe1, 0x2f7ff);
    (0x2fa1e, 0x2ffff); (0x3134b, 0xe00ff); (0xe01f0, 0x10ffff)
  ]%N.

(** One ASCII character of [repr(s)], with [q] the quote chosen for the
    string. *)
Definition repr_char (q : ascii) (c : ascii) : string :=
  let n := nat_of_ascii c in
  if Ascii.eqb c q then backslash +:+ String c EmptyString
  else if Nat.eqb n 92 then backslash +:+ backslash
  else if Nat.eqb n 9 then backslash +:+ "t"
  else if Nat.eqb n 10 then backslash +:+ "n"
  else if Nat.eqb n 13 then backslash +:+ "r"
  else if (n <? 32)%nat || Nat.eqb n 127 then
    backslash +:+ "x" +:+ String (hex_digit (n / 16)) (String (hex_digit (n mod 16)) EmptyString)
  else String c EmptyString.

(** One character of [repr(s)]: a character above ASCII stands for
    itself when it is printable, and is escaped by its code point when
    it is not. *)
Definition repr_character (q : ascii) (ch : string) : string :=
  match ch with
  | String c EmptyString => repr_char q c
  | _ =>
      let n := code_point ch in
      if negb (within NONPRINTABLE n) then ch
      else if (n <=? 0xff)%N then backslash +:+ "x" +:+ hex 2 n
      else if (n <=? 0xffff)%N then backslash +:+ "u" +:+ hex 4 n
      else backslash +:+ "U" +:+ hex 8 n
  end.

Definition repr_chars (q : ascii) (s : string) : string :=
  String.concat EmptyString (map (repr_character q) (characters 0 EmptyString s)).

(** [repr(s)] for a string: single quotes, unless the string holds a
    single quote and no double quote. *)
Definition repr_str (s : string) : string :=
  if contains squote s && negb (contains dquote s)
  then dquote +:+ repr_chars (ascii_of_nat 34) s +:+ dquote
  else squote +:+ repr_chars (ascii_of_nat 39) s +:+ squote.

(** JSON-shaped Python values: [None], [bool], [int], [str], [list], and
    [dict] with string keys in insertion order. *)
Inductive json : Type :=
| JNull
| JBool (b : bool)
| JNum (z : Z)
| JStr (s : string)
| JArr (items : list json)
| JObj (fields : list (string * json)).

(** [isinstance(v, (dict, list))] *)
Definition is_structured (v : json) : bool :=
  match v with
  | JArr _ | JObj _ => true
  | _ => false
  end.

(** Truth value of a Python value ([if v:]) *)
Definition truthy (v : json) : bool :=
  match v with
  | JNull => false
  | JBool b => b
  | JNum z => negb (Z.eqb z 0)
  | JStr s => truthy_str s
  | JArr l => match l with [] => false | _ => true end
  | JObj l => match l with [] => false | _ => true end
  end.

(** [repr(v)] and [str(v)] (what an f-string interpolates) *)
Fixpoint repr (v : json) : string :=
  match v with
  | JNull => "None"
  | JBool true => "True"
  | JBool false => "False"
  | JNum z => str_int z
  | JStr s => repr_str s
  | JArr l => "[" +:+ join ", " (map repr l) +:+ "]"
  | JObj l =>
      "{" +:+ join ", " (map (fun '(k, x) => repr_str k +:+ ": " +:+ repr x) l) +:+ "}"
  end.

Definition str (v : json) : string :=
  match v with
  | JStr s => s
  | _ => repr v
  end.

(** A raised exception, by what the sources read of it: [str(exc)] and
    [repr(exc)] (the [!r] conversion of an f-string). *)
Record Exn : Type := { exn_str : string; exn_repr : string }.

(** [ValueError(msg)] *)
Definition ValueError (msg : string) : Exn :=
  {| exn_str := msg; exn_repr := "ValueError(" +:+ repr_str msg +:+ ")" |}.

End Py.

Export Py.

(** ** quality_agent/core/test_cases.py *)

Module TestCases.

(** A test case dictionary.  [tc_requires_json] is [None] when the key
    is absent ([test.get("requires_json", False)] reads it). *)
Record TestCase : Type := {
  tc_name : string;
  tc_method : string;
  tc_endpoint : string;
  tc_payload : json;
  tc_expected_status : list Z;
  tc_requires_json : option bool
}.

Definition load_test_cases : list TestCase :=
  [ {| tc_name := "health_check";
       tc_method := "GET";
       tc_endpoint := "/health";
       tc_payload := JNull;
       tc_expected_status := [200%Z];
       tc_requires_json := Some false |};
    {| tc_name := "login_requirements";
       tc_method := "POST";
       tc_endpoint := "/login";
       tc_payload := JObj [("username", JStr "test_user"); ("password", JStr "wrong_password")];
       tc_expected_status := [200%Z; 401%Z];
       tc_requires_json := Some true |} ].

End TestCases.

Export TestCases.

(** ** quality_agent/core/native_test_runner.py *)

Module Runner.

Definition Headers : Type := list (string * string).

(** One HTTP interaction of the test run. *)
Record RequestRecord : Type := {
  method : string;
  url : string;
  request_headers : Headers;
  request_body : json;
  status_code : Z;
  response_headers : Headers;
  response_body : json
}.

Record TestFailure : Type := {
  test_name : string;
  reason : string;
  failed_record : RequestRecord
}.

Record TestRunResult : Type := {
  success : bool;
  request_history : list RequestRecord;
  failure : option TestFailure
}.

(** *** The httpx client, as the runner sees it *)

Inductive Verb : Type := GET | POST | PUT | DELETE.

(** A call on the client: [client.get(url)], [client.post(url, json=payload)],
    [client.put(url, json=payload)], [client.delete(url)]. *)
Record HttpCall : Type := {
  call_verb : Verb;
  call_url : string;
  call_json : option json
}.

(** [req.content]: empty, bytes that decode as UTF-8, or bytes that do not. *)
Inductive Content : Type :=
| NoContent
| Utf8 (s : string)
| Binary.

Record HttpRequest : Type := {
  req_method : string;
  req_url : string;
  req_headers : Headers;
  req_content : Content
}.

(** [resp_json] is [None] when [response.json()] raises. *)
Record Response : Type := {
  resp_request : HttpRequest;
  resp_status_code : Z;
  resp_headers : Headers;
  resp_json : option json;
  resp_text : string
}.

(** [req.content.decode("utf-8") if req.content else None], with
    [<binary>] when decoding raises *)
Definition decode_content (c : Content) : json :=
  match c with
  | NoContent => JNull
  | Utf8 s => if truthy_str s then JStr s else JNull
  | Binary => JStr "<binary>"
  end.

(** [response.json()], or [response.text] when that raises *)
Definition parse_body (resp : Response) : json :=
  match resp_json resp with
  | Some v => v
  | None => JStr (resp_text resp)
  end.

(** The [if]/[elif] chain over [method.upper()]; [None] is the [else]
    branch, which raises [ValueError]. *)
Definition dispatch (m : string) : option Verb :=
  if String.eqb (upper m) "GET" then Some GET
  else if String.eqb (upper m) "POST" then Some POST
  else if String.eqb (upper m) "PUT" then Some PUT
  else if String.eqb (upper m) "DELETE" then Some DELETE
  else None.

Definition call_of (verb : Verb) (u : string) (payload : json) : HttpCall :=
  match verb with
  | GET => {| call_verb := GET; call_url := u; call_json := None |}
  | POST => {| call_verb := POST; call_url := u; call_json := Some payload |}
  | PUT => {| call_verb := PUT; call_url := u; call_json := Some payload |}
  | DELETE => {| call_verb := DELETE; call_url := u; call_json := None |}
  end.

(** [code in expected_status] *)
Definition status_in (code : Z) (expected : list Z) : bool :=
  existsb (Z.eqb code) expected.

(** [f"{api_base_url.rstrip('/')}{test['endpoint']}"] *)
Definition url_of (api_base_url : string) (test : TestCase) : string :=
  rstrip "/"%char api_base_url +:+ tc_endpoint test.

(** [test.get("requires_json", False)] *)
Definition requires_json (test : TestCase) : bool :=
  match tc_requires_json test with
  | Some b => b
  | None => false
  end.

Definition status_reason (test : TestCase) (actual : Z) : string :=
  "Expected " +:+ join " or " (map str_int (tc_expected_status test))
  +:+ " from " +:+ tc_endpoint test +:+ ", got " +:+ str_int actual.

Definition json_reason (test : TestCase) : string :=
  "Expected JSON response from " +:+ tc_endpoint test.

Definition exception_reason (test : TestCase) (exc : Exn) : string :=
  "Exception calling " +:+ tc_endpoint test +:+ ": " +:+ exn_repr exc.

(** The two records [record_and_return] builds: from a response, and
    from an exception when there is no response. *)
Definition response_record (resp : Response) : RequestRecord :=
  let req := resp_request resp in
  {| method := req_method req;
     url := req_url req;
     request_headers := req_headers req;
     request_body := decode_content (req_content req);
     status_code := resp_status_code resp;
     response_headers := resp_headers resp;
     response_body := parse_body resp |}.

Definition exception_record (m u : string) (body : json) (exception : option Exn)
  : RequestRecord :=
  {| method := m;
     url := u;
     request_headers := [];
     request_body := body;
     status_code := 0;
     response_headers := [];
     response_body :=
       JStr (match exception with
             | Some exc => exn_str exc
             | None => "Unknown error"
             end) |}.

Section Run.

(** The network and the service under test: a call is answered from the
    current state of the world, by a response or by a raised exception
    (connection refused, timeout, DNS failure), and changes that state. *)
Variable World : Type.
Variable http : World -> HttpCall -> World * (Exn + Response).

(** The state a run threads: the [history] list, the world, and, as a
    ghost log, the calls issued so far, each with the index of the test
    case that issued it. *)
Record RunState : Type := {
  history : list RequestRecord;
  issued : list (nat * HttpCall);
  world : World
}.

Definition initial (w : World) : RunState :=
  {| history := []; issued := []; world := w |}.

(** [record_and_return]: build the record from the response, or from the
    exception when there is none, append it to [history], return it. *)
Definition record_and_return (response : option Response) (m u : string)
    (body : json) (exception : option Exn) (st : RunState)
  : RunState * RequestRecord :=
  let record :=
    match response with
    | Some resp => response_record resp
    | None => exception_record m u body exception
    end in
  ({| history := history st ++ [record]; issued := issued st; world := world st |},
   record).

(** One call on the client, made for test case [i]. *)
Definition send (i : nat) (call : HttpCall) (st : RunState)
  : RunState * (Exn + Response) :=
  let (w, out) := http (world st) call in
  ({| history := history st; issued := issued st ++ [(i, call)]; world := w |}, out).

Definition failed (st : RunState) (test : TestCase) (why : string)
    (rec : RequestRecord) : TestRunResult :=
  {| success := false;
     request_history := history st;
     failure := Some {| test_name := tc_name test; reason := why; failed_record := rec |} |}.

(** The body of the [try]: it raises ([inl]), returns from the run
    ([inr (Some _)]) or falls through to the next test case ([inr None]). *)
Definition try_body (i : nat) (test : TestCase) (u : string) (st : RunState)
  : RunState * (Exn + option TestRunResult) :=
  match dispatch (tc_method test) with
  | None => (st, inl (ValueError ("Unsupported HTTP method: " +:+ tc_method test)))
  | Some verb =>
      match send i (call_of verb u (tc_payload test)) st with
      | (st1, inl exc) => (st1, inl exc)
      | (st1, inr resp) =>
          let (st2, rec) :=
            record_and_return (Some resp) (tc_method test) u (tc_payload test) None st1 in
          if negb (status_in (resp_status_code resp) (tc_expected_status test)) then
            (st2, inr (Some (failed st2 test (status_reason test (resp_status_code resp)) rec)))
          else if requires_json test && negb (is_structured (response_body rec)) then
            (st2, inr (Some (failed st2 test (json_reason test) rec)))
          else (st2, inr None)
      end
  end.

(** One iteration of the loop: the [try] and its [except Exception]. *)
Definition run_case (api_base_url : string) (i : nat) (test : TestCase) (st : RunState)
  : RunState * option TestRunResult :=
  let u := url_of api_base_url test in
  match try_body i test u st with
  | (st1, inr flow) => (st1, flow)
  | (st1, inl exc) =>
      let (st2, rec) :=
        record_and_return None (tc_method test) u (tc_payload test) (Some exc) st1 in
      (st2, Some (failed st2 test (exception_reason test exc) rec))
  end.

(** [for test in test_cases: ...], then the return after the loop. *)
Fixpoint run_loop (api_base_url : string) (i : nat) (tests : list TestCase)
    (st : RunState) : RunState * TestRunResult :=
  match tests with
  | [] => (st, {| success := true; request_history := history st; failure := None |})
  | test :: rest =>
      match run_case api_base_url i test st with
      | (st1, Some result) => (st1, result)
      | (st1, None) => run_loop api_base_url (S i) rest st1
      end
  end.

(** [run_native_tests(api_base_url)], with the table [load_test_cases()]
    returns as an argument: the table is configuration. *)
Definition run_native_tests (test_cases : list TestCase) (api_base_url : string)
    (w : World) : RunState * TestRunResult :=
  run_loop api_base_url 0 test_cases (initial w).

(** *** What a run observes of a test case

    A case passes in world [w] when its method is dispatched, the call is
    answered, the status is one of the expected ones and, if JSON is
    required, the body is a dict or a list. *)
Definition meets (test : TestCase) (resp : Response) : Prop :=
  In (resp_status_code resp) (tc_expected_status test) /\
  (tc_requires_json test = Some true -> is_structured (parse_body resp) = true).

Inductive Passes (api_base_url : string) : World -> TestCase -> World -> Prop :=
| passes w test verb w' resp :
    dispatch (tc_method test) = Some verb ->
    http w (call_of verb (url_of api_base_url test) (tc_payload test)) = (w', inr resp) ->
    meets test resp ->
    Passes api_base_url w test w'.

Inductive Fails (api_base_url : string) : World -> TestCase -> Prop :=
| fails_unsupported w test :
    dispatch (tc_method test) = None ->
    Fails api_base_url w test
| fails_transport w test verb w' exc :
    dispatch (tc_method test) = Some verb ->
    http w (call_of verb (url_of api_base_url test) (tc_payload test)) = (w', inl exc) ->
    Fails api_base_url w test
| fails_assertion w test verb w' resp :
    dispatch (tc_method test) = Some verb ->
    http w (call_of verb (url_of api_base_url test) (tc_payload test)) = (w', inr resp) ->
    ~ meets test resp ->
    Fails api_base_url w test.

Inductive AllPass (api_base_url : string) : World -> list TestCase -> World -> Prop :=
| all_pass_nil w : AllPass api_base_url w [] w
| all_pass_cons w test w1 rest w2 :
    Passes api_base_url w test w1 ->
    AllPass api_base_url w1 rest w2 ->
    AllPass api_base_url w (test :: rest) w2.

(** The first failing case of [tests], run from [w], is the one at index [i]. *)
Definition FirstFailureAt (api_base_url : string) (w : World)
    (tests : list TestCase) (i : nat) : Prop :=
  exists pre test post w1,
    tests = pre ++ test :: post /\ length pre = i /\
    AllPass api_base_url w pre w1 /\ Fails api_base_url w1 test.

End Run.

Arguments history {World}.
Arguments issued {World}.
Arguments world {World}.

End Runner.

(** ** quality_agent/core/logger.py *)

Module Logger.

Import Runner.

(** [record_to_dict]: a request record as a dictionary. *)
Record RecordDict : Type := {
  rd_method : string;
  rd_url : string;
  rd_request_headers : Headers;
  rd_request_body : json;
  rd_status_code : Z;
  rd_response_headers : Headers;
  rd_response_body : json
}.

Record RequestData : Type := {
  rq_method : string;
  rq_url : string;
  rq_headers : Headers;
  rq_body : json
}.

Record ResponseData : Type := {
  rs_status_code : Z;
  rs_headers : Headers;
  rs_body : json
}.

Record FailingCall : Type := {
  request_data : RequestData;
  response_data : ResponseData
}.

(** The log dictionary.  A key that may be absent is an option: the
    readers of the log use [log.get(key, default)]. *)
Record FailureLog : Type := {
  log_run_id : option string;
  log_timestamp : option string;
  log_commit_hash : option string;
  log_status : option string;
  log_test_name : option string;
  log_failure_reason : option string;
  log_request_history : option (list RecordDict);
  log_failing_call : option FailingCall
}.

(** The empty dictionary [{}] *)
Definition empty_log : FailureLog :=
  {| log_run_id := None; log_timestamp := None; log_commit_hash := None;
     log_status := None; log_test_name := None; log_failure_reason := None;
     log_request_history := None; log_failing_call := None |}.

Definition record_to_dict (r : RequestRecord) : RecordDict :=
  {| rd_method := method r;
     rd_url := url r;
     rd_request_headers := request_headers r;
     rd_request_body := request_body r;
     rd_status_code := status_code r;
     rd_response_headers := response_headers r;
     rd_response_body := response_body r |}.

Definition failing_call_of (failed : RequestRecord) : FailingCall :=
  {| request_data :=
       {| rq_method := method failed;
          rq_url := url failed;
          rq_headers := request_headers failed;
          rq_body := request_body failed |};
     response_data :=
       {| rs_status_code := status_code failed;
          rs_headers := response_headers failed;
          rs_body := response_body failed |} |}.

(** The dictionary [save_raw_failure_log] builds: [result] under the
    three metadata keys. *)
Definition build_payload (test_result : TestRunResult)
    (commit_hash run_id timestamp : string) : FailureLog :=
  let hist := map record_to_dict (request_history test_result) in
  if success test_result then
    {| log_run_id := Some run_id;
       log_timestamp := Some timestamp;
       log_commit_hash := Some commit_hash;
       log_status := Some "passed";
       log_test_name := None;
       log_failure_reason := None;
       log_request_history := Some hist;
       log_failing_call := None |}
  else
    let fl := failure test_result in
    {| log_run_id := Some run_id;
       log_timestamp := Some timestamp;
       log_commit_hash := Some commit_hash;
       log_status := Some "failed";
       log_test_name := Some (match fl with Some f => test_name f | None => "unknown" end);
       log_failure_reason := Some (match fl with Some f => reason f | None => "unknown" end);
       log_request_history := Some hist;
       log_failing_call :=
         match fl with
         | Some f => Some (failing_call_of (failed_record f))
         | None => None
         end |}.

(** *** The file system and the console *)

(** What a file holds: the text [json.dump(doc, f, indent=n)] writes, or
    anything else. *)
Inductive FileData : Type :=
| JsonDump (indent : nat) (doc : FailureLog)
| OtherData (text : string).

(** The file system as the program reaches it.  [cwd] is the working
    directory, by the names that lead to it from the root.  [dirs] and
    [files] hold the directories and the files, each under its path from
    the working directory in its shortest form: [runs/a], or [../b] for
    an entry of the directory above.  The directories that lead to the
    working directory exist and are not listed.  There are no symbolic
    links, every entry may be read and written, and a name holds up to
    [NAME_MAX] bytes and a path fewer than [PATH_MAX], as on Linux. *)
Record Disk : Type := {
  cwd : list string;
  dirs : gset string;
  files : gmap string FileData;
  stdout : list string
}.

Definition NAME_MAX : nat := 255.
Definition PATH_MAX : nat := 4096.

Definition FileExistsError (p : string) : Exn :=
  {| exn_str := "[Errno 17] File exists: " +:+ repr_str p;
     exn_repr := "FileExistsError(17, 'File exists')" |}.

Definition IsADirectoryError (p : string) : Exn :=
  {| exn_str := "[Errno 21] Is a directory: " +:+ repr_str p;
     exn_repr := "IsADirectoryError(21, 'Is a directory')" |}.

Definition FileNotFoundError (p : string) : Exn :=
  {| exn_str := "[Errno 2] No such file or directory: " +:+ repr_str p;
     exn_repr := "FileNotFoundError(2, 'No such file or directory')" |}.

Definition NotADirectoryError (p : string) : Exn :=
  {| exn_str := "[Errno 20] Not a directory: " +:+ repr_str p;
     exn_repr := "NotADirectoryError(20, 'Not a directory')" |}.

Definition FileNameTooLong (p : string) : Exn :=
  {| exn_str := "[Errno 36] File name too long: " +:+ repr_str p;
     exn_repr := "OSError(36, 'File name too long')" |}.

(** [c in s] for a single character *)
Fixpoint has_char (c : ascii) (s : string) : bool :=
  match s with
  | EmptyString => false
  | String a s' => Ascii.eqb a c || has_char c s'
  end.

(** The names of a path: what stands between its slashes. *)
Fixpoint names_of (p : string) : list string :=
  match p with
  | EmptyString => [EmptyString]
  | String c p' =>
      if Ascii.eqb c "/" then EmptyString :: names_of p'
      else match names_of p' with
           | [] => [String c EmptyString]
           | name :: rest => String c name :: rest
           end
  end.

(** The way from one directory to an entry, both given from the root:
    up out of what the two do not share, then down. *)
Fixpoint relative (from to : list string) : list string :=
  match from, to with
  | a :: from', b :: to' =>
      if String.eqb a b then relative from' to' else map (fun _ => "..") from ++ to
  | _, _ => map (fun _ => "..") from ++ to
  end.

(** The path under which the disk lists the entry at [pos]. *)
Definition entry_key (d : Disk) (pos : list string) : string :=
  join "/" (relative (cwd d) pos).

(** [pos] is on the way from the root to [target]. *)
Fixpoint leads_to (pos target : list string) : bool :=
  match pos, target with
  | [], _ => true
  | a :: pos', b :: target' => String.eqb a b && leads_to pos' target'
  | _ :: _, [] => false
  end.

Definition is_dir (d : Disk) (pos : list string) : bool :=
  leads_to pos (cwd d) || bool_decide (entry_key d pos ∈ dirs d).

Definition is_file (d : Disk) (pos : list string) : bool :=
  bool_decide (is_Some (files d !! entry_key d pos)).

(** The walk [open(p, "w")] makes along the names of [p], from the
    directory at [pos]: the place of the file to write, or the error of
    the first name that stops the walk.  A name before the last has to be
    an existing directory; the last has to be a name that is not a
    directory, and a path that ends in a slash asks for a directory. *)
Fixpoint walk (d : Disk) (p : string) (pos : list string) (names : list string)
  : Exn + list string :=
  match names with
  | [] => inl (FileNotFoundError p)
  | name :: rest =>
      let stays := String.eqb name "" || String.eqb name "." in
      let back := String.eqb name ".." in
      match rest with
      | [] =>
          if stays || back then inl (IsADirectoryError p)
          else if (NAME_MAX <? String.length name)%nat then inl (FileNameTooLong p)
          else if is_dir d (pos ++ [name]) then inl (IsADirectoryError p)
          else inr (pos ++ [name])
      | _ :: _ =>
          if forallb (String.eqb "") rest then inl (IsADirectoryError p)
          else if stays then walk d p pos rest
          else if back then walk d p (removelast pos) rest
          else if (NAME_MAX <? String.length name)%nat then inl (FileNameTooLong p)
          else if is_dir d (pos ++ [name]) then walk d p (pos ++ [name]) rest
          else if is_file d (pos ++ [name]) then inl (NotADirectoryError p)
          else inl (FileNotFoundError p)
      end
  end.

(** [open(p, "w")]: the entry that is created or truncated, or the
    exception raised. *)
Definition open_w (p : string) (d : Disk) : Exn + string :=
  if has_char (ascii_of_nat 0) p then inl (ValueError "embedded null byte")
  else if (PATH_MAX <=? String.length p)%nat then inl (FileNameTooLong p)
  else if String.eqb p "" then inl (FileNotFoundError p)
  else
    match walk d p (if String.prefix "/" p then [] else cwd d) (names_of p) with
    | inl exc => inl exc
    | inr pos => inr (entry_key d pos)
    end.

(** [os.makedirs(p, exist_ok=True)] for a path of one name *)
Definition makedirs (p : string) (d : Disk) : Exn + Disk :=
  match files d !! p with
  | Some _ => inl (FileExistsError p)
  | None =>
      inr {| cwd := cwd d; dirs := {[p]} ∪ dirs d; files := files d; stdout := stdout d |}
  end.

(** [with open(p, "w") as f: json.dump(doc, f, indent=4)] *)
Definition write_json (p : string) (doc : FailureLog) (d : Disk) : Exn + Disk :=
  match open_w p d with
  | inl exc => inl exc
  | inr entry =>
      inr {| cwd := cwd d; dirs := dirs d;
             files := <[entry := JsonDump 4 doc]> (files d); stdout := stdout d |}
  end.

Definition print (line : string) (d : Disk) : Disk :=
  {| cwd := cwd d; dirs := dirs d; files := files d; stdout := stdout d ++ [line] |}.

(** A plain name: one that can name a file in a directory. *)
Definition plain_name (name : string) : bool :=
  negb (has_char "/" name) && negb (has_char (ascii_of_nat 0) name)
  && (String.length name <=? NAME_MAX)%nat
  && negb (String.eqb name "") && negb (String.eqb name ".")
  && negb (String.eqb name "..").

Definition log_path (run_id : string) : string := "runs/" +:+ run_id +:+ "_raw.json".

(** [save_raw_failure_log]: build the dictionary, create [runs], write
    the file, print, return the dictionary.  An exception of the file
    system is not caught. *)
Definition save_raw_failure_log (test_result : TestRunResult)
    (commit_hash run_id timestamp : string) (d : Disk) : Disk * (Exn + FailureLog) :=
  let payload := build_payload test_result commit_hash run_id timestamp in
  match makedirs "runs" d with
  | inl exc => (d, inl exc)
  | inr d1 =>
      match write_json (log_path run_id) payload d1 with
      | inl exc => (d1, inl exc)
      | inr d2 =>
          (print ("[Logger] Raw failure log saved: " +:+ log_path run_id) d2, inr payload)
      end
  end.

End Logger.

(** ** quality_agent/llm/client.py *)

Module Llm.

Import Logger.

Definition newline : string := String (ascii_of_nat 10) EmptyString.

(** A text given line by line. *)
Definition text (lines : list string) : string := join newline lines.

(** The diagnosis dictionary. *)
Record Diagnosis : Type := {
  FailureCategory : string;
  RootCauseSummary : string;
  ReproductionSteps : list string;
  SuggestedFix : string
}.

(** Retrieved context: the dictionary with keys [code] and [docs]. *)
Record Context : Type := {
  code : list json;
  docs : list json
}.

(** The dictionary handed to [llm_generate], keys [log] and [context]. *)
Record Prompt : Type := {
  prompt_log : option FailureLog;
  prompt_context : option Context
}.

Definition success_diagnosis : Diagnosis :=
  {| FailureCategory := "Success";
     RootCauseSummary := "All tests passed successfully.";
     ReproductionSteps := [];
     SuggestedFix := "No fixes needed." |}.

Definition status_fix : string :=
  text [ "Review the endpoint implementation and ensure:";
         "1. The endpoint is registered in the API router";
         "2. HTTP status codes match the API specification";
         "3. Error handling returns appropriate status codes (401 for auth failures, 404 for not found)";
         "";
         "Example fix:";
         "```python";
         "@app.post(" +:+ dquote +:+ "/login" +:+ dquote +:+ ")";
         "def login(payload: LoginRequest, response: Response):";
         "    if not validate_credentials(payload):";
         "        response.status_code = status.HTTP_401_UNAUTHORIZED";
         "        return {" +:+ dquote +:+ "error" +:+ dquote +:+ ": "
           +:+ dquote +:+ "invalid credentials" +:+ dquote +:+ "}";
         "    return {" +:+ dquote +:+ "token" +:+ dquote
           +:+ ": generate_token(payload.username)}";
         "```" ].

Definition json_fix : string :=
  text [ "Ensure all API responses use JSONResponse:";
         "```python";
         "from fastapi.responses import JSONResponse";
         "";
         "@app.get(" +:+ dquote +:+ "/endpoint" +:+ dquote +:+ ")";
         "def handler():";
         "    return {" +:+ dquote +:+ "key" +:+ dquote +:+ ": "
           +:+ dquote +:+ "value" +:+ dquote +:+ "}  # FastAPI auto-converts to JSON";
         "```" ].

Definition environment_fix : string :=
  text [ "Check:";
         "1. The API service is running and accessible";
         "2. Network connectivity between test runner and API";
         "3. Environment variables and configuration";
         "4. Service dependencies (database, Redis, etc.)" ].

Definition review_fix : string :=
  "Review the test implementation and API specification for discrepancies.".

(** The branch the [if]/[elif] chain over the failure reason takes. *)
Inductive Heuristic : Type :=
| StatusCode
| JsonFormat
| RaisedError
| Other.

Definition classify (failure_reason : string) : Heuristic :=
  if contains "status_code" (lower failure_reason)
     || contains "401" failure_reason
     || contains "404" failure_reason
  then StatusCode
  else if contains "json" (lower failure_reason) then JsonFormat
  else if contains "exception" (lower failure_reason)
          || contains "error" (lower failure_reason)
  then RaisedError
  else Other.

Definition category (h : Heuristic) : string :=
  match h with
  | StatusCode => "Product Bug"
  | JsonFormat => "Product Bug"
  | RaisedError => "Environment Issue"
  | Other => "Automation Flaw"
  end.

Definition summary (h : Heuristic) (test_name failure_reason : string) : string :=
  match h with
  | StatusCode =>
      "Test '" +:+ test_name +:+ "' failed due to unexpected HTTP status code. "
      +:+ failure_reason +:+ ". This indicates the API endpoint may not be "
      +:+ "properly handling the request or the endpoint implementation is incorrect."
  | JsonFormat =>
      "Test '" +:+ test_name
      +:+ "' expected a JSON response but received a different format. "
      +:+ "The API should consistently return JSON for all endpoints."
  | RaisedError =>
      "Test '" +:+ test_name +:+ "' encountered an exception: " +:+ failure_reason +:+ ". "
      +:+ "This may indicate network issues, service unavailability, or configuration problems."
  | Other => "Test '" +:+ test_name +:+ "' failed: " +:+ failure_reason
  end.

Definition suggested_fix (h : Heuristic) : string :=
  match h with
  | StatusCode => status_fix
  | JsonFormat => json_fix
  | RaisedError => environment_fix
  | Other => review_fix
  end.

(** One reproduction step: the recorded request as a curl command. *)
Definition curl (req : RecordDict) : string :=
  let plain := "curl -X " +:+ rd_method req +:+ " '" +:+ rd_url req +:+ "'" in
  if String.eqb (rd_method req) "GET" then plain
  else if truthy (rd_request_body req) then
    plain +:+ " -H 'Content-Type: application/json' -d '"
    +:+ str (rd_request_body req) +:+ "'"
  else plain.

(** [generate_mock_diagnosis(log)] *)
Definition generate_mock_diagnosis (log : FailureLog) : Diagnosis :=
  let status := default "unknown" (log_status log) in
  let failure_reason := default "Unknown failure" (log_failure_reason log) in
  let test_name := default "unknown_test" (log_test_name log) in
  if String.eqb status "passed" then success_diagnosis
  else
    let h := classify failure_reason in
    let steps := map curl (default [] (log_request_history log)) in
    {| FailureCategory := category h;
       RootCauseSummary := summary h test_name failure_reason;
       ReproductionSteps :=
         match steps with
         | [] => ["Run the test suite against the API"]
         | _ => steps
         end;
       SuggestedFix := suggested_fix h |}.

Section Client.

(** [os.getenv("OPENAI_API_KEY")], and the answer of [call_openai_llm]:
    the parsed diagnosis, or a raised exception. *)
Variable openai_key : option string.
Variable call_openai_llm : Prompt -> Exn + Diagnosis.

(** [llm_generate(payload)] of the client module *)
Definition llm_generate (payload : Prompt) : Diagnosis :=
  let mock := generate_mock_diagnosis (default empty_log (prompt_log payload)) in
  if truthy_opt openai_key then
    match call_openai_llm payload with
    | inr diagnosis => diagnosis
    | inl _ => mock
    end
  else mock.

End Client.

End Llm.

(** ** quality_agent/core/rag_pipeline.py *)

Module Rag.

Import Logger.
Import Llm.

(** [VectorDBClient]: [has_client] says that [_client] is not [None]. *)
Record VectorDBClient : Type := {
  vdb_url : option string;
  enabled : bool;
  has_client : bool
}.

(** A call on the vector-search wrapper, with its arguments. *)
Inductive VdbCall : Type :=
| QueryVector (index_name query_text : string) (return_fields : list string)
    (filter_expr : option (list (string * string))) (top_k : Z)
| Search (index_name query_text : string) (top_k : Z).

(** [index_name(base, commit_hash)] *)
Definition index_name (base commit_hash : string) : string :=
  base +:+ ":" +:+ commit_hash.

(** [llm_generate(prompt)] as this module defines it, after and over the
    function of the same name it imports from the client module: a fixed
    answer around the test name and the failure reason. *)
Definition llm_generate (prompt : Prompt) : Diagnosis :=
  let log := default empty_log (prompt_log prompt) in
  let failure_reason := default "Unknown failure" (log_failure_reason log) in
  let test_name := default "unknown_test" (log_test_name log) in
  {| FailureCategory := "Product Bug";
     RootCauseSummary :=
       "Test '" +:+ test_name +:+ "' failed: " +:+ failure_reason +:+ ". "
       +:+ "This indicates the API implementation may not be following the expected contract.";
     ReproductionSteps :=
       [ "curl -X GET '<API_BASE_URL>/health'";
         "curl -X POST '<API_BASE_URL>/login' -H 'Content-Type: application/json' "
         +:+ "-d '{" +:+ dquote +:+ "username" +:+ dquote +:+ ": "
         +:+ dquote +:+ "test_user" +:+ dquote +:+ ", "
         +:+ dquote +:+ "password" +:+ dquote +:+ ": "
         +:+ dquote +:+ "wrong_password" +:+ dquote +:+ "}'" ];
     SuggestedFix :=
       "Ensure all error branches return proper HTTP status codes (401 for auth failures) "
       +:+ "and JSON response bodies. Example:" +:+ newline +:+ newline
       +:+ "response.status_code = status.HTTP_401_UNAUTHORIZED" +:+ newline
       +:+ "return {'error': 'invalid credentials'}" |}.

Section Pipeline.

(** The surroundings of the module: whether [redis] and [redisvl] were
    imported, the variable [REDIS_URL], [redis.from_url] and [client.set]
    (each answers [Some exc] when it raises), [json.dumps] on a log, and
    the (identifier, text) pairs the walks over the code and the docs
    directories collect. *)
Variable REDISVL_AVAILABLE : bool.
Variable REDIS_URL : option string.
Variable from_url : string -> option Exn.
Variable client_set : string -> string -> option Exn.
Variable json_dumps : FailureLog -> string.
Variable code_items : list (string * string).
Variable doc_items : list (string * string).

(** [VectorDBClient(url)] *)
Definition VectorDBClient_init (url : option string) : VectorDBClient :=
  let u := or_opt url REDIS_URL in
  match u with
  | Some address =>
      if REDISVL_AVAILABLE then
        match from_url address with
        | None => {| vdb_url := u; enabled := true; has_client := true |}
        | Some _ => {| vdb_url := u; enabled := false; has_client := false |}
        end
      else {| vdb_url := u; enabled := false; has_client := false |}
  | None => {| vdb_url := u; enabled := false; has_client := false |}
  end.

(** [upsert_embeddings]: one [client.set] per item; the first that
    raises ends the loop, and its exception is not caught. *)
Fixpoint upsert_items (index : string) (items : list (string * string)) : option Exn :=
  match items with
  | [] => None
  | (item_id, body) :: rest =>
      match client_set (index +:+ ":" +:+ item_id) body with
      | Some exc => Some exc
      | None => upsert_items index rest
      end
  end.

Definition upsert_embeddings (self : VectorDBClient) (index : string)
    (items : list (string * string)) : option Exn :=
  if negb (enabled self) || negb (has_client self) then None
  else upsert_items index items.

(** [query_vector]: every branch returns the empty list. *)
Definition query_vector (self : VectorDBClient) (index query_text : string)
    (return_fields : list string) (filter_expr : option (list (string * string)))
    (top_k : Z) : list json :=
  if negb REDISVL_AVAILABLE || negb (enabled self) || negb (has_client self) then []
  else [].

(** [search]: the legacy stub. *)
Definition search (self : VectorDBClient) (index query_text : string) (top_k : Z)
  : list json :=
  if negb (enabled self) || negb (has_client self) then [] else [].

Definition ingest_code_and_docs (vdb : VectorDBClient) (commit_hash : string)
  : option Exn :=
  match upsert_embeddings vdb (index_name "code_index" commit_hash) code_items with
  | Some exc => Some exc
  | None => upsert_embeddings vdb (index_name "doc_index" commit_hash) doc_items
  end.

(** [retrieve_context(error_log, commit_hash, vdb, top_k)]: the context,
    and the calls made on the wrapper, in order.  [top_k = None] is the
    call that leaves the argument to its default. *)
Definition retrieve_context (error_log : FailureLog) (commit_hash : string)
    (vdb : option VectorDBClient) (top_k : option Z) : Context * list VdbCall :=
  let k := default 5%Z top_k in
  let query_text := json_dumps error_log in
  match vdb with
  | Some v =>
      if REDISVL_AVAILABLE && enabled v then
        let code_fields := ["filepath"; "content"; "commit_hash"] in
        let doc_fields := ["title"; "content"] in
        let by_commit := Some [("commit_hash", commit_hash)] in
        ({| code := query_vector v "code_index" query_text code_fields by_commit k;
            docs := query_vector v "doc_index" query_text doc_fields None k |},
         [ QueryVector "code_index" query_text code_fields by_commit k;
           QueryVector "doc_index" query_text doc_fields None k ])
      else
        let code_index := index_name "code_index" commit_hash in
        let doc_index := index_name "doc_index" commit_hash in
        ({| code := search v code_index query_text k;
            docs := search v doc_index query_text k |},
         [ Search code_index query_text k; Search doc_index query_text k ])
  | None => ({| code := []; docs := [] |}, [])
  end.

(** [run_rag_diagnosis(raw_log, commit_hash)]: the calls made on the
    wrapper, and the diagnosis or the exception ingestion let through. *)
Definition run_rag_diagnosis (raw_log : FailureLog) (commit_hash : string)
  : list VdbCall * (Exn + Diagnosis) :=
  if bool_decide (log_status raw_log = Some "passed") then ([], inr success_diagnosis)
  else
    let vdb := VectorDBClient_init None in
    if enabled vdb then
      match ingest_code_and_docs vdb commit_hash with
      | Some exc => ([], inl exc)
      | None =>
          let (context, calls) := retrieve_context raw_log commit_hash (Some vdb) None in
          (calls, inr (llm_generate {| prompt_log := Some raw_log;
                                       prompt_context := Some context |}))
      end
    else
      ([], inr (llm_generate {| prompt_log := Some raw_log;
                                prompt_context := Some {| code := []; docs := [] |} |})).

End Pipeline.

(** A wrapper call is scoped to a commit when its filter selects the
    commit or its index is the one named after the commit. *)
Definition scoped_to (commit_hash : string) (c : VdbCall) : Prop :=
  match c with
  | QueryVector index _ _ filter_expr _ =>
      filter_expr = Some [("commit_hash", commit_hash)] \/
      exists base, index = index_name base commit_hash
  | Search index _ _ => exists base, index = index_name base commit_hash
  end.

Definition top_k_of (c : VdbCall) : Z :=
  match c with
  | QueryVector _ _ _ _ k => k
  | Search _ _ k => k
  end.

Definition index_of (c : VdbCall) : string :=
  match c with
  | QueryVector index _ _ _ _ => index
  | Search index _ _ => index
  end.

End Rag.

(** ** verifypulse/integrations/skyflow_client.py *)

Module Skyflow.

Definition DEFAULT_SKYFLOW_BASE_URL : string := "https://prod.skyflowapis.com/v1".

Record SkyflowClient : Type := {
  vault_id : option string;
  api_token : option string;
  base_url : string;
  timeout : Z;
  enabled : bool
}.

(** [bool(self.vault_id and self.api_token)] *)
Definition configured (vault token : option string) : bool :=
  truthy_opt vault && truthy_opt token.

(** [SkyflowClient(vault_id, api_token, base_url, timeout, enabled)], with
    [getenv] the environment; an argument left out is [None]. *)
Definition SkyflowClient_init (getenv : string -> option string)
    (vault token url : option string) (seconds : option Z) (flag : option bool)
  : SkyflowClient :=
  let env_base_url := default DEFAULT_SKYFLOW_BASE_URL (getenv "SKYFLOW_BASE_URL") in
  let v := or_opt vault (getenv "SKYFLOW_VAULT_ID") in
  let t := or_opt token (getenv "SKYFLOW_API_TOKEN") in
  {| vault_id := v;
     api_token := t;
     base_url := if truthy_opt url then default env_base_url url else env_base_url;
     timeout := default 10%Z seconds;
     enabled :=
       match flag with
       | None => configured v t
       | Some b => b && configured v t
       end |}.

(** An interpolated optional string: [None] prints as its name. *)
Definition show (o : option string) : string := default "None" o.

Definition headers (self : SkyflowClient) : list (string * string) :=
  [ ("Authorization", "Bearer " +:+ show (api_token self));
    ("Content-Type", "application/json") ].

Definition tokenize_endpoint (self : SkyflowClient) : string :=
  base_url self +:+ "/vaults/" +:+ show (vault_id self) +:+ "/tokenize".

(** [httpx.post(url, headers=..., json=..., timeout=...)] *)
Record PostCall : Type := {
  post_url : string;
  post_headers : list (string * string);
  post_json : json;
  post_timeout : Z
}.

(** The response, by what is read of it; [reply_json] is [None] when
    [response.json()] raises. *)
Record Reply : Type := {
  reply_status_code : Z;
  reply_text : string;
  reply_json : option json
}.

Record Tokenized : Type := {
  was_enabled : bool;
  original : json;
  tokenized : json
}.

Definition AttributeError (what : string) : Exn :=
  {| exn_str := "'" +:+ what +:+ "' object has no attribute 'get'";
     exn_repr := "AttributeError(" +:+ dquote +:+ "'" +:+ what
                 +:+ "' object has no attribute 'get'" +:+ dquote +:+ ")" |}.

Definition IndexError : Exn :=
  {| exn_str := "index out of range"; exn_repr := "IndexError('index out of range')" |}.

Definition KeyError : Exn :=
  {| exn_str := "0"; exn_repr := "KeyError(0)" |}.

Definition TypeError : Exn :=
  {| exn_str := "object is not subscriptable";
     exn_repr := "TypeError('object is not subscriptable')" |}.

Definition JSONDecodeError : Exn :=
  {| exn_str := "Expecting value"; exn_repr := "JSONDecodeError('Expecting value')" |}.

Definition type_name (v : json) : string :=
  match v with
  | JNull => "NoneType"
  | JBool _ => "bool"
  | JNum _ => "int"
  | JStr _ => "str"
  | JArr _ => "list"
  | JObj _ => "dict"
  end.

(** [d[key]] in an association list *)
Fixpoint assoc (key : string) (fields : list (string * json)) : option json :=
  match fields with
  | [] => None
  | (k, v) :: rest => if String.eqb k key then Some v else assoc key rest
  end.

(** [v.get(key, dflt)]: an attribute error unless [v] is a dict. *)
Definition py_get (v : json) (key : string) (dflt : json) : Exn + json :=
  match v with
  | JObj fields => inr (default dflt (assoc key fields))
  | _ => inl (AttributeError (type_name v))
  end.

(** [v[0]] *)
Definition py_first (v : json) : Exn + json :=
  match v with
  | JArr (x :: _) => inr x
  | JArr [] => inl IndexError
  | JStr (String c _) => inr (JStr (String c EmptyString))
  | JStr EmptyString => inl IndexError
  | JObj _ => inl KeyError
  | _ => inl TypeError
  end.

(** [data.get("records", [{}])[0].get("fields", {}) or record] *)
Definition tokenized_fields (data record : json) : Exn + json :=
  match py_get data "records" (JArr [JObj []]) with
  | inl exc => inl exc
  | inr records =>
      match py_first records with
      | inl exc => inl exc
      | inr first =>
          match py_get first "fields" (JObj []) with
          | inl exc => inl exc
          | inr fields => inr (if truthy fields then fields else record)
          end
      end
  end.

Definition fallback (record : json) : Tokenized :=
  {| was_enabled := false; original := record; tokenized := record |}.

(** The post [tokenize_record] makes for a record. *)
Definition tokenize_call (self : SkyflowClient) (record : json) : PostCall :=
  {| post_url := tokenize_endpoint self;
     post_headers := headers self;
     post_json := JObj [("records", JArr [JObj [("fields", record)]])];
     post_timeout := timeout self |}.

Section Tokenize.

(** The network: a post is answered by a reply or by a raised exception. *)
Variable httpx_post : PostCall -> Exn + Reply.

(** The body of the [try] of [tokenize_record], with the posts it made. *)
Definition try_tokenize (self : SkyflowClient) (record : json)
  : list PostCall * (Exn + Tokenized) :=
  let call := tokenize_call self record in
  match httpx_post call with
  | inl exc => ([call], inl exc)
  | inr response =>
      if negb (Z.eqb (reply_status_code response / 100) 2) then
        ([call], inr (fallback record))
      else
        match reply_json response with
        | None => ([call], inl JSONDecodeError)
        | Some data =>
            match tokenized_fields data record with
            | inl exc => ([call], inl exc)
            | inr fields =>
                ([call], inr {| was_enabled := true; original := record;
                                tokenized := fields |})
            end
        end
  end.

(** [tokenize_record(record)]: the posts made, and what is returned, or
    the exception that leaves the method. *)
Definition tokenize_record (self : SkyflowClient) (record : json)
  : list PostCall * (Exn + Tokenized) :=
  if negb (enabled self) then ([], inr (fallback record))
  else
    match try_tokenize self record with
    | (calls, inr result) => (calls, inr result)
    | (calls, inl _) => (calls, inr (fallback record))
    end.

End Tokenize.

End Skyflow.

(** ** verifypulse/integrations/redis_client.py *)

Module Redis.

(** [VerifyPulseRedis]: the flag, the in-memory dictionary [_store], and
    whether [client] is set. *)
Record VerifyPulseRedis : Type := {
  use_memory : bool;
  store : gmap string string;
  has_client : bool
}.

(** The keys of the in-memory dictionary a pattern selects: all of them
    for [*], those with the prefix for [prefix*], those that contain the
    pattern otherwise. *)
Definition match_keys (pattern : string) (m : gmap string string) : list string :=
  let ks := (map_to_list m).*1 in
  if String.eqb pattern "*" then ks
  else if endswith_char "*"%char pattern then
    List.filter (startswith (drop_last pattern)) ks
  else List.filter (contains pattern) ks.

(** The URL the constructor settles on: its argument, or [REDIS_URL] of
    the configuration, or the empty string when loading that raises. *)
Definition configured_url (url : option string) (load_config : Exn + string) : string :=
  match url with
  | Some u => u
  | None => match load_config with inr u => u | inl _ => "" end
  end.

Section Store.

(** The Redis server behind the client: each command is answered from
    the server's state, by a result or by a raised exception.
    [backend_connect] stands for [Redis.from_url(url)] and [ping()]. *)
Variable Backend : Type.
Variable backend_connect : string -> Backend -> Backend * option Exn.
Variable backend_set : string -> string -> Backend -> Backend * option Exn.
Variable backend_get : string -> Backend -> Backend * (Exn + option string).
Variable backend_keys : string -> Backend -> Backend * (Exn + list string).

(** [json.dumps] and [json.loads]; [None] when [loads] raises. *)
Variable json_dumps : json -> string.
Variable json_loads : string -> option json.

Record State : Type := {
  self : VerifyPulseRedis;
  backend : Backend
}.

(** Computations over the instance and the server that may raise. *)
Definition M (A : Type) : Type := State -> State * (Exn + A).

Definition ret {A} (a : A) : M A := fun s => (s, inr a).

Definition bind {A B} (c : M A) (k : A -> M B) : M B :=
  fun s =>
    match c s with
    | (s1, inr a) => k a s1
    | (s1, inl exc) => (s1, inl exc)
    end.

(** [try: c except Exception as e: handler(e)] *)
Definition try_except {A} (c : M A) (handler : Exn -> M A) : M A :=
  fun s =>
    match c s with
    | (s1, inr a) => (s1, inr a)
    | (s1, inl exc) => handler exc s1
    end.

Notation "'let!' x := c 'in' k" := (bind c (fun x => k))
  (at level 10, x name, c at level 100, k at level 200).
Notation "'do!' c 'then' k" := (bind c (fun _ => k))
  (at level 10, c at level 100, k at level 200).

Definition read_self : M VerifyPulseRedis := fun s => (s, inr (self s)).

(** [self.use_memory = True] *)
Definition fall_back : M unit :=
  fun s =>
    ({| self := {| use_memory := true; store := store (self s);
                   has_client := has_client (self s) |};
        backend := backend s |}, inr tt).

(** [self._store[key] = value] *)
Definition store_put (key value : string) : M unit :=
  fun s =>
    ({| self := {| use_memory := use_memory (self s);
                   store := <[key := value]> (store (self s));
                   has_client := has_client (self s) |};
        backend := backend s |}, inr tt).

(** [self._store.get(key)] *)
Definition store_get (key : string) : M (option string) :=
  fun s => (s, inr (store (self s) !! key)).

Definition store_keys (pattern : string) : M (list string) :=
  fun s => (s, inr (match_keys pattern (store (self s)))).

(** The commands on [self.client] *)
Definition client_set (key value : string) : M unit :=
  fun s =>
    let (b, r) := backend_set key value (backend s) in
    ({| self := self s; backend := b |},
     match r with Some exc => inl exc | None => inr tt end).

Definition client_get (key : string) : M (option string) :=
  fun s =>
    let (b, r) := backend_get key (backend s) in
    ({| self := self s; backend := b |}, r).

Definition client_keys (pattern : string) : M (list string) :=
  fun s =>
    let (b, r) := backend_keys pattern (backend s) in
    ({| self := self s; backend := b |}, r).

(** [result if result else None] *)
Definition nonempty (result : option string) : option string :=
  if truthy_opt result then result else None.

(** [VerifyPulseRedis(url)]; [load_config] is what reading [REDIS_URL]
    from the configuration gives, or the exception loading it raises. *)
Definition VerifyPulseRedis_init (url : option string) (load_config : Exn + string)
    (b : Backend) : State :=
  let address := configured_url url load_config in
  if negb (truthy_str address) || negb (strip_truthy address) then
    {| self := {| use_memory := true; store := ∅; has_client := false |};
       backend := b |}
  else
    match backend_connect address b with
    | (b1, None) =>
        {| self := {| use_memory := false; store := ∅; has_client := true |};
           backend := b1 |}
    | (b1, Some _) =>
        {| self := {| use_memory := true; store := ∅; has_client := false |};
           backend := b1 |}
    end.

Definition set (key value : string) : M unit :=
  try_except
    (let! me := read_self in
     if use_memory me then store_put key value
     else if has_client me then client_set key value
     else ret tt)
    (fun _ => do! fall_back then store_put key value).

Definition get (key : string) : M (option string) :=
  try_except
    (let! me := read_self in
     if use_memory me then store_get key
     else if has_client me then (let! result := client_get key in ret (nonempty result))
     else ret None)
    (fun _ => do! fall_back then store_get key).

Definition store_requirement (requirement_id body : string) : M unit :=
  try_except
    (let! me := read_self in
     if use_memory me then store_put requirement_id body
     else if has_client me then client_set requirement_id body
     else ret tt)
    (fun _ => do! fall_back then store_put requirement_id body).

Definition get_requirement (requirement_id : string) : M (option string) :=
  try_except
    (let! me := read_self in
     if use_memory me then store_get requirement_id
     else if has_client me then
       (let! result := client_get requirement_id in ret (nonempty result))
     else ret None)
    (fun _ => do! fall_back then store_get requirement_id).

Definition keys (pattern : string) : M (list string) :=
  try_except
    (let! me := read_self in
     if use_memory me then store_keys pattern
     else if has_client me then client_keys pattern
     else ret [])
    (fun _ => do! fall_back then store_keys pattern).

(** [save_run_result(run_id, payload)] *)
Definition save_run_result (run_id : string) (payload : json) : M unit :=
  try_except (set ("run:" +:+ run_id) (json_dumps payload)) (fun _ => ret tt).

(** The loop of [list_run_history] over the keys: an entry that is empty
    or does not parse is skipped; an exception ends the loop with the
    results so far. *)
Fixpoint collect (ks : list string) (results : list json) (s : State)
  : State * list json :=
  match ks with
  | [] => (s, results)
  | key :: rest =>
      match get key s with
      | (s1, inl _) => (s1, results)
      | (s1, inr raw) =>
          match raw with
          | Some body =>
              if truthy_str body then
                match json_loads body with
                | Some v => collect rest (results ++ [v]) s1
                | None => collect rest results s1
                end
              else collect rest results s1
          | None => collect rest results s1
          end
      end
  end.

(** [list_run_history()] *)
Definition list_run_history (s : State) : State * list json :=
  match keys "run:*" s with
  | (s1, inr ks) => collect ks [] s1
  | (s1, inl _) => (s1, [])
  end.

(** The public operations on the store, to run sequences of them. *)
Inductive Op : Type :=
| OpSet (key value : string)
| OpGet (key : string)
| OpKeys (pattern : string)
| OpStoreRequirement (requirement_id body : string)
| OpGetRequirement (requirement_id : string)
| OpSaveRunResult (run_id : string) (payload : json)
| OpListRunHistory.

Definition exec (op : Op) (s : State) : State :=
  match op with
  | OpSet key value => (set key value s).1
  | OpGet key => (get key s).1
  | OpKeys pattern => (keys pattern s).1
  | OpStoreRequirement requirement_id body => (store_requirement requirement_id body s).1
  | OpGetRequirement requirement_id => (get_requirement requirement_id s).1
  | OpSaveRunResult run_id payload => (save_run_result run_id payload s).1
  | OpListRunHistory => (list_run_history s).1
  end.

Definition exec_all (ops : list Op) (s : State) : State :=
  fold_left (fun st op => exec op st) ops s.

(** The state in which [key] is held in the dictionary and the instance
    is in memory mode; and what the loop of [list_run_history] keeps of
    a stored text. *)
Definition remembered (key value : string) (s : State) : State :=
  {| self := {| use_memory := true;
                store := <[key := value]> (store (self s));
                has_client := has_client (self s) |};
     backend := backend s |}.

Definition parsed (raw : option string) : option json :=
  match raw with
  | Some body => if truthy_str body then json_loads body else None
  | None => None
  end.

End Store.

Arguments self {Backend}.
Arguments backend {Backend}.

End Redis.

(** ** Scenarios

    Concrete services and inputs, after the scenarios of the
    specification: a health check answered 200 with no body, a login
    answered with a JSON error body, a host that refuses connections. *)

Module Scenarios.

Import Runner.

Definition api : string := "http://127.0.0.1:8000".

Definition sent (call : HttpCall) : HttpRequest :=
  {| req_method :=
       match call_verb call with
       | GET => "GET" | POST => "POST" | PUT => "PUT" | DELETE => "DELETE"
       end;
     req_url := call_url call;
     req_headers := [("host", "127.0.0.1:8000")];
     req_content :=
       match call_json call with
       | Some (JObj _) => Utf8 "{...}"
       | _ => NoContent
       end |}.

Definition answer (call : HttpCall) (code : Z) (body : option json) (raw : string)
  : Response :=
  {| resp_request := sent call;
     resp_status_code := code;
     resp_headers := [];
     resp_json := body;
     resp_text := raw |}.

(** A service that counts the calls it served: [/health] answers 200
    with an empty body, [/login] answers [login_code] with a JSON error
    body, any other path answers 404 with a text body. *)
Definition service (login_code : Z) (served : nat) (call : HttpCall)
  : nat * (Exn + Response) :=
  if String.eqb (call_url call) (api +:+ "/health") then
    (S served, inr (answer call 200 None ""))
  else if String.eqb (call_url call) (api +:+ "/login") then
    (S served,
     inr (answer call login_code (Some (JObj [("error", JStr "invalid credentials")]))
            "{...}"))
  else (S served, inr (answer call 404 None "Not Found")).

Definition ConnectError : Exn :=
  {| exn_str := "[Errno 111] Connection refused";
     exn_repr := "ConnectError('[Errno 111] Connection refused')" |}.

(** A host that refuses every connection. *)
Definition offline (attempts : nat) (call : HttpCall) : nat * (Exn + Response) :=
  (S attempts, inl ConnectError).

Definition health_check : TestCase :=
  {| tc_name := "health_check"; tc_method := "GET"; tc_endpoint := "/health";
     tc_payload := JNull; tc_expected_status := [200%Z];
     tc_requires_json := Some false |}.

Definition login_requirements : TestCase :=
  {| tc_name := "login_requirements"; tc_method := "POST"; tc_endpoint := "/login";
     tc_payload := JObj [("username", JStr "test_user"); ("password", JStr "wrong_password")];
     tc_expected_status := [200%Z; 401%Z];
     tc_requires_json := Some true |}.

(** A case with a method the runner does not dispatch, and one whose
    method is spelled in lower case. *)
Definition patch_profile : TestCase :=
  {| tc_name := "patch_profile"; tc_method := "PATCH"; tc_endpoint := "/profile";
     tc_payload := JObj [("name", JStr "x")]; tc_expected_status := [200%Z];
     tc_requires_json := Some false |}.

Definition health_lower : TestCase :=
  {| tc_name := "health_lower"; tc_method := "get"; tc_endpoint := "/health";
     tc_payload := JNull; tc_expected_status := [200%Z];
     tc_requires_json := None |}.

(** A login whose method is written with a long s. *)
Definition login_long_s : TestCase :=
  {| tc_name := "login_long_s"; tc_method := "poſt"; tc_endpoint := "/login";
     tc_payload := JObj [("username", JStr "test_user")];
     tc_expected_status := [200%Z; 401%Z];
     tc_requires_json := Some true |}.

(** The run against the host that refuses connections, and its log. *)
Definition offline_result : TestRunResult :=
  (run_native_tests nat offline load_test_cases api 0).2.

Definition offline_log : Logger.FailureLog :=
  Logger.build_payload offline_result "abc123" "run-1" "2026-01-01T00:00:00+00:00".

(** The run in which the login answers 500, and its log. *)
Definition login_500_result : TestRunResult :=
  (run_native_tests nat (service 500) load_test_cases api 0).2.

Definition login_500_log : Logger.FailureLog :=
  Logger.build_payload login_500_result "abc123" "run-2" "2026-01-01T00:00:00+00:00".

(** A machine without Redis: the libraries are missing and [REDIS_URL]
    is not set. *)
Definition no_redis_diagnosis (log : Logger.FailureLog) (commit_hash : string)
  : list Rag.VdbCall * (Exn + Llm.Diagnosis) :=
  Rag.run_rag_diagnosis false None (fun _ => None) (fun _ _ => None)
    (fun _ => "{}") [] [] log commit_hash.

(** An enabled vector-search wrapper, and retrieval with the libraries
    present. *)
Definition vdb_on : Rag.VectorDBClient :=
  {| Rag.vdb_url := Some "redis://localhost:6379";
     Rag.enabled := true;
     Rag.has_client := true |}.

Definition retrieve (vdb : option Rag.VectorDBClient)
  : Llm.Context * list Rag.VdbCall :=
  Rag.retrieve_context true (fun _ => "{}") offline_log "abc123" vdb None.

(** Skyflow: an environment without credentials, one with them, a
    record, and three networks: one that refuses the connection, one that
    answers 401, one that answers 200 with malformed JSON. *)
Definition bare_env (name : string) : option string := None.

Definition vault_env (name : string) : option string :=
  if String.eqb name "SKYFLOW_VAULT_ID" then Some "vault-1"
  else if String.eqb name "SKYFLOW_API_TOKEN" then Some "token-1"
  else None.

Definition patient : json :=
  JObj [("ssn", JStr "123-45-6789"); ("name", JStr "Ada")].

Definition refused (call : Skyflow.PostCall) : Exn + Skyflow.Reply := inl ConnectError.

Definition unauthorized (call : Skyflow.PostCall) : Exn + Skyflow.Reply :=
  inr {| Skyflow.reply_status_code := 401;
         Skyflow.reply_text := "unauthorized";
         Skyflow.reply_json := None |}.

Definition garbled (call : Skyflow.PostCall) : Exn + Skyflow.Reply :=
  inr {| Skyflow.reply_status_code := 200;
         Skyflow.reply_text := "[]";
         Skyflow.reply_json := Some (JArr []) |}.

Definition vault (call : Skyflow.PostCall) : Exn + Skyflow.Reply :=
  inr {| Skyflow.reply_status_code := 200;
         Skyflow.reply_text := "{...}";
         Skyflow.reply_json :=
           Some (JObj [("records",
                        JArr [JObj [("fields",
                                     JObj [("ssn", JStr "tok-1"); ("name", JStr "tok-2")])]])]) |}.

(** A fresh working directory. *)
Definition empty_disk : Logger.Disk :=
  {| Logger.cwd := ["work"]; Logger.dirs := ∅; Logger.files := ∅; Logger.stdout := [] |}.

(** Redis: a server that answers [budget] commands and then drops every
    connection. *)
Record Server : Type := {
  budget : nat;
  data : gmap string string
}.

Definition ConnectionError : Exn :=
  {| exn_str := "Error 111 connecting to localhost:6379. Connection refused.";
     exn_repr := "ConnectionError('Error 111 connecting to localhost:6379. Connection refused.')" |}.

Definition server_connect (address : string) (sv : Server) : Server * option Exn :=
  match budget sv with
  | O => (sv, Some ConnectionError)
  | S n => ({| budget := n; data := data sv |}, None)
  end.

Definition server_set (key value : string) (sv : Server) : Server * option Exn :=
  match budget sv with
  | O => (sv, Some ConnectionError)
  | S n => ({| budget := n; data := <[key := value]> (data sv) |}, None)
  end.

Definition server_get (key : string) (sv : Server) : Server * (Exn + option string) :=
  match budget sv with
  | O => (sv, inl ConnectionError)
  | S n => ({| budget := n; data := data sv |}, inr (data sv !! key))
  end.

Definition server_keys (pattern : string) (sv : Server) : Server * (Exn + list string) :=
  match budget sv with
  | O => (sv, inl ConnectionError)
  | S n => ({| budget := n; data := data sv |}, inr (Redis.match_keys pattern (data sv)))
  end.

(** A payload of the pipeline; [json.dumps] for values whose strings hold
    nothing to escape; and a [json.loads] that knows the text of that one
    payload. *)
Definition run_payload : json :=
  JObj [("collection_id", JStr "c-1"); ("tests", JNum 2)].

Fixpoint dumps_run (v : json) : string :=
  match v with
  | JNull => "null"
  | JBool true => "true"
  | JBool false => "false"
  | JNum z => str_int z
  | JStr s => dquote +:+ s +:+ dquote
  | JArr l => "[" +:+ join ", " (map dumps_run l) +:+ "]"
  | JObj l =>
      "{" +:+ join ", " (map (fun '(k, x) => dquote +:+ k +:+ dquote +:+ ": "
                                             +:+ dumps_run x) l) +:+ "}"
  end.

Definition loads_run (body : string) : option json :=
  if String.eqb body (dumps_run run_payload) then Some run_payload else None.

(** The store built without a URL and with a configuration that does
    not load, over a server nobody reaches. *)
Definition unreachable : Server := {| budget := 0; data := ∅ |}.

Definition memory_store : Redis.State Server :=
  Redis.VerifyPulseRedis_init Server server_connect None (inl (ValueError "REDIS_URL")) unreachable.

(** The store connected to a server that drops the connection right
    after the ping. *)
Definition dropped_store : Redis.State Server :=
  Redis.VerifyPulseRedis_init Server server_connect (Some "redis://localhost:6379")
    (inl (ValueError "REDIS_URL")) {| budget := 1; data := ∅ |}.

End Scenarios.

(** ** quality_agent/core/test_cases.py: the loader *)

Module Loader.

(** The configuration of one test in the dictionary handed to
    [load_test_cases_from_dict]; a key that is absent is [None]. *)
Record Config : Type := {
  cfg_method : option string;
  cfg_endpoint : option string;
  cfg_payload : option json;
  cfg_expected_status : option (list Z);
  cfg_requires_json : option bool
}.

(** [load_test_cases_from_dict(test_dict)]: one case per entry, in the
    order of the dictionary. *)
Definition load_test_case (entry : string * Config) : TestCase :=
  let (name, config) := entry in
  {| tc_name := name;
     tc_method := default "GET" (cfg_method config);
     tc_endpoint := default "/" (cfg_endpoint config);
     tc_payload := default JNull (cfg_payload config);
     tc_expected_status := default [200%Z] (cfg_expected_status config);
     tc_requires_json := Some (default true (cfg_requires_json config)) |}.

Definition load_test_cases_from_dict (test_dict : list (string * Config))
  : list TestCase :=
  map load_test_case test_dict.

End Loader.

(** ** The calls a table asks for *)

Module Calls.

Import Runner.

(** The call of a case, when its method is dispatched. *)
Definition call_for (api_base_url : string) (test : TestCase) : option HttpCall :=
  match dispatch (tc_method test) with
  | Some verb => Some (call_of verb (url_of api_base_url test) (tc_payload test))
  | None => None
  end.

(** The calls of the cases of a table, each with the index of its case,
    the first case having index [i]. *)
Fixpoint calls_of (api_base_url : string) (i : nat) (tests : list TestCase)
  : list (nat * HttpCall) :=
  match tests with
  | [] => []
  | test :: rest =>
      match call_for api_base_url test with
      | Some call => (i, call) :: calls_of api_base_url (S i) rest
      | None => calls_of api_base_url (S i) rest
      end
  end.

End Calls.

(** ** Ingestion: the writes that succeed *)

Module Writes.

(** The write of one item under an index does not raise. *)
Definition written (client_set : string -> string -> option Exn) (index : string)
    (item : string * string) : Prop :=
  client_set (index +:+ ":" +:+ item.1) item.2 = None.

End Writes.

(** ** Tokenization: replies that name no fields *)

Module Replies.

Import Skyflow.

(** The value under key [fields] is absent or false in the sense of
    [or]: [None], an empty dict, list or string, zero, [False]. *)
Definition no_fields (first : list (string * json)) : Prop :=
  assoc "fields" first = None \/
  exists v, assoc "fields" first = Some v /\ truthy v = false.

(** The parsed reply is a dict with no key [records], or one whose list
    of records starts with a dict that names no fields. *)
Definition names_no_fields (data : json) : Prop :=
  exists reply,
    data = JObj reply /\
    (assoc "records" reply = None \/
     exists first rest,
       assoc "records" reply = Some (JArr (JObj first :: rest)) /\ no_fields first).

End Replies.

(** ** quality_agent/core/html_report.py *)

Module Report.

Import Logger.
Import Llm.

(** The names of a [Path]: those between the slashes, without the empty
    ones and the dots. *)
Definition parts (p : string) : list string :=
  List.filter (fun name => negb (String.eqb name "" || String.eqb name "."))
    (names_of p).

(** The root of a [Path]: two leading slashes are kept, one or more
    than two are one. *)
Definition root (p : string) : string :=
  if String.prefix "//" p && negb (String.prefix "///" p) then "//"
  else if String.prefix "/" p then "/"
  else "".

(** [str(Path("reports") / name)]: an absolute [name] replaces the
    directory. *)
Definition under_reports (name : string) : string :=
  if String.prefix "/" name then root name +:+ join "/" (parts name)
  else join "/" ("reports" :: parts name).

(** [Path("reports") / f"{run_id}_diagnostic_report.html"] *)
Definition report_path (run_id : string) : string :=
  under_reports (run_id +:+ "_diagnostic_report.html").

(** [path.write_text(text, encoding="utf-8")] *)
Definition write_text (p text : string) (d : Disk) : Exn + Disk :=
  match open_w p d with
  | inl exc => inl exc
  | inr entry =>
      inr {| cwd := cwd d; dirs := dirs d;
             files := <[entry := OtherData text]> (files d); stdout := stdout d |}
  end.

Section Html.

(** The page the template gives for a run identifier, a diagnosis and a
    log; and [Path.absolute]. *)
Variable render : string -> Diagnosis -> option FailureLog -> string.
Variable absolute : string -> string.

(** [generate_html_report(run_id, diagnosis, raw_log)]: create
    [reports], write the page, print, return the absolute path.  An
    exception of the file system is not caught. *)
Definition generate_html_report (run_id : string) (diagnosis : Diagnosis)
    (raw_log : option FailureLog) (d : Disk) : Disk * (Exn + string) :=
  let html := render run_id diagnosis raw_log in
  match makedirs "reports" d with
  | inl exc => (d, inl exc)
  | inr d1 =>
      match write_text (report_path run_id) html d1 with
      | inl exc => (d1, inl exc)
      | inr d2 =>
          (print ("[HTML] Report generated: " +:+ report_path run_id) d2,
           inr (absolute (report_path run_id)))
      end
  end.

End Html.

End Report.

(** ** quality_agent/agent_runner.py *)

Module Agent.

Import Runner.
Import Logger.
Import Llm.

(** [uuid.UUID], by the five groups of hexadecimal digits [str] writes:
    8, 4, 4, 4 and 12 digits, in lower case, with hyphens between them. *)
Record UUID : Type := {
  group1 : N;
  group2 : N;
  group3 : N;
  group4 : N;
  group5 : N
}.

(** [str(u)] *)
Definition str_uuid (u : UUID) : string :=
  hex 8 (group1 u) +:+ "-" +:+ hex 4 (group2 u) +:+ "-" +:+ hex 4 (group3 u) +:+ "-"
  +:+ hex 4 (group4 u) +:+ "-" +:+ hex 12 (group5 u).

(** The dictionary [run_agent] returns. *)
Record AgentRun : Type := {
  agent_run_id : string;
  agent_report_path : string;
  agent_diagnosis : Diagnosis;
  agent_success : bool
}.

Section RunAgent.

(** The service under test, the table [load_test_cases()] returns, the
    surroundings of the diagnosis stage, the template of the report, and
    what [uuid.uuid4()] and [datetime.now().isoformat()] give in this call. *)
Variable World : Type.
Variable http : World -> HttpCall -> World * (Exn + Response).
Variable test_cases : list TestCase.
Variable REDISVL_AVAILABLE : bool.
Variable REDIS_URL : option string.
Variable from_url : string -> option Exn.
Variable client_set : string -> string -> option Exn.
Variable json_dumps : FailureLog -> string.
Variable code_items : list (string * string).
Variable doc_items : list (string * string).
Variable render : string -> Diagnosis -> option FailureLog -> string.
Variable absolute : string -> string.
Variable uuid4 : UUID.
Variable now : string.

(** What a run of the agent acts on: the network and the files of the
    working directory.  The console is not part of this state. *)
Record Host : Type := {
  network : World;
  workdir : list string;
  folders : gset string;
  documents : gmap string FileData
}.

Definition disk_of (h : Host) : Disk :=
  {| cwd := workdir h; dirs := folders h; files := documents h; stdout := [] |}.

Definition host (w : World) (d : Disk) : Host :=
  {| network := w; workdir := cwd d; folders := dirs d; documents := files d |}.

(** [run_id = str(uuid.uuid4())] *)
Definition run_id : string := str_uuid uuid4.

(** [run_agent(api_url, commit_hash)]: run the tests, persist the log,
    diagnose, write the report.  No stage is wrapped in a [try]: the
    exception of a stage leaves the function. *)
Definition run_agent (api_url commit_hash : string) (h : Host)
  : Host * (Exn + AgentRun) :=
  let run := run_native_tests World http test_cases api_url (network h) in
  let test_result := run.2 in
  let w := world run.1 in
  match save_raw_failure_log test_result commit_hash run_id now (disk_of h) with
  | (d1, inl exc) => (host w d1, inl exc)
  | (d1, inr raw_log) =>
      match (Rag.run_rag_diagnosis REDISVL_AVAILABLE REDIS_URL from_url client_set
               json_dumps code_items doc_items raw_log commit_hash).2 with
      | inl exc => (host w d1, inl exc)
      | inr diagnosis =>
          match Report.generate_html_report render absolute run_id diagnosis
                  (Some raw_log) d1 with
          | (d2, inl exc) => (host w d2, inl exc)
          | (d2, inr path) =>
              (host w d2,
               inr {| agent_run_id := run_id;
                      agent_report_path := path;
                      agent_diagnosis := diagnosis;
                      agent_success := success test_result |})
          end
      end
  end.

(** The end of [main], once the arguments are parsed: the exit code. *)
Definition exit_code (result : AgentRun) : Z :=
  if agent_success result then 0%Z else 1%Z.

Definition main (api_url commit_hash : string) (h : Host) : Host * (Exn + Z) :=
  match run_agent api_url commit_hash h with
  | (h1, inr result) => (h1, inr (exit_code result))
  | (h1, inl exc) => (h1, inl exc)
  end.

End RunAgent.

Arguments str_uuid : simpl never.
Arguments network {World}.
Arguments workdir {World}.
Arguments folders {World}.
Arguments documents {World}.

End Agent.

(** ** verifypulse/api_server.py: the endpoints that use the store *)

Module Api.

Import Redis.

(** What [history_endpoint] returns. *)
Record History : Type := {
  count : nat;
  runs : list json
}.

Section Endpoints.

Variable Backend : Type.
Variable backend_connect : string -> Backend -> Backend * option Exn.
Variable backend_set : string -> string -> Backend -> Backend * option Exn.
Variable backend_get : string -> Backend -> Backend * (Exn + option string).
Variable backend_keys : string -> Backend -> Backend * (Exn + list string).
Variable json_dumps : json -> string.
Variable json_loads : string -> option json.
Variable load_config : Exn + string.

(** [VerifyPulseRedis()], as each endpoint builds it for each request. *)
Definition connect (b : Backend) : State Backend :=
  VerifyPulseRedis_init Backend backend_connect None load_config b.

(** [run_endpoint], from the point where [execute_pipeline] has returned
    [result]: the run is saved when the result is a dictionary with a
    key [collection_id].  Between two requests only the server remains. *)
Definition run_endpoint (result : json) (b : Backend) : Backend :=
  match result with
  | JObj fields =>
      match Skyflow.assoc "collection_id" fields with
      | Some collection_id =>
          backend (save_run_result Backend backend_set json_dumps
                     (str collection_id) result (connect b)).1
      | None => b
      end
  | _ => b
  end.

(** [history_endpoint()] *)
Definition history_endpoint (b : Backend) : Backend * History :=
  let (s, found) :=
    list_run_history Backend backend_get backend_keys json_loads (connect b) in
  (backend s, {| count := length found; runs := found |}).

(** A sequence of requests to [/run], one per pipeline result. *)
Definition run_requests (results : list json) (b : Backend) : Backend :=
  fold_left (fun server result => run_endpoint result server) results b.

End Endpoints.

End Api.

(** ** verifypulse/pii_tokenizer.py *)

Module Pii.

Import Skyflow.

(** [PIITokenizer]: the client, if one was given, and the stub flag. *)
Record PIITokenizer : Type := {
  skyflow_client : option SkyflowClient;
  use_stub : bool
}.

(** [PIITokenizer(skyflow_client, use_stub)]; [use_stub] left out is
    [True]. *)
Definition PIITokenizer_init (client : option SkyflowClient) (stub : option bool)
  : PIITokenizer :=
  {| skyflow_client := client;
     use_stub := default true stub || match client with None => true | Some _ => false end |}.

Definition NoInsertRecord (what : string) : Exn :=
  {| exn_str := "'" +:+ what +:+ "' object has no attribute 'insert_record'";
     exn_repr := "AttributeError(" +:+ dquote +:+ "'" +:+ what
                 +:+ "' object has no attribute 'insert_record'" +:+ dquote +:+ ")" |}.

(** [self.skyflow_client.insert_record(table=..., fields=..., tokens=True)]:
    [SkyflowClient] defines no method of that name, so the attribute
    lookup raises. *)
Definition insert_record (client : option SkyflowClient) (table : string)
    (fields : list (string * json)) : Exn + json :=
  match client with
  | Some _ => inl (NoInsertRecord "SkyflowClient")
  | None => inl (NoInsertRecord "NoneType")
  end.

(** [response.get("tokens", {}).get(field, placeholder)] under
    [try: ... except Exception: return placeholder] *)
Definition token_of (response : Exn + json) (field placeholder : string) : json :=
  match response with
  | inl _ => JStr placeholder
  | inr r =>
      match py_get r "tokens" (JObj []) with
      | inl _ => JStr placeholder
      | inr tokens =>
          match py_get tokens field (JStr placeholder) with
          | inl _ => JStr placeholder
          | inr token => token
          end
      end
  end.

Definition tokenize_with (self : PIITokenizer) (field placeholder value : string) : json :=
  if use_stub self then JStr placeholder
  else token_of (insert_record (skyflow_client self) "pii_data" [(field, JStr value)])
         field placeholder.

Definition tokenize_email (self : PIITokenizer) (email : string) : json :=
  tokenize_with self "email" "{{tokenized_email}}" email.

Definition tokenize_password (self : PIITokenizer) (password : string) : json :=
  JStr "{{tokenized_password}}".

Definition tokenize_phone (self : PIITokenizer) (phone : string) : json :=
  tokenize_with self "phone" "{{tokenized_phone}}" phone.

Definition tokenize_ssn (self : PIITokenizer) (ssn : string) : json :=
  tokenize_with self "ssn" "{{tokenized_ssn}}" ssn.

Definition tokenize_credit_card (self : PIITokenizer) (card : string) : json :=
  tokenize_with self "credit_card" "{{tokenized_credit_card}}" card.

(** The placeholders a value can be replaced by. *)
Definition placeholders : list string :=
  [ "{{tokenized_email}}"; "{{tokenized_password}}"; "{{tokenized_phone}}";
    "{{tokenized_ssn}}"; "{{tokenized_credit_card}}" ].

Section Patterns.

(** The four compiled patterns, by whether [search] finds a match. *)
Variable EMAIL_PATTERN : string -> bool.
Variable PHONE_PATTERN : string -> bool.
Variable SSN_PATTERN : string -> bool.
Variable CREDIT_CARD_PATTERN : string -> bool.

(** [_tokenize_string(value, field_name)]: the name of the field
    decides first, the patterns after it. *)
Definition tokenize_string (self : PIITokenizer) (value field_name : string) : json :=
  let field_lower := lower field_name in
  if contains "email" field_lower then tokenize_email self value
  else if contains "password" field_lower then tokenize_password self value
  else if contains "phone" field_lower || contains "mobile" field_lower then
    tokenize_phone self value
  else if contains "ssn" field_lower || contains "social" field_lower then
    tokenize_ssn self value
  else if contains "card" field_lower || contains "credit" field_lower then
    tokenize_credit_card self value
  else if EMAIL_PATTERN value then tokenize_email self value
  else if PHONE_PATTERN value then tokenize_phone self value
  else if SSN_PATTERN value then tokenize_ssn self value
  else if CREDIT_CARD_PATTERN value then tokenize_credit_card self value
  else JStr value.

(** One entry of [tokenize_data]: a string is tokenized under its key, a
    dictionary is tokenized entry by entry, in a list only the
    dictionaries are; any other value is kept. *)
Fixpoint tokenize_value (self : PIITokenizer) (key : string) (value : json) : json :=
  match value with
  | JStr s => tokenize_string self s key
  | JObj fields => JObj (map (fun '(k, v) => (k, tokenize_value self k v)) fields)
  | JArr items =>
      JArr (map (fun item =>
                   match item with
                   | JObj fields =>
                       JObj (map (fun '(k, v) => (k, tokenize_value self k v)) fields)
                   | _ => item
                   end) items)
  | _ => value
  end.

(** [tokenize_data(data)] *)
Definition tokenize_data (self : PIITokenizer) (data : list (string * json))
  : list (string * json) :=
  map (fun '(k, v) => (k, tokenize_value self k v)) data.

(** One entry of a dictionary and one item of a list, as
    [tokenize_data] treats them. *)
Definition entry (self : PIITokenizer) (kv : string * json) : string * json :=
  (kv.1, tokenize_value self kv.1 kv.2).

Definition item_of (self : PIITokenizer) (item : json) : json :=
  match item with
  | JObj fields => JObj (tokenize_data self fields)
  | _ => item
  end.

(** [isinstance(v, dict)] *)
Definition is_dict (v : json) : bool :=
  match v with JObj _ => true | _ => false end.

(** No pattern finds a match in a placeholder. *)
Definition ignores_placeholders : Prop :=
  forall p, p ∈ placeholders ->
    EMAIL_PATTERN p = false /\ PHONE_PATTERN p = false /\
    SSN_PATTERN p = false /\ CREDIT_CARD_PATTERN p = false.

End Patterns.

End Pii.

(** ** verifypulse/integrations/parallel_client.py *)

Module Parallel.

Record ParallelClient : Type := {
  api_key : string;
  base_url : string;
  timeout : Z;
  enabled : bool
}.

(** [ParallelClient(api_key, base_url, timeout)], with [getenv] the
    environment; an argument left out is [None]. *)
Definition ParallelClient_init (getenv : string -> option string)
    (key url : option string) (seconds : option Z) : ParallelClient :=
  let k := if truthy_opt key then default "" key
           else default "" (getenv "PARALLEL_API_KEY") in
  {| api_key := k;
     base_url := rstrip "/"%char (default "https://api.parallelai.xyz" url);
     timeout := default 15%Z seconds;
     enabled := truthy_str k |}.

(** [client.post(path, json=payload)] on the client [_client()] builds. *)
Record WebCall : Type := {
  web_base_url : string;
  web_headers : list (string * string);
  web_timeout : Z;
  web_path : string;
  web_json : json
}.

(** The response, by what is read of it: what [raise_for_status()]
    raises, if it raises, and what [json()] returns, [None] when it
    raises. *)
Record WebReply : Type := {
  status_error : option Exn;
  body_json : option json
}.

Definition search_call (self : ParallelClient) (query : string) (max_tokens : Z)
  : WebCall :=
  {| web_base_url := base_url self;
     web_headers := [("Authorization", "Bearer " +:+ api_key self)];
     web_timeout := timeout self;
     web_path := "/v1/web/search";
     web_json := JObj [("query", JStr query); ("max_tokens", JNum max_tokens)] |}.

Section Search.

(** The network: a post is answered by a reply or by a raised exception. *)
Variable post : WebCall -> Exn + WebReply.

(** [search_web(query, max_tokens)]: the posts made, and the dictionary
    returned or the exception that leaves the method.  [max_tokens] left
    out is 256.  The call of [json()] is after the [try]. *)
Definition search_web (self : ParallelClient) (query : string) (max_tokens : option Z)
  : list WebCall * (Exn + list (string * json)) :=
  if negb (enabled self) then
    ([], inr [ ("enabled", JBool false);
               ("reason", JStr "Parallel API key missing");
               ("query", JStr query) ])
  else
    let call := search_call self query (default 256%Z max_tokens) in
    let failed exc :=
      [ ("enabled", JBool false);
        ("reason", JStr ("Parallel request failed: " +:+ exn_str exc));
        ("query", JStr query) ] in
    match post call with
    | inl exc => ([call], inr (failed exc))
    | inr resp =>
        match status_error resp with
        | Some exc => ([call], inr (failed exc))
        | None =>
            match body_json resp with
            | None => ([call], inl Skyflow.JSONDecodeError)
            | Some data =>
                ([call], inr [ ("enabled", JBool true);
                               ("query", JStr query);
                               ("raw", data) ])
            end
        end
    end.

Definition search_security_guidelines (self : ParallelClient) (requirement : string)
  : list WebCall * (Exn + list (string * json)) :=
  search_web self
    (requirement +:+ " API security guidelines best practices login authentication") None.

Definition search_login_checklist (self : ParallelClient) (requirement : string)
  : list WebCall * (Exn + list (string * json)) :=
  search_web self (requirement +:+ " API login validation checklist test cases") None.

End Search.

End Parallel.

(** ** verifypulse/models.py and verifypulse/planner.py *)

Module Planner.

Record Requirement : Type := { text : string }.

Record EndpointPlan : Type := {
  path : string;
  method : string;
  description : string
}.

Record TestCase : Type := {
  id : string;
  category : string;
  case_description : string;
  steps : list string;
  expected_result : string
}.

Record TestPlan : Type := {
  requirement : Requirement;
  endpoints : list EndpointPlan;
  tests : list TestCase
}.

Definition build_test_plan (requirement_text : string) : TestPlan :=
  {| requirement := {| text := requirement_text |};
     endpoints := [ {| path := "/login"; method := "POST";
                       description := "User login endpoint" |} ];
     tests :=
       [ {| id := "TC-1"; category := "happy"; case_description := "Valid login";
            steps := ["Send valid credentials"]; expected_result := "200 OK" |};
         {| id := "TC-2"; category := "negative"; case_description := "Invalid password";
            steps := ["Send invalid password"];
            expected_result := "401 Unauthorized" |} ] |}.

(** [s[:n]] *)
Fixpoint first_chars (n : nat) (s : string) : string :=
  match n, s with
  | S m, String c s' => String c (first_chars m s')
  | _, _ => EmptyString
  end.

Definition security_test (counter : Z) (guideline : string) : TestCase :=
  {| id := "TC-" +:+ str_int counter;
     category := "security";
     case_description := "Security check: " +:+ first_chars 100 guideline;
     steps := ["Verify: " +:+ first_chars 200 guideline];
     expected_result := "Compliant with security guidelines" |}.

(** [for guideline in guidelines: ...]: a test is appended for each item
    that is not blank, and the counter moves with it. *)
Fixpoint add_security_tests (counter : Z) (guidelines : list string)
    (found : list TestCase) : list TestCase :=
  match guidelines with
  | [] => found
  | guideline :: rest =>
      if truthy_str guideline && strip_truthy guideline then
        add_security_tests (counter + 1) rest (found ++ [security_test counter guideline])
      else add_security_tests counter rest found
  end.

Section Pipeline.

Variable post : Parallel.WebCall -> Exn + Parallel.WebReply.

(** Steps b) and c) of [execute_pipeline]: the base plan, the search,
    and the loop over what the search returned.  The search returns a
    dictionary, and iterating over a dictionary gives its keys. *)
Definition plan_with_guidelines (parallel : Parallel.ParallelClient)
    (requirement_text : string) : list Parallel.WebCall * (Exn + TestPlan) :=
  let plan := build_test_plan requirement_text in
  match Parallel.search_security_guidelines post parallel
          "OWASP API security login checklist" with
  | (calls, inl exc) => (calls, inl exc)
  | (calls, inr guidelines) =>
      let security_test_counter := (Z.of_nat (length (tests plan)) + 1)%Z in
      (calls,
       inr {| requirement := requirement plan;
              endpoints := endpoints plan;
              tests := add_security_tests security_test_counter (guidelines.*1)
                         (tests plan) |})
  end.

End Pipeline.

End Planner.

(** ** More scenarios *)

Module MoreScenarios.

Import Runner.
Import Scenarios.

(** The health check with JSON required, and a dictionary entry that
    names only its endpoint. *)
Definition health_json : TestCase :=
  {| tc_name := "health_json"; tc_method := "GET"; tc_endpoint := "/health";
     tc_payload := JNull; tc_expected_status := [200%Z];
     tc_requires_json := Some true |}.

Definition health_entry : Loader.Config :=
  {| Loader.cfg_method := None;
     Loader.cfg_endpoint := Some "/health";
     Loader.cfg_payload := None;
     Loader.cfg_expected_status := None;
     Loader.cfg_requires_json := None |}.

(** A vault that answers 200 with an empty JSON object. *)
Definition silent_vault (call : Skyflow.PostCall) : Exn + Skyflow.Reply :=
  inr {| Skyflow.reply_status_code := 200;
         Skyflow.reply_text := "{}";
         Skyflow.reply_json := Some (JObj []) |}.

(** Stores in memory mode: one that holds two requirements, and one
    that holds a run, a text that does not parse and a requirement. *)
Definition two_requirements : Redis.State Server :=
  Redis.exec_all Server server_set server_get server_keys dumps_run loads_run
    [ Redis.OpStoreRequirement "requirement:1" "login must answer 401";
      Redis.OpStoreRequirement "requirement:2" "health must answer 200" ]
    memory_store.

Definition mixed_store : Redis.State Server :=
  Redis.exec_all Server server_set server_get server_keys dumps_run loads_run
    [ Redis.OpSaveRunResult "c-1" run_payload;
      Redis.OpSet "run:broken" "{not json";
      Redis.OpStoreRequirement "last_requirement" "login" ]
    memory_store.

(** The store connected to a server that takes one more command after
    the ping and then drops the connection. *)
Definition flaky_store : Redis.State Server :=
  Redis.VerifyPulseRedis_init Server server_connect (Some "redis://localhost:6379")
    (inl (ValueError "REDIS_URL")) {| budget := 2; data := ∅ |}.

(** The agent on a fresh working directory, on a machine without
    Redis, with a page that shows the category of the diagnosis. *)
Definition page (run_id : string) (diagnosis : Llm.Diagnosis)
    (raw_log : option Logger.FailureLog) : string :=
  "<h1>" +:+ Llm.FailureCategory diagnosis +:+ "</h1>".

Definition in_work (p : string) : string := "/work/" +:+ p.

Definition fresh_host : Agent.Host nat :=
  {| Agent.network := 0; Agent.workdir := ["work"]; Agent.folders := ∅;
     Agent.documents := ∅ |}.

Definition drawn : Agent.UUID :=
  {| Agent.group1 := 0x3f2b8c1e; Agent.group2 := 0x9a4d; Agent.group3 := 0x4c7b;
     Agent.group4 := 0x8e21; Agent.group5 := 0x5d0f6a7b9c3e |}.

Definition agent_on (login_code : Z) : Agent.Host nat * (Exn + Agent.AgentRun) :=
  Agent.run_agent nat (service login_code) load_test_cases false None (fun _ => None)
    (fun _ _ => None) (fun _ => "{}") [] [] page in_work
    drawn "2026-01-01T00:00:00+00:00" api "abc123" fresh_host.

(** A deployment without [REDIS_URL]: the requests of one evening. *)
Definition evening : list json :=
  [ run_payload; JObj [("collection_id", JStr "c-2"); ("tests", JNum 5)] ].

(** Coarse stand-ins for the four patterns: an address holds an at
    sign, the three kinds of numbers hold a digit. *)
Definition has_at (s : string) : bool := contains "@" s.

Fixpoint has_digit (s : string) : bool :=
  match s with
  | EmptyString => false
  | String c s' => in_range 48 57 c || has_digit s'
  end.

(** The tokenizer the workflow builds, one that is told not to use the
    stub, and a sign-up form. *)
Definition stub_tokenizer : Pii.PIITokenizer := Pii.PIITokenizer_init None None.

Definition vault_tokenizer : Pii.PIITokenizer :=
  Pii.PIITokenizer_init
    (Some (Skyflow.SkyflowClient_init vault_env None None None None None)) (Some false).

Definition signup : list (string * json) :=
  [ ("user_email", JStr "ada@example.com");
    ("password", JStr "s3cret");
    ("contact", JStr "ada@example.com");
    ("age", JNum 36);
    ("emails", JArr [JStr "ada@example.com"; JStr "ada@work.example"]);
    ("guardian", JObj [("mobile", JStr "555-010-9999"); ("name", JStr "Grace")]) ].

(** The search client of a deployment without a key, and one with a
    key; a search service that answers with two guidelines. *)
Definition no_key_client : Parallel.ParallelClient :=
  Parallel.ParallelClient_init bare_env (Some "") None None.

Definition keyed_client : Parallel.ParallelClient :=
  Parallel.ParallelClient_init bare_env (Some "key-1") None None.

Definition guidelines_service (call : Parallel.WebCall) : Exn + Parallel.WebReply :=
  inr {| Parallel.status_error := None;
         Parallel.body_json :=
           Some (JObj [("results",
                        JArr [JStr "Lock the account after five failed logins";
                              JStr "Never reveal which of the two credentials was wrong"])]) |}.

End MoreScenarios.

(* ================================================================== *)
(** * Part II: the properties *)
(* ================================================================== *)

(** ** Python primitives, on the inputs the sources give them *)

Section PrimitiveFacts.

Import Llm.

Example upper_of_get : upper "get" = "GET".
Proof. reflexivity. Qed.

Example upper_of_long_s : upper "poſt" = "POST" /\ upper "poﬆ" = "POST".
Proof. split; reflexivity. Qed.

Example rstrip_of_base_url :
  rstrip "/"%char "http://127.0.0.1:8000//" = "http://127.0.0.1:8000".
Proof. reflexivity. Qed.

Example str_of_status : str_int 500 = "500" /\ str_int (-1) = "-1".
Proof. split; reflexivity. Qed.

Example joined_codes : join " or " (map str_int [200%Z; 401%Z]) = "200 or 401".
Proof. reflexivity. Qed.

Example repr_of_payload :
  repr (JObj [("username", JStr "test_user"); ("attempts", JNum 3); ("admin", JBool false)])
  = "{'username': 'test_user', 'attempts': 3, 'admin': False}".
Proof. reflexivity. Qed.

Example blank_url_is_falsy : strip_truthy "   " = false /\ strip_truthy " redis" = true.
Proof. split; reflexivity. Qed.

Example classified_reasons :
  classify "Expected 200 or 401 from /login, got 500" = StatusCode /\
  classify "Expected JSON response from /login" = JsonFormat /\
  classify "Exception calling /health: ConnectError('refused')" = RaisedError /\
  classify "Expected 200 from /health, got 500" = Other.
Proof. repeat split; reflexivity. Qed.

End PrimitiveFacts.

(** ** The test runner *)

Section RunnerFacts.

Import Runner.

Variable World : Type.
Variable http : World -> HttpCall -> World * (Exn + Response).

Local Abbreviation run_case := (Runner.run_case World http).
Local Abbreviation run_loop := (Runner.run_loop World http).
Local Abbreviation run_native_tests := (Runner.run_native_tests World http).
Local Abbreviation Passes := (Runner.Passes World http).
Local Abbreviation Fails := (Runner.Fails World http).
Local Abbreviation AllPass := (Runner.AllPass World http).
Local Abbreviation FirstFailureAt := (Runner.FirstFailureAt World http).
Local Abbreviation failed := (Runner.failed World).

Lemma status_in_spec (code : Z) (expected : list Z) :
  status_in code expected = true <-> In code expected.
Proof.
  unfold status_in. rewrite existsb_exists. split.
  - intros (x & Hx & Heq). apply Z.eqb_eq in Heq. now subst.
  - intros H. exists code. split; [exact H | apply Z.eqb_refl].
Qed.

Lemma meets_checks (test : TestCase) (resp : Response) :
  meets test resp <->
  status_in (resp_status_code resp) (tc_expected_status test) = true /\
  requires_json test && negb (is_structured (parse_body resp)) = false.
Proof.
  unfold meets, requires_json. rewrite status_in_spec.
  destruct (tc_requires_json test) as [[|]|]; simpl;
    destruct (is_structured (parse_body resp)); simpl; intuition congruence.
Qed.

(** Every case either passes or fails, and every table either passes as
    a whole or has a first failing case. *)
Lemma passes_or_fails (base : string) (w : World) (test : TestCase) :
  (exists w', Passes base w test w') \/ Fails base w test.
Proof.
  destruct (dispatch (tc_method test)) as [verb|] eqn:Hd.
  2:{ right. now apply fails_unsupported. }
  destruct (http w (call_of verb (url_of base test) (tc_payload test)))
    as [w' [exc|resp]] eqn:Hh.
  { right. eapply fails_transport; eauto. }
  destruct (status_in (resp_status_code resp) (tc_expected_status test)) eqn:Hs.
  - destruct (requires_json test && negb (is_structured (parse_body resp))) eqn:Hj.
    + right. eapply fails_assertion; eauto. rewrite meets_checks. intros [_ H]. congruence.
    + left. exists w'. eapply passes; eauto. apply meets_checks. auto.
  - right. eapply fails_assertion; eauto. rewrite meets_checks. intros [H _]. congruence.
Qed.

Lemma all_pass_or_first_failure (base : string) (tests : list TestCase) :
  forall w, (exists w', AllPass base w tests w') \/ (exists i, FirstFailureAt base w tests i).
Proof.
  induction tests as [|test tests IH]; intros w.
  - left. exists w. constructor.
  - destruct (passes_or_fails base w test) as [(w1 & Hp) | Hf].
    + destruct (IH w1) as [(w2 & Hall) | (i & pre & t & post & w3 & -> & <- & Hall & Hf)].
      * left. exists w2. econstructor; eauto.
      * right. exists (S (length pre)), (test :: pre), t, post, w3.
        repeat split; auto. econstructor; eauto.
    + right. exists 0, [], test, tests, w. repeat split; auto. constructor.
Qed.

(** A passing case appends one record, issues one call, and falls through. *)
Lemma run_case_passes (base : string) (i : nat) (test : TestCase) (st : RunState World)
    (w' : World) :
  Passes base (world st) test w' ->
  exists verb resp,
    run_case base i test st =
    ({| history := history st ++ [response_record resp];
        issued := issued st ++ [(i, call_of verb (url_of base test) (tc_payload test))];
        world := w' |}, None).
Proof.
  intros Hp. inversion Hp as [w t verb w1 resp Hd Hh Hm]; subst.
  exists verb, resp. apply meets_checks in Hm as [Hs Hj].
  unfold Runner.run_case, try_body, send. rewrite Hd, Hh. simpl.
  rewrite Hs. simpl. rewrite Hj. reflexivity.
Qed.

(** A failing case appends one record, issues at most one call, and
    returns the failure built on that record. *)
Lemma run_case_fails (base : string) (i : nat) (test : TestCase) (st : RunState World) :
  Fails base (world st) test ->
  exists st' why rec,
    run_case base i test st = (st', Some (failed st' test why rec)) /\
    history st' = history st ++ [rec] /\
    (issued st' = issued st \/ exists call, issued st' = issued st ++ [(i, call)]).
Proof.
  intros Hf.
  inversion Hf as [w t Hd | w t verb w1 exc Hd Hh | w t verb w1 resp Hd Hh Hm]; subst;
    unfold Runner.run_case, try_body, send; rewrite Hd; try rewrite Hh; simpl.
  - eexists _, _, _. split; [reflexivity|]. simpl. auto.
  - eexists _, _, _. split; [reflexivity|]. simpl. eauto.
  - rewrite meets_checks in Hm.
    destruct (status_in (resp_status_code resp) (tc_expected_status test)) eqn:Hs; simpl.
    + destruct (requires_json test && negb (is_structured (parse_body resp))) eqn:Hj.
      * eexists _, _, _. split; [reflexivity|]. simpl. eauto.
      * exfalso. apply Hm. auto.
    + eexists _, _, _. split; [reflexivity|]. simpl. eauto.
Qed.

(** A passing prefix of the table is run case by case: one record and
    one call per case, and the loop goes on with what follows. *)
Lemma run_loop_prefix (base : string) (pre : list TestCase) :
  forall (i : nat) (st : RunState World) (w1 : World),
    AllPass base (world st) pre w1 ->
    exists st1 hs new,
      world st1 = w1 /\
      history st1 = history st ++ hs /\ length hs = length pre /\
      issued st1 = issued st ++ new /\ length new = length pre /\
      Forall (fun c => c.1 < i + length pre) new /\
      forall post, run_loop base i (pre ++ post) st = run_loop base (i + length pre) post st1.
Proof.
  induction pre as [|test pre IH]; intros i st w1 Hall.
  - inversion Hall; subst. exists st, [], []. simpl.
    rewrite !app_nil_r, Nat.add_0_r. repeat split; auto.
  - inversion Hall as [|w t w2 rest w3 Hp Hrest]; subst.
    destruct (run_case_passes base i test st w2 Hp) as (verb & resp & Hrun).
    set (st2 := {| history := history st ++ [response_record resp];
                   issued := issued st ++ [(i, call_of verb (url_of base test) (tc_payload test))];
                   world := w2 |}) in *.
    destruct (IH (S i) st2 w1 Hrest) as (st1 & hs & new & Hw & Hh & Hlh & Hi & Hli & Hall' & Hgo).
    exists st1, (response_record resp :: hs),
      ((i, call_of verb (url_of base test) (tc_payload test)) :: new).
    simpl in *. repeat split.
    + exact Hw.
    + rewrite Hh, <- app_assoc. reflexivity.
    + now rewrite Hlh.
    + rewrite Hi, <- app_assoc. reflexivity.
    + now rewrite Hli.
    + constructor; [simpl; lia|].
      eapply Forall_impl; [exact Hall'|]. simpl. intros; lia.
    + intros post. rewrite Hrun. rewrite Hgo. f_equal. lia.
Qed.

(** What the run does at the first case that does not pass, after a
    passing prefix: it stops there with the result of that case. *)
Lemma run_stops_at (base : string) (pre post : list TestCase) (test : TestCase)
    (w w1 : World) :
  AllPass base w pre w1 ->
  exists st1 hs new,
    world st1 = w1 /\
    history st1 = hs /\ length hs = length pre /\
    issued st1 = new /\ length new = length pre /\
    Forall (fun c => c.1 < length pre) new /\
    forall st' result,
      run_case base (length pre) test st1 = (st', Some result) ->
      run_native_tests (pre ++ test :: post) base w = (st', result).
Proof.
  intros Hall.
  destruct (run_loop_prefix base pre 0 (initial World w) w1 Hall)
    as (st1 & hs & new & Hw & Hh & Hlh & Hi & Hli & Hlt & Hgo).
  exists st1, hs, new. simpl in *. repeat split; auto.
  intros st' result Hrun. unfold Runner.run_native_tests.
  rewrite Hgo. simpl. rewrite Hrun. reflexivity.
Qed.

(** C1. When every case passes, the run succeeds and its history
    holds one record per case; when the first failing case is the one at
    index [i], the run fails, its history holds exactly [i + 1] records,
    the last of them the failing one, and no call is issued for an index
    above [i]. *)
Theorem run_native_tests_history (tests : list TestCase) (base : string) (w : World) :
  let run := run_native_tests tests base w in
  (forall w', AllPass base w tests w' ->
     success run.2 = true /\ failure run.2 = None /\
     request_history run.2 = history run.1 /\
     length (request_history run.2) = length tests /\
     length (issued run.1) = length tests) /\
  (forall i, FirstFailureAt base w tests i ->
     success run.2 = false /\
     (exists f, failure run.2 = Some f /\
                last (request_history run.2) = Some (failed_record f)) /\
     request_history run.2 = history run.1 /\
     length (request_history run.2) = i + 1 /\
     length (issued run.1) <= i + 1 /\
     Forall (fun c => c.1 <= i) (issued run.1)).
Proof.
  simpl. split.
  - intros w' Hall.
    destruct (run_loop_prefix base tests 0 (initial World w) w' Hall)
      as (st1 & hs & new & Hw & Hh & Hlh & Hi & Hli & Hlt & Hgo).
    unfold Runner.run_native_tests.
    specialize (Hgo []). rewrite app_nil_r in Hgo. rewrite Hgo. simpl in *.
    rewrite Hh, Hi. auto.
  - intros i (pre & test & post & w1 & -> & <- & Hall & Hf).
    destruct (run_stops_at base pre post test w w1 Hall)
      as (st1 & hs & new & Hw & Hh & Hlh & Hi & Hli & Hlt & Hgo).
    subst w1.
    destruct (run_case_fails base (length pre) test st1 Hf)
      as (st' & why & rec & Hrun & Hhist & Hiss).
    rewrite (Hgo _ _ Hrun). simpl.
    split; [reflexivity|]. split.
    { eexists. split; [reflexivity|]. simpl. rewrite Hhist. apply last_snoc. }
    split; [reflexivity|]. rewrite Hhist, Hh, length_app. simpl.
    split; [lia|].
    assert (Hle : Forall (fun c : nat * HttpCall => c.1 <= length pre) new).
    { eapply Forall_impl; [exact Hlt|]. simpl. intros; lia. }
    destruct Hiss as [-> | (call & ->)]; rewrite Hi.
    + split; [lia | exact Hle].
    + rewrite length_app. simpl. split; [lia|].
      apply Forall_app. split; [exact Hle|]. constructor; [simpl; lia | constructor].
Qed.

(** C3. A transport exception raised for a dispatched case, after a
    passing prefix, is turned into a record with status code 0 and the
    text of the exception as response body; that record ends the
    history, and the run returns a failure with the name of the case, a
    reason and that record. *)
Theorem transport_exception_is_recorded (base : string) (pre post : list TestCase)
    (test : TestCase) (w w1 w2 : World) (verb : Verb) (exc : Exn) :
  AllPass base w pre w1 ->
  dispatch (tc_method test) = Some verb ->
  http w1 (call_of verb (url_of base test) (tc_payload test)) = (w2, inl exc) ->
  let run := run_native_tests (pre ++ test :: post) base w in
  let rec := exception_record (tc_method test) (url_of base test) (tc_payload test)
               (Some exc) in
  status_code rec = 0%Z /\
  response_body rec = JStr (exn_str exc) /\
  last (request_history run.2) = Some rec /\
  length (request_history run.2) = length pre + 1 /\
  success run.2 = false /\
  failure run.2 =
    Some {| test_name := tc_name test;
            reason := "Exception calling " +:+ tc_endpoint test +:+ ": " +:+ exn_repr exc;
            failed_record := rec |}.
Proof.
  intros Hall Hd Hh. simpl.
  destruct (run_stops_at base pre post test w w1 Hall)
    as (st1 & hs & new & Hw & Hhist & Hlh & Hi & Hli & Hlt & Hgo).
  subst w1. erewrite Hgo.
  2:{ unfold Runner.run_case, try_body, send. rewrite Hd, Hh. simpl. reflexivity. }
  simpl. rewrite Hhist, last_snoc, length_app, Hlh. simpl. repeat split.
Qed.

(** C4. A response whose status code is not one of the expected ones,
    after a passing prefix, fails the run with the reason
    [Expected <codes joined by " or "> from <endpoint>, got <code>]. *)
Theorem unexpected_status_reason (base : string) (pre post : list TestCase)
    (test : TestCase) (w w1 w2 : World) (verb : Verb) (resp : Response) :
  AllPass base w pre w1 ->
  dispatch (tc_method test) = Some verb ->
  http w1 (call_of verb (url_of base test) (tc_payload test)) = (w2, inr resp) ->
  ~ In (resp_status_code resp) (tc_expected_status test) ->
  let run := run_native_tests (pre ++ test :: post) base w in
  success run.2 = false /\
  last (request_history run.2) = Some (response_record resp) /\
  failure run.2 =
    Some {| test_name := tc_name test;
            reason := "Expected " +:+ join " or " (map str_int (tc_expected_status test))
                      +:+ " from " +:+ tc_endpoint test
                      +:+ ", got " +:+ str_int (resp_status_code resp);
            failed_record := response_record resp |}.
Proof.
  intros Hall Hd Hh Hnot. simpl.
  destruct (run_stops_at base pre post test w w1 Hall)
    as (st1 & hs & new & Hw & Hhist & Hlh & Hi & Hli & Hlt & Hgo).
  subst w1.
  assert (Hs : status_in (resp_status_code resp) (tc_expected_status test) = false).
  { destruct (status_in _ _) eqn:E; [|reflexivity].
    apply status_in_spec in E. contradiction. }
  erewrite Hgo.
  2:{ unfold Runner.run_case, try_body, send. rewrite Hd, Hh. simpl. rewrite Hs. simpl.
      reflexivity. }
  simpl. rewrite last_snoc. auto.
Qed.

(** The methods the runner dispatches are those whose upper-case form is
    one of the four verbs. *)
Lemma dispatch_none (m : string) :
  dispatch m = None <-> ~ In (upper m) ["GET"; "POST"; "PUT"; "DELETE"].
Proof.
  unfold dispatch. simpl.
  destruct (String.eqb_spec (upper m) "GET");
    [split; [discriminate | intros H; exfalso; apply H; auto]|].
  destruct (String.eqb_spec (upper m) "POST");
    [split; [discriminate | intros H; exfalso; apply H; auto]|].
  destruct (String.eqb_spec (upper m) "PUT");
    [split; [discriminate | intros H; exfalso; apply H; auto]|].
  destruct (String.eqb_spec (upper m) "DELETE");
    [split; [discriminate | intros H; exfalso; apply H; auto]|].
  split; [|reflexivity]. intros _ H.
  repeat (destruct H as [H | H]; [congruence|]). exact H.
Qed.

(** C5, as the code has it. A case whose method, in upper case, is
    none of GET, POST, PUT, DELETE is not sent: after a passing prefix
    the run fails at that case, with a reason that names the unsupported
    method and a record with status code 0; no call is issued for it or
    for any later case. *)
Theorem unsupported_method_aborts (base : string) (pre post : list TestCase)
    (test : TestCase) (w w1 : World) :
  AllPass base w pre w1 ->
  ~ In (upper (tc_method test)) ["GET"; "POST"; "PUT"; "DELETE"] ->
  let run := run_native_tests (pre ++ test :: post) base w in
  let exc := ValueError ("Unsupported HTTP method: " +:+ tc_method test) in
  let rec := exception_record (tc_method test) (url_of base test) (tc_payload test)
               (Some exc) in
  success run.2 = false /\
  failure run.2 =
    Some {| test_name := tc_name test;
            reason := "Exception calling " +:+ tc_endpoint test +:+ ": " +:+ exn_repr exc;
            failed_record := rec |} /\
  last (request_history run.2) = Some rec /\
  length (request_history run.2) = length pre + 1 /\
  length (issued run.1) = length pre /\
  Forall (fun c => c.1 < length pre) (issued run.1).
Proof.
  intros Hall Hnot. simpl. apply dispatch_none in Hnot.
  destruct (run_stops_at base pre post test w w1 Hall)
    as (st1 & hs & new & Hw & Hhist & Hlh & Hi & Hli & Hlt & Hgo).
  erewrite Hgo.
  2:{ unfold Runner.run_case, try_body. rewrite Hnot. simpl. reflexivity. }
  simpl. rewrite Hhist, Hi, last_snoc, length_app, Hlh. simpl. repeat split; auto.
Qed.

End RunnerFacts.

(** *** The scenarios of the specification, run *)

Section RunnerScenarios.

Import Runner.
Import Scenarios.

Local Abbreviation run := (Runner.run_native_tests nat).

Lemma health_passes (code : Z) (served : nat) :
  Passes nat (service code) api served health_check (S served).
Proof.
  eapply passes with (verb := GET); [reflexivity | reflexivity |].
  split; [simpl; auto | discriminate].
Qed.

Lemma login_passes_401 (served : nat) :
  Passes nat (service 401) api served login_requirements (S served).
Proof.
  eapply passes with (verb := POST); [reflexivity | reflexivity |].
  split; [simpl; auto | reflexivity].
Qed.

(** Scenarios A and B pass; scenario C, the login answered 500, is the
    first failure, at index 1. *)
Lemma run_native_tests_history_witness :
  (success (run (service 401) load_test_cases api 0).2 = true /\
   length (request_history (run (service 401) load_test_cases api 0).2) = 2) /\
  (success (run (service 500) load_test_cases api 0).2 = false /\
   length (request_history (run (service 500) load_test_cases api 0).2) = 2 /\
   Forall (fun c => c.1 <= 1) (issued (run (service 500) load_test_cases api 0).1)).
Proof.
  split.
  - destruct (run_native_tests_history nat (service 401) load_test_cases api 0)
      as [Hpass _].
    destruct (Hpass 2) as (Hs & _ & _ & Hl & _).
    + eapply all_pass_cons; [apply health_passes|].
      eapply all_pass_cons; [apply login_passes_401|]. constructor.
    + split; [exact Hs | exact Hl].
  - destruct (run_native_tests_history nat (service 500) load_test_cases api 0)
      as [_ Hfail].
    destruct (Hfail 1) as (Hs & _ & _ & Hl & _ & Hi).
    + exists [health_check], login_requirements, [], 1.
      split; [reflexivity|]. split; [reflexivity|]. split.
      * eapply all_pass_cons; [apply health_passes | constructor].
      * eapply fails_assertion with (verb := POST); [reflexivity | reflexivity |].
        intros [Hin _]. simpl in Hin. destruct Hin as [H | [H | []]]; discriminate.
    + split; [exact Hs|]. split; [exact Hl | exact Hi].
Defined.

(** The host refuses the connection of the first case. *)
Lemma transport_exception_is_recorded_witness :
  let result := (run offline load_test_cases api 0).2 in
  let rec := exception_record "GET" "http://127.0.0.1:8000/health" JNull
               (Some ConnectError) in
  status_code rec = 0%Z /\
  response_body rec = JStr "[Errno 111] Connection refused" /\
  last (request_history result) = Some rec /\
  length (request_history result) = 1 /\
  success result = false /\
  failure result =
    Some {| test_name := "health_check";
            reason := "Exception calling /health: ConnectError('[Errno 111] Connection refused')";
            failed_record := rec |}.
Proof.
  exact (transport_exception_is_recorded nat offline api [] [login_requirements]
           health_check 0 0 1 GET ConnectError
           (all_pass_nil nat offline api 0) eq_refl eq_refl).
Defined.

(** Scenario C: the login answered 500. *)
Lemma unexpected_status_reason_witness :
  exists f,
    failure (run (service 500) load_test_cases api 0).2 = Some f /\
    test_name f = "login_requirements" /\
    reason f = "Expected 200 or 401 from /login, got 500".
Proof.
  destruct (unexpected_status_reason nat (service 500) api [health_check] []
              login_requirements 0 1 2 POST
              (answer (call_of POST (url_of api login_requirements)
                         (tc_payload login_requirements)) 500
                 (Some (JObj [("error", JStr "invalid credentials")])) "{...}"))
    as (_ & _ & Hf).
  - eapply all_pass_cons; [apply health_passes | constructor].
  - reflexivity.
  - reflexivity.
  - simpl. intros [H | [H | []]]; discriminate.
  - eexists. split; [exact Hf|]. split; reflexivity.
Defined.

(** A PATCH after the health check. *)
Lemma unsupported_method_aborts_witness :
  let r := run (service 401) [health_check; patch_profile; login_requirements] api 0 in
  success r.2 = false /\
  (exists f, failure r.2 = Some f /\
     reason f = "Exception calling /profile: ValueError('Unsupported HTTP method: PATCH')") /\
  length (request_history r.2) = 2 /\
  length (issued r.1) = 1.
Proof.
  destruct (unsupported_method_aborts nat (service 401) api [health_check]
              [login_requirements] patch_profile 0 1)
    as (Hs & Hf & _ & Hl & Hi & _).
  - eapply all_pass_cons; [apply health_passes | constructor].
  - simpl. intros [H | [H | [H | [H | []]]]]; discriminate.
  - split; [exact Hs|]. split; [eexists; split; [exact Hf | reflexivity]|].
    split; [exact Hl | exact Hi].
Defined.

(** C5, as stated, fails on the code. The method [get] is not one of
    GET, POST, PUT, DELETE, and yet the case is not reported as an
    error: the runner compares [method.upper()], sends the call and the
    run succeeds. *)
Lemma lower_case_method_is_dispatched :
  ~ In (tc_method health_lower) ["GET"; "POST"; "PUT"; "DELETE"] /\
  success (run (service 401) [health_lower] api 0).2 = true /\
  failure (run (service 401) [health_lower] api 0).2 = None /\
  issued (run (service 401) [health_lower] api 0).1 =
    [(0, {| call_verb := GET; call_url := "http://127.0.0.1:8000/health";
            call_json := None |})].
Proof.
  split.
  - simpl. intros [H | [H | [H | [H | []]]]]; discriminate.
  - repeat split; reflexivity.
Qed.

(** Upper-casing is that of Unicode: the method [poſt], written with a
    long s, is [POST] for the runner, which sends the call. *)
Lemma long_s_method_is_dispatched :
  dispatch (tc_method login_long_s) = Some POST /\
  success (run (service 401) [login_long_s] api 0).2 = true /\
  issued (run (service 401) [login_long_s] api 0).1 =
    [(0, {| call_verb := POST; call_url := "http://127.0.0.1:8000/login";
            call_json := Some (JObj [("username", JStr "test_user")]) |})].
Proof. repeat split; reflexivity. Qed.

End RunnerScenarios.

(** ** The diagnosis stage *)

Section DiagnosisFacts.

Import Logger.
Import Llm.
Import Rag.
Import Scenarios.

(** The rule-based diagnosis of the client module picks its category from
    the failure reason, in this order. *)
Lemma mock_diagnosis_categories (log : FailureLog) :
  log_status log <> Some "passed" ->
  let r := default "Unknown failure" (log_failure_reason log) in
  let c := FailureCategory (generate_mock_diagnosis log) in
  if contains "status_code" (lower r) || contains "401" r || contains "404" r
  then c = "Product Bug"
  else if contains "json" (lower r) then c = "Product Bug"
  else if contains "exception" (lower r) || contains "error" (lower r)
  then c = "Environment Issue"
  else c = "Automation Flaw".
Proof.
  intros Hfail. simpl. unfold generate_mock_diagnosis.
  destruct (String.eqb_spec (default "unknown" (log_status log)) "passed") as [E|_].
  { destruct (log_status log) as [st|]; simpl in E; [subst; contradiction | discriminate]. }
  simpl. unfold classify.
  destruct (contains "status_code" _ || contains "401" _ || contains "404" _);
    [reflexivity|].
  destruct (contains "json" _); [reflexivity|].
  destruct (contains "exception" _ || contains "error" _); reflexivity.
Qed.

(** The diagnosis stage of the pipeline answers with the function of the
    same name its own module defines: whatever the reason of a failing
    log, the category is "Product Bug". *)
Lemma run_rag_diagnosis_category (available : bool) (redis_url : option string)
    (from_url : string -> option Exn) (client_set : string -> string -> option Exn)
    (dumps : FailureLog -> string) (code_items doc_items : list (string * string))
    (log : FailureLog) (commit_hash : string) (d : Diagnosis) :
  log_status log <> Some "passed" ->
  (run_rag_diagnosis available redis_url from_url client_set dumps code_items doc_items
     log commit_hash).2 = inr d ->
  FailureCategory d = "Product Bug".
Proof.
  intros Hfail. unfold run_rag_diagnosis.
  rewrite bool_decide_eq_false_2 by exact Hfail.
  destruct (enabled _).
  - destruct (ingest_code_and_docs _ _ _ _ _); [simpl; discriminate|].
    destruct (retrieve_context _ _ _ _ _ _) as [context calls].
    simpl. intros [= <-]. reflexivity.
  - simpl. intros [= <-]. reflexivity.
Qed.

(** C2, the code at a failing log. The run against the host that
    refuses connections fails with a reason that holds "exception" and
    none of the substrings tested before it.  The rule-based diagnosis of
    the client module classifies the log as "Environment Issue"; the
    diagnosis stage of the pipeline returns "Product Bug". *)
Theorem pipeline_diagnosis_misses_environment_issue :
  log_status offline_log = Some "failed" /\
  log_failure_reason offline_log =
    Some "Exception calling /health: ConnectError('[Errno 111] Connection refused')" /\
  FailureCategory (generate_mock_diagnosis offline_log) = "Environment Issue" /\
  FailureCategory (Llm.llm_generate None (fun _ => inl (ValueError "unused"))
                     {| prompt_log := Some offline_log; prompt_context := None |})
    = "Environment Issue" /\
  exists d, (no_redis_diagnosis offline_log "abc123").2 = inr d /\
            FailureCategory d = "Product Bug".
Proof.
  repeat split; try reflexivity.
  eexists. split; reflexivity.
Qed.

End DiagnosisFacts.

(** ** Context retrieval *)

Section RetrievalFacts.

Import Logger.
Import Llm.
Import Rag.
Import Scenarios.

Lemma append_length (a b : string) :
  String.length (a +:+ b) = String.length a + String.length b.
Proof. induction a as [|c a IH]; simpl; [reflexivity | now rewrite IH]. Qed.

(** C6, as the code has it. With a wrapper instance, retrieval makes
    exactly two calls on it, the first for code and the second for
    docs, both with the given [top_k], 5 when it is left out, and
    returns a context whose two lists are empty.  On the vector-query
    path (libraries present, wrapper enabled) the code query is filtered
    by the commit and the doc query carries no filter and the plain index
    name; on the legacy path both index names end in the commit.  With
    no wrapper no call is made. *)
Theorem retrieve_context_calls (available : bool) (dumps : FailureLog -> string)
    (log : FailureLog) (commit_hash : string) (top_k : option Z) :
  retrieve_context available dumps log commit_hash None top_k
    = ({| code := []; docs := [] |}, []) /\
  forall v : VectorDBClient,
    let out := retrieve_context available dumps log commit_hash (Some v) top_k in
    let k := default 5%Z top_k in
    out.1 = {| code := []; docs := [] |} /\
    exists c1 c2,
      out.2 = [c1; c2] /\
      top_k_of c1 = k /\ top_k_of c2 = k /\
      scoped_to commit_hash c1 /\
      if available && enabled v then
        c1 = QueryVector "code_index" (dumps log) ["filepath"; "content"; "commit_hash"]
               (Some [("commit_hash", commit_hash)]) k /\
        c2 = QueryVector "doc_index" (dumps log) ["title"; "content"] None k
      else
        c1 = Search (index_name "code_index" commit_hash) (dumps log) k /\
        c2 = Search (index_name "doc_index" commit_hash) (dumps log) k.
Proof.
  split; [reflexivity|].
  intros v. unfold retrieve_context, query_vector, search.
  destruct (available && enabled v) eqn:E; simpl.
  - split.
    + destruct (negb available || negb (enabled v) || negb (has_client v)); reflexivity.
    + eexists _, _. repeat split. left. reflexivity.
  - split.
    + destruct (negb (enabled v) || negb (has_client v)); reflexivity.
    + eexists _, _. repeat split. exists "code_index". reflexivity.
Qed.

(** C6, as stated, fails on the code. With the libraries present and
    an enabled wrapper the second call, the one for docs, has no filter
    and the index name [doc_index], under which the commit does not
    appear; and without a wrapper instance no call is made at all. *)
Lemma doc_query_is_not_scoped :
  (retrieve (Some vdb_on)).2 =
    [ QueryVector "code_index" "{}" ["filepath"; "content"; "commit_hash"]
        (Some [("commit_hash", "abc123")]) 5;
      QueryVector "doc_index" "{}" ["title"; "content"] None 5 ] /\
  ~ scoped_to "abc123" (QueryVector "doc_index" "{}" ["title"; "content"] None 5) /\
  (retrieve None).2 = [].
Proof.
  split; [reflexivity|]. split; [|reflexivity].
  intros [H | (base & H)]; [discriminate|].
  unfold index_name in H.
  assert (Hlen : String.length base = 2).
  { apply (f_equal String.length) in H. rewrite append_length in H. simpl in H. lia. }
  destruct base as [|a [|b [|c base]]]; simpl in Hlen; discriminate.
Qed.

End RetrievalFacts.

(** ** Tokenization *)

Section TokenizeFacts.

Import Skyflow.
Import Scenarios.

(** Without a vault identifier or without a token the client is built
    disabled, whatever the [enabled] argument says. *)
Lemma init_without_credentials (getenv : string -> option string)
    (vault token url : option string) (seconds : option Z) (flag : option bool) :
  configured (or_opt vault (getenv "SKYFLOW_VAULT_ID"))
             (or_opt token (getenv "SKYFLOW_API_TOKEN")) = false ->
  enabled (SkyflowClient_init getenv vault token url seconds flag) = false.
Proof.
  intros H. unfold SkyflowClient_init. simpl. rewrite H.
  destruct flag as [[|]|]; reflexivity.
Qed.

(** C7. A disabled client posts nothing and returns the record
    unchanged under [enabled = false], and so does a client built
    without credentials.  No exception leaves [tokenize_record]: it makes
    at most one post and always returns; when the post raises, when the
    reply is not 2xx, when its body is not JSON or not of the expected
    shape, what is returned is again the record unchanged under
    [enabled = false]. *)
Theorem tokenize_record_fail_soft (httpx_post : PostCall -> Exn + Reply)
    (self : SkyflowClient) (record : json) :
  let out := tokenize_record httpx_post self record in
  (enabled self = false -> out = ([], inr (fallback record))) /\
  (forall getenv vault token url seconds flag,
     configured (or_opt vault (getenv "SKYFLOW_VAULT_ID"))
                (or_opt token (getenv "SKYFLOW_API_TOKEN")) = false ->
     tokenize_record httpx_post
       (SkyflowClient_init getenv vault token url seconds flag) record
     = ([], inr (fallback record))) /\
  (exists result, out.2 = inr result /\ original result = record) /\
  length out.1 <= 1 /\
  (forall exc, httpx_post (tokenize_call self record) = inl exc ->
     out.2 = inr (fallback record)) /\
  (forall reply, httpx_post (tokenize_call self record) = inr reply ->
     (reply_status_code reply / 100)%Z <> 2%Z ->
     out.2 = inr (fallback record)) /\
  (forall reply, httpx_post (tokenize_call self record) = inr reply ->
     reply_json reply = None ->
     out.2 = inr (fallback record)) /\
  (forall reply data exc, httpx_post (tokenize_call self record) = inr reply ->
     reply_json reply = Some data ->
     tokenized_fields data record = inl exc ->
     out.2 = inr (fallback record)).
Proof.
  simpl. unfold tokenize_record, try_tokenize.
  split; [intros ->; reflexivity|].
  split.
  { intros getenv vault token url seconds flag H.
    rewrite (init_without_credentials _ _ _ _ _ _ H). reflexivity. }
  destruct (enabled self); simpl.
  2:{ repeat split; eauto. }
  destruct (httpx_post (tokenize_call self record)) as [exc | reply] eqn:Hpost; simpl.
  { repeat split; eauto; intros; discriminate. }
  destruct (Z.eqb_spec (reply_status_code reply / 100) 2) as [E|E]; simpl.
  2:{ repeat split; eauto; intros; discriminate. }
  destruct (reply_json reply) as [data|] eqn:Hjson; simpl.
  2:{ repeat split; eauto; intros; discriminate. }
  destruct (tokenized_fields data record) as [exc | fields] eqn:Hf; simpl.
  { repeat split; eauto; intros; discriminate. }
  repeat split; eauto.
  - intros; discriminate.
  - intros r [= <-] Hr. contradiction.
  - intros r [= <-] Hr. congruence.
  - intros r d exc [= <-] Hr Ht. congruence.
Qed.

(** A client built from an environment without credentials posts
    nothing; a configured one survives a refused connection, a 401 and a
    reply of the wrong shape. *)
Lemma tokenize_record_fail_soft_witness :
  tokenize_record vault (SkyflowClient_init bare_env None None None None (Some true)) patient
    = ([], inr (fallback patient)) /\
  (tokenize_record refused (SkyflowClient_init vault_env None None None None None) patient).2
    = inr (fallback patient) /\
  (tokenize_record unauthorized (SkyflowClient_init vault_env None None None None None) patient).2
    = inr (fallback patient) /\
  (tokenize_record garbled (SkyflowClient_init vault_env None None None None None) patient).2
    = inr (fallback patient).
Proof.
  split.
  - destruct (tokenize_record_fail_soft vault
                (SkyflowClient_init bare_env None None None None (Some true)) patient)
      as (Hoff & _).
    apply Hoff. reflexivity.
  - split.
    + destruct (tokenize_record_fail_soft refused
                  (SkyflowClient_init vault_env None None None None None) patient)
        as (_ & _ & _ & _ & Hexc & _).
      apply (Hexc ConnectError). reflexivity.
    + split.
      * destruct (tokenize_record_fail_soft unauthorized
                    (SkyflowClient_init vault_env None None None None None) patient)
          as (_ & _ & _ & _ & _ & Hstatus & _).
        eapply Hstatus; [reflexivity | simpl; discriminate].
      * destruct (tokenize_record_fail_soft garbled
                    (SkyflowClient_init vault_env None None None None None) patient)
          as (_ & _ & _ & _ & _ & _ & _ & Hshape).
        eapply Hshape; reflexivity.
Defined.

End TokenizeFacts.

(** ** The failure log *)

Section LoggerFacts.

Import Runner.
Import Logger.
Import Scenarios.

Lemma log_path_is_not_runs (run_id : string) : log_path run_id <> "runs".
Proof. unfold log_path. simpl. discriminate. Qed.

(** *** Paths *)

Lemma relative_below (from rest : list string) : relative from (from ++ rest) = rest.
Proof.
  induction from as [|a from IH]; simpl; [now destruct rest|].
  now rewrite String.eqb_refl.
Qed.

Lemma leads_to_below (target rest : list string) :
  rest <> [] -> leads_to (target ++ rest) target = false.
Proof.
  intros Hne. induction target as [|a target IH]; simpl.
  - destruct rest; [contradiction | reflexivity].
  - rewrite IH. apply andb_false_r.
Qed.

Lemma has_char_app (c : ascii) (a b : string) :
  has_char c (a +:+ b) = has_char c a || has_char c b.
Proof.
  induction a as [|x a IH]; simpl; [reflexivity|]. now rewrite IH, orb_assoc.
Qed.

Lemma names_of_name (name : string) : has_char "/" name = false -> names_of name = [name].
Proof.
  induction name as [|c name IH]; simpl; [reflexivity|].
  intros H. apply orb_false_elim in H as [Hc Hrest].
  rewrite Hc, (IH Hrest). reflexivity.
Qed.

Lemma names_of_slash (dir rest : string) :
  has_char "/" dir = false -> names_of (dir +:+ "/" +:+ rest) = dir :: names_of rest.
Proof.
  induction dir as [|c dir IH]; simpl; [reflexivity|].
  intros H. apply orb_false_elim in H as [Hc Hrest].
  rewrite Hc, (IH Hrest). reflexivity.
Qed.

Lemma plain_name_spec (name : string) :
  plain_name name = true ->
  has_char "/" name = false /\ has_char (ascii_of_nat 0) name = false /\
  (NAME_MAX <? String.length name)%nat = false /\
  String.eqb name "" = false /\ String.eqb name "." = false /\
  String.eqb name ".." = false.
Proof.
  unfold plain_name. intros H.
  repeat (apply andb_prop in H as [H ?]).
  repeat split; try (now apply negb_true_iff).
  apply Nat.ltb_ge. now apply Nat.leb_le.
Qed.

(** A name that is longer than the three special names is none of them. *)
Lemma long_name_is_plain (name : string) :
  has_char "/" name = false -> has_char (ascii_of_nat 0) name = false ->
  2 < String.length name <= NAME_MAX ->
  plain_name name = true.
Proof.
  intros Hs Hn [Hlo Hhi]. unfold plain_name. rewrite Hs, Hn.
  apply Nat.leb_le in Hhi. rewrite Hhi.
  assert (Hother : forall special, String.length special <= 2 ->
                     String.eqb name special = false).
  { intros special Hl. destruct (String.eqb_spec name special) as [->|_];
      [lia | reflexivity]. }
  rewrite !Hother by (simpl; lia). reflexivity.
Qed.

Lemma walk_last (d : Disk) (p : string) (pos : list string) (name : string) :
  walk d p pos [name] =
    if String.eqb name "" || String.eqb name "." || String.eqb name ".."
    then inl (IsADirectoryError p)
    else if (NAME_MAX <? String.length name)%nat then inl (FileNameTooLong p)
    else if is_dir d (pos ++ [name]) then inl (IsADirectoryError p)
    else inr (pos ++ [name]).
Proof. reflexivity. Qed.

Lemma walk_step (d : Disk) (p : string) (pos : list string) (name next : string)
    (rest : list string) :
  walk d p pos (name :: next :: rest) =
    if forallb (String.eqb "") (next :: rest) then inl (IsADirectoryError p)
    else if String.eqb name "" || String.eqb name "." then walk d p pos (next :: rest)
    else if String.eqb name ".." then walk d p (removelast pos) (next :: rest)
    else if (NAME_MAX <? String.length name)%nat then inl (FileNameTooLong p)
    else if is_dir d (pos ++ [name]) then walk d p (pos ++ [name]) (next :: rest)
    else if is_file d (pos ++ [name]) then inl (NotADirectoryError p)
    else inl (FileNotFoundError p).
Proof. reflexivity. Qed.

(** The file of a plain name in a directory of a plain name that
    exists: it is opened unless it is a directory. *)
Lemma open_w_plain (dir name : string) (d : Disk) :
  plain_name dir = true -> plain_name name = true -> dir ∈ dirs d ->
  open_w (dir +:+ "/" +:+ name) d =
    if bool_decide (dir +:+ "/" +:+ name ∈ dirs d)
    then inl (IsADirectoryError (dir +:+ "/" +:+ name))
    else inr (dir +:+ "/" +:+ name).
Proof.
  intros Hdir Hname Hin.
  apply plain_name_spec in Hdir as (Hds & Hdn & Hdl & Hd0 & Hd1 & Hd2).
  apply plain_name_spec in Hname as (Hns & Hnn & Hnl & Hn0 & Hn1 & Hn2).
  unfold open_w.
  rewrite !has_char_app, Hdn, Hnn.
  change (has_char (ascii_of_nat 0) "/") with false. cbn [orb].
  assert (Hlen : (PATH_MAX <=? String.length (dir +:+ "/" +:+ name))%nat = false).
  { apply Nat.leb_gt. rewrite !append_length. simpl.
    apply Nat.ltb_ge in Hdl, Hnl. unfold NAME_MAX in *. unfold PATH_MAX. lia. }
  rewrite Hlen.
  assert (Hne : String.eqb (dir +:+ "/" +:+ name) "" = false).
  { destruct dir; [discriminate Hd0 | reflexivity]. }
  rewrite Hne.
  assert (Hrel : String.prefix "/" (dir +:+ "/" +:+ name) = false).
  { destruct dir as [|c dir]; [discriminate Hd0|].
    destruct (String.prefix "/" (String c dir +:+ "/" +:+ name)) eqn:E; [|reflexivity].
    apply prefix_correct in E. simpl in E. injection E as E.
    simpl in Hds. rewrite E in Hds. discriminate. }
  rewrite Hrel, (names_of_slash dir name Hds), (names_of_name name Hns).
  assert (Hblank : forallb (String.eqb "") [name] = false).
  { cbn [forallb]. now rewrite String.eqb_sym, Hn0. }
  assert (Hkey1 : entry_key d (cwd d ++ [dir]) = dir).
  { unfold entry_key. rewrite relative_below. reflexivity. }
  assert (Hkey2 : entry_key d ((cwd d ++ [dir]) ++ [name]) = dir +:+ "/" +:+ name).
  { unfold entry_key. rewrite <- app_assoc, relative_below. reflexivity. }
  assert (Hthere : is_dir d (cwd d ++ [dir]) = true).
  { unfold is_dir. rewrite Hkey1, (bool_decide_eq_true_2 _ Hin). apply orb_true_r. }
  assert (Hfile : is_dir d ((cwd d ++ [dir]) ++ [name])
                  = bool_decide (dir +:+ "/" +:+ name ∈ dirs d)).
  { unfold is_dir. rewrite Hkey2, <- app_assoc, leads_to_below by discriminate.
    reflexivity. }
  rewrite walk_step, Hblank, Hd0, Hd1, Hd2, Hdl, Hthere. cbn [orb].
  rewrite walk_last, Hn0, Hn1, Hn2, Hnl, Hfile. cbn [orb].
  destruct (bool_decide (dir +:+ "/" +:+ name ∈ dirs d)); [reflexivity|].
  now rewrite Hkey2.
Qed.

(** Whether the walk arrives depends on the directories alone, and it
    does not arrive at a directory. *)
Lemma walk_arrives (d d' : Disk) (p : string) (names : list string) :
  cwd d' = cwd d -> dirs d' = dirs d ->
  forall pos at_,
    walk d p pos names = inr at_ ->
    walk d' p pos names = inr at_ /\ is_dir d at_ = false.
Proof.
  intros Hcwd Hdirs.
  assert (Hsame : forall pos, is_dir d' pos = is_dir d pos).
  { intros pos. unfold is_dir, entry_key. now rewrite Hcwd, Hdirs. }
  induction names as [|name rest IH]; intros pos at_; [discriminate|].
  destruct rest as [|next rest].
  - rewrite !walk_last.
    destruct (String.eqb name "" || String.eqb name "." || String.eqb name "..");
      [discriminate|].
    destruct (NAME_MAX <? String.length name)%nat; [discriminate|].
    rewrite Hsame. destruct (is_dir d (pos ++ [name])) eqn:Hd; [discriminate|].
    intros [= <-]. auto.
  - rewrite !walk_step.
    destruct (forallb (String.eqb "") (next :: rest)); [discriminate|].
    destruct (String.eqb name "" || String.eqb name "."); [apply IH|].
    destruct (String.eqb name ".."); [apply IH|].
    destruct (NAME_MAX <? String.length name)%nat; [discriminate|].
    rewrite Hsame. destruct (is_dir d (pos ++ [name])); [apply IH|].
    destruct (is_file d (pos ++ [name])); discriminate.
Qed.

Lemma open_w_arrives (d d' : Disk) (p entry : string) :
  cwd d' = cwd d -> dirs d' = dirs d ->
  open_w p d = inr entry ->
  open_w p d' = inr entry /\ entry ∉ dirs d.
Proof.
  intros Hcwd Hdirs. unfold open_w.
  destruct (has_char _ p); [discriminate|].
  destruct (PATH_MAX <=? String.length p)%nat; [discriminate|].
  destruct (String.eqb p ""); [discriminate|].
  rewrite Hcwd.
  destruct (walk d p _ (names_of p)) as [exc|at_] eqn:Hwalk; [discriminate|].
  intros [= <-].
  destruct (walk_arrives d d' p (names_of p) Hcwd Hdirs _ _ Hwalk) as [Hw Hnot].
  rewrite Hw. unfold entry_key. rewrite Hcwd. split; [reflexivity|].
  unfold is_dir in Hnot. apply orb_false_elim in Hnot as [_ Hnot].
  now apply bool_decide_eq_false in Hnot.
Qed.

Lemma log_path_parts (run_id : string) :
  log_path run_id = "runs" +:+ "/" +:+ (run_id +:+ "_raw.json").
Proof. reflexivity. Qed.

(** C8, as the code has it. The dictionary [save_raw_failure_log]
    returns is a function of its four arguments alone: it is
    [build_payload] of them, whatever the disk holds, with the run
    identifier, the timestamp and the commit passed in.  The function
    does perform I/O: it creates the directory [runs] and writes the
    dictionary to the file the path [runs/<run_id>_raw.json] leads to,
    which is the entry of that very name when [<run_id>_raw.json] is a
    plain name, and prints a line that names the path.  Called again on the same arguments right after, it
    returns the same dictionary and leaves directories and files as they
    are. *)
Theorem save_raw_failure_log_repeatable (test_result : TestRunResult)
    (commit_hash run_id timestamp : string) (d d1 : Disk) (out : FailureLog) :
  save_raw_failure_log test_result commit_hash run_id timestamp d = (d1, inr out) ->
  out = build_payload test_result commit_hash run_id timestamp /\
  log_run_id out = Some run_id /\
  log_timestamp out = Some timestamp /\
  log_commit_hash out = Some commit_hash /\
  "runs" ∈ dirs d1 /\
  stdout d1 = stdout d ++ ["[Logger] Raw failure log saved: " +:+ log_path run_id] /\
  (exists entry,
     open_w (log_path run_id) d1 = inr entry /\
     files d1 !! entry = Some (JsonDump 4 out)) /\
  (plain_name (run_id +:+ "_raw.json") = true ->
   files d1 !! log_path run_id = Some (JsonDump 4 out)) /\
  exists d2,
    save_raw_failure_log test_result commit_hash run_id timestamp d1 = (d2, inr out) /\
    dirs d2 = dirs d1 /\ files d2 = files d1.
Proof.
  unfold save_raw_failure_log, makedirs, write_json.
  destruct (files d !! "runs") as [x|] eqn:Hruns; [discriminate|].
  set (made := {| cwd := cwd d; dirs := {["runs"]} ∪ dirs d; files := files d;
                  stdout := stdout d |}).
  destruct (open_w (log_path run_id) made) as [exc|entry] eqn:Hopen; [discriminate|].
  intros [= <- <-]. cbn [print dirs files cwd stdout].
  assert (Hmade : "runs" ∈ dirs made) by (apply elem_of_union_l, elem_of_singleton; reflexivity).
  set (written := {| cwd := cwd d; dirs := {["runs"]} ∪ dirs d;
                     files := <[entry := JsonDump 4
                                  (build_payload test_result commit_hash run_id timestamp)]>
                                (files d);
                     stdout := stdout d ++ ["[Logger] Raw failure log saved: "
                                            +:+ log_path run_id] |}).
  destruct (open_w_arrives made written _ _ eq_refl eq_refl Hopen) as [Hagain Hnot].
  split; [reflexivity|].
  split; [unfold build_payload; destruct (success test_result); reflexivity|].
  split; [unfold build_payload; destruct (success test_result); reflexivity|].
  split; [unfold build_payload; destruct (success test_result); reflexivity|].
  split; [exact Hmade|].
  split; [reflexivity|].
  split; [exists entry; split; [exact Hagain | apply lookup_insert_eq]|].
  split.
  { intros Hplain. rewrite log_path_parts in Hopen.
    rewrite (open_w_plain "runs" _ made eq_refl Hplain Hmade) in Hopen.
    destruct (bool_decide _); [discriminate|]. injection Hopen as <-.
    apply lookup_insert_eq. }
  assert (Hentry : entry <> "runs") by (intros ->; contradiction).
  rewrite lookup_insert_ne by exact Hentry. rewrite Hruns.
  set (remade := {| cwd := cwd d; dirs := {["runs"]} ∪ ({["runs"]} ∪ dirs d);
                    files := _; stdout := _ |}).
  assert (Hdirs : {["runs"]} ∪ ({["runs"]} ∪ dirs d) = {["runs"]} ∪ dirs d :> gset string)
    by (apply set_eq; intros k; rewrite !elem_of_union; tauto).
  destruct (open_w_arrives made remade _ _ eq_refl Hdirs Hopen) as [Hthird _].
  rewrite Hthird.
  eexists. split; [reflexivity|]. cbn [print dirs files remade]. split.
  - exact Hdirs.
  - apply insert_insert_eq.
Qed.

(** On a fresh disk the call for the log of the failed login run
    creates [runs], writes the file and prints a line. *)
Lemma fresh_disk_save :
  let out := save_raw_failure_log login_500_result "abc123" "run-2"
               "2026-01-01T00:00:00+00:00" empty_disk in
  out.2 = inr login_500_log /\
  files out.1 !! "runs/run-2_raw.json" = Some (JsonDump 4 login_500_log) /\
  dirs out.1 = {["runs"]} /\
  stdout out.1 = ["[Logger] Raw failure log saved: runs/run-2_raw.json"].
Proof.
  unfold save_raw_failure_log, makedirs, write_json. simpl.
  rewrite lookup_empty. simpl. repeat split.
Qed.

(** A run identifier with a slash in it names a directory under [runs]
    that the function does not create: on a fresh disk the call for [a/b]
    creates [runs], raises [FileNotFoundError], writes no file and prints
    nothing. *)
Lemma missing_directory_save :
  let out := save_raw_failure_log login_500_result "abc123" "a/b"
               "2026-01-01T00:00:00+00:00" empty_disk in
  out.2 = inl (FileNotFoundError "runs/a/b_raw.json") /\
  dirs out.1 = {["runs"]} /\ files out.1 = ∅ /\ stdout out.1 = [].
Proof.
  unfold save_raw_failure_log, makedirs, write_json. simpl.
  rewrite lookup_empty. simpl. repeat split.
Qed.

(** C8, as stated, fails on the code. The function is not free of
    I/O: called on a fresh disk it returns the log and leaves a disk
    that holds the file [runs/run-2_raw.json], which the disk did not
    hold before. *)
Lemma save_raw_failure_log_writes :
  let out := save_raw_failure_log login_500_result "abc123" "run-2"
               "2026-01-01T00:00:00+00:00" empty_disk in
  out.2 = inr login_500_log /\
  files empty_disk !! "runs/run-2_raw.json" = None /\
  files out.1 !! "runs/run-2_raw.json" = Some (JsonDump 4 login_500_log) /\
  out.1 <> empty_disk.
Proof.
  destruct fresh_disk_save as (Hout & Hfile & _). simpl in *.
  split; [exact Hout|]. split; [reflexivity|]. split; [exact Hfile|].
  intros E. rewrite E in Hfile. discriminate.
Qed.

(** The log of the failed login run, written on a fresh disk and then
    written again. *)
Lemma save_raw_failure_log_repeatable_witness :
  let first := save_raw_failure_log login_500_result "abc123" "run-2"
                 "2026-01-01T00:00:00+00:00" empty_disk in
  first.2 = inr login_500_log /\
  log_timestamp login_500_log = Some "2026-01-01T00:00:00+00:00" /\
  log_failure_reason login_500_log = Some "Expected 200 or 401 from /login, got 500" /\
  exists d2,
    save_raw_failure_log login_500_result "abc123" "run-2"
      "2026-01-01T00:00:00+00:00" first.1 = (d2, inr login_500_log) /\
    dirs d2 = dirs first.1 /\ files d2 = files first.1.
Proof.
  destruct (save_raw_failure_log_repeatable login_500_result "abc123" "run-2"
              "2026-01-01T00:00:00+00:00" empty_disk
              (save_raw_failure_log login_500_result "abc123" "run-2"
                 "2026-01-01T00:00:00+00:00" empty_disk).1
              login_500_log) as (_ & _ & Hts & _ & _ & _ & _ & _ & Hagain).
  - apply injective_projections; [reflexivity|].
    apply fresh_disk_save.
  - split; [apply fresh_disk_save|].
    split; [exact Hts|]. split; [reflexivity | exact Hagain].
Defined.

End LoggerFacts.

(** ** The key-value store *)

Section RedisFacts.

Import Redis.

Variable Backend : Type.
Variable backend_connect : string -> Backend -> Backend * option Exn.
Variable backend_set : string -> string -> Backend -> Backend * option Exn.
Variable backend_get : string -> Backend -> Backend * (Exn + option string).
Variable backend_keys : string -> Backend -> Backend * (Exn + list string).
Variable json_dumps : json -> string.
Variable json_loads : string -> option json.

Local Abbreviation State := (Redis.State Backend).
Local Abbreviation init := (Redis.VerifyPulseRedis_init Backend backend_connect).
Local Abbreviation set := (Redis.set Backend backend_set).
Local Abbreviation get := (Redis.get Backend backend_get).
Local Abbreviation keys := (Redis.keys Backend backend_keys).
Local Abbreviation store_requirement := (Redis.store_requirement Backend backend_set).
Local Abbreviation get_requirement := (Redis.get_requirement Backend backend_get).
Local Abbreviation save_run_result := (Redis.save_run_result Backend backend_set json_dumps).
Local Abbreviation collect := (Redis.collect Backend backend_get json_loads).
Local Abbreviation list_run_history :=
  (Redis.list_run_history Backend backend_get backend_keys json_loads).
Local Abbreviation exec :=
  (Redis.exec Backend backend_set backend_get backend_keys json_dumps json_loads).
Local Abbreviation exec_all :=
  (Redis.exec_all Backend backend_set backend_get backend_keys json_dumps json_loads).
Local Abbreviation remembered := (Redis.remembered Backend).
Local Abbreviation parsed := (Redis.parsed json_loads).

Ltac unfold_ops :=
  unfold Redis.set, Redis.get, Redis.keys, Redis.store_requirement,
    Redis.get_requirement, Redis.save_run_result, try_except, bind, read_self,
    store_put, store_get, store_keys, client_set, client_get, client_keys,
    fall_back, ret.

(** *** Memory mode: every operation works on the dictionary alone *)

Lemma set_memory (key value : string) (s : State) :
  use_memory (self s) = true ->
  set key value s = (remembered key value s, inr tt).
Proof.
  intros Hm. unfold_ops. simpl. rewrite Hm. unfold Redis.remembered. simpl.
  rewrite Hm. reflexivity.
Qed.

Lemma get_memory (key : string) (s : State) :
  use_memory (self s) = true ->
  get key s = (s, inr (store (self s) !! key)).
Proof. intros Hm. unfold_ops. simpl. rewrite Hm. reflexivity. Qed.

Lemma keys_memory (pattern : string) (s : State) :
  use_memory (self s) = true ->
  keys pattern s = (s, inr (match_keys pattern (store (self s)))).
Proof. intros Hm. unfold_ops. simpl. rewrite Hm. reflexivity. Qed.

Lemma save_run_result_memory (run_id : string) (payload : json) (s : State) :
  use_memory (self s) = true ->
  save_run_result run_id payload s =
    (remembered ("run:" +:+ run_id) (json_dumps payload) s, inr tt).
Proof.
  intros Hm. unfold Redis.save_run_result, try_except.
  rewrite (set_memory _ _ s Hm). reflexivity.
Qed.

Lemma collect_memory (s : State) :
  use_memory (self s) = true ->
  forall ks results,
    collect ks results s =
      (s, results ++ omap (fun key => parsed (store (self s) !! key)) ks).
Proof.
  intros Hm. induction ks as [|key ks IH]; intros results; simpl.
  - now rewrite app_nil_r.
  - rewrite (get_memory key s Hm). unfold Redis.parsed at 1.
    destruct (store (self s) !! key) as [body|]; simpl.
    + destruct (truthy_str body); [|apply IH].
      destruct (json_loads body) as [v|]; [|apply IH].
      rewrite IH, <- app_assoc. reflexivity.
    + apply IH.
Qed.

Lemma list_run_history_memory (s : State) :
  use_memory (self s) = true ->
  list_run_history s =
    (s, omap (fun key => parsed (store (self s) !! key))
          (List.filter (startswith "run:") (map_to_list (store (self s))).*1)).
Proof.
  intros Hm. unfold Redis.list_run_history.
  rewrite (keys_memory _ s Hm). rewrite (collect_memory s Hm). reflexivity.
Qed.

Lemma run_key_has_prefix (run_id : string) : startswith "run:" ("run:" +:+ run_id) = true.
Proof. unfold startswith. simpl. destruct run_id; reflexivity. Qed.

Lemma truthy_str_nonempty (body : string) : body <> "" -> truthy_str body = true.
Proof. destruct body; [congruence | reflexivity]. Qed.

(** A run saved in memory mode is part of the history read back. *)
Lemma saved_run_is_listed (run_id : string) (payload : json) (s : State) :
  use_memory (self s) = true ->
  json_loads (json_dumps payload) = Some payload ->
  json_dumps payload <> "" ->
  payload ∈ (list_run_history (save_run_result run_id payload s).1).2.
Proof.
  intros Hm Hround Hne.
  rewrite (save_run_result_memory _ _ s Hm). simpl.
  rewrite list_run_history_memory by reflexivity. simpl.
  apply list_elem_of_omap. exists ("run:" +:+ run_id). split.
  - apply list_elem_of_In, filter_In. split.
    + apply list_elem_of_In, list_elem_of_fmap.
      exists ("run:" +:+ run_id, json_dumps payload). split; [reflexivity|].
      apply elem_of_map_to_list, lookup_insert_eq.
    + apply run_key_has_prefix.
  - rewrite lookup_insert_eq. simpl.
    rewrite (truthy_str_nonempty _ Hne). exact Hround.
Qed.

Lemma init_without_url (url : option string) (load_config : Exn + string) (b : Backend) :
  strip_truthy (configured_url url load_config) = false ->
  init url load_config b =
    {| self := {| use_memory := true; store := ∅; has_client := false |};
       backend := b |}.
Proof.
  intros Hblank. unfold Redis.VerifyPulseRedis_init. rewrite Hblank.
  rewrite orb_true_r. reflexivity.
Qed.

(** C9. Built without a URL (none given and none configured, or a
    blank one), the store is in memory mode: the history is empty before
    any write, and after [save_run_result(run_id, payload)] the text of
    the payload is read back under the key [run:<run_id>], the key is
    among the keys [run:*], and the history is the list with that
    payload; the server is never reached.  In any instance in memory
    mode the history read after a save contains the payload. *)
Theorem memory_store_round_trip (url : option string) (load_config : Exn + string)
    (b : Backend) (run_id : string) (payload : json) :
  strip_truthy (configured_url url load_config) = false ->
  json_loads (json_dumps payload) = Some payload ->
  json_dumps payload <> "" ->
  let s0 := init url load_config b in
  let s1 := (save_run_result run_id payload s0).1 in
  use_memory (self s0) = true /\
  (list_run_history s0).2 = [] /\
  (save_run_result run_id payload s0).2 = inr tt /\
  get ("run:" +:+ run_id) s1 = (s1, inr (Some (json_dumps payload))) /\
  (exists ks, keys "run:*" s1 = (s1, inr ks) /\ "run:" +:+ run_id ∈ ks) /\
  (list_run_history s1).2 = [payload] /\
  backend (list_run_history s1).1 = b /\
  forall s : State,
    use_memory (self s) = true ->
    payload ∈ (list_run_history (save_run_result run_id payload s).1).2.
Proof.
  intros Hblank Hround Hne. simpl.
  rewrite (init_without_url _ _ _ Hblank).
  rewrite save_run_result_memory by reflexivity. simpl.
  split; [reflexivity|].
  split; [rewrite list_run_history_memory by reflexivity; reflexivity|].
  split; [reflexivity|].
  split; [rewrite get_memory by reflexivity; simpl; now rewrite lookup_insert_eq|].
  assert (Hkeys : List.filter (startswith "run:")
            (map_to_list (<["run:" +:+ run_id := json_dumps payload]> (∅ : gmap string string))).*1
          = ["run:" +:+ run_id]).
  { rewrite insert_empty, map_to_list_singleton.
    change (List.filter (startswith "run:") [("run:" +:+ run_id, json_dumps payload)].*1)
      with (if startswith "run:" ("run:" +:+ run_id)
            then ["run:" +:+ run_id] else []).
    now rewrite run_key_has_prefix. }
  split.
  { eexists. split; [rewrite keys_memory by reflexivity; reflexivity|].
    simpl. change (match_keys "run:*" ?m) with (List.filter (startswith "run:") (map_to_list m).*1).
    rewrite Hkeys. apply list_elem_of_here. }
  rewrite list_run_history_memory by reflexivity. simpl.
  split.
  { rewrite Hkeys. simpl. rewrite lookup_insert_eq. simpl.
    rewrite (truthy_str_nonempty _ Hne), Hround. reflexivity. }
  split; [reflexivity|].
  intros s Hm. now apply saved_run_is_listed.
Qed.

(** *** No operation lets an exception of the server through *)

Lemma set_returns (key value : string) (s : State) : (set key value s).2 = inr tt.
Proof.
  unfold_ops. simpl. destruct (use_memory (self s)); [reflexivity|].
  destruct (has_client (self s)); [|reflexivity].
  destruct (backend_set key value (backend s)) as [b [exc|]]; reflexivity.
Qed.

Lemma get_returns (key : string) (s : State) : exists r, (get key s).2 = inr r.
Proof.
  unfold_ops. simpl. destruct (use_memory (self s)); [eauto|].
  destruct (has_client (self s)); [|eauto].
  destruct (backend_get key (backend s)) as [b [exc|r]]; simpl; eauto.
Qed.

Lemma keys_returns (pattern : string) (s : State) : exists r, (keys pattern s).2 = inr r.
Proof.
  unfold_ops. simpl. destruct (use_memory (self s)); [eauto|].
  destruct (has_client (self s)); [|eauto].
  destruct (backend_keys pattern (backend s)) as [b [exc|r]]; simpl; eauto.
Qed.

(** *** Memory mode is never left *)

Lemma exec_memory (op : Op) (s : State) :
  use_memory (self s) = true ->
  use_memory (self (exec op s)) = true /\ backend (exec op s) = backend s.
Proof.
  intros Hm. destruct op; simpl.
  - rewrite (set_memory _ _ s Hm). auto.
  - rewrite (get_memory _ s Hm). auto.
  - rewrite (keys_memory _ s Hm). auto.
  - change (Redis.store_requirement Backend backend_set requirement_id body s)
      with (set requirement_id body s).
    rewrite (set_memory _ _ s Hm). auto.
  - change (Redis.get_requirement Backend backend_get requirement_id s)
      with (get requirement_id s).
    rewrite (get_memory _ s Hm). auto.
  - rewrite (save_run_result_memory _ _ s Hm). auto.
  - rewrite (list_run_history_memory s Hm). auto.
Qed.

Lemma exec_all_memory (ops : list Op) :
  forall s : State,
    use_memory (self s) = true ->
    use_memory (self (exec_all ops s)) = true /\ backend (exec_all ops s) = backend s.
Proof.
  induction ops as [|op ops IH]; intros s Hm; [auto|].
  unfold Redis.exec_all. simpl.
  destruct (exec_memory op s Hm) as [Hm1 Hb1].
  destruct (IH (exec op s) Hm1) as [Hm2 Hb2].
  unfold Redis.exec_all in Hm2, Hb2. rewrite Hb2, Hb1. auto.
Qed.

(** C10. None of [set], [get], [keys], [store_requirement] and
    [get_requirement] lets an exception through: each returns, the last
    two being [set] and [get] under another name.  Memory
    mode is never left, and in it the server is not reached.  When the
    command of the server raises inside [set], [get] or [keys], the
    instance is in memory mode afterwards and the operation is done on
    the dictionary: a [set] whose write failed holds the value, the [get]
    that follows returns it, and the instance stays in memory mode
    through any further operations. *)
Theorem store_operations_fail_soft (s : State) :
  (forall key value, (set key value s).2 = inr tt) /\
  (forall key, exists r, (get key s).2 = inr r) /\
  (forall pattern, exists r, (keys pattern s).2 = inr r) /\
  (forall requirement_id body,
     store_requirement requirement_id body s = set requirement_id body s) /\
  (forall requirement_id, get_requirement requirement_id s = get requirement_id s) /\
  (forall ops, use_memory (self s) = true ->
     use_memory (self (exec_all ops s)) = true /\
     backend (exec_all ops s) = backend s) /\
  (forall key value b exc,
     use_memory (self s) = false -> has_client (self s) = true ->
     backend_set key value (backend s) = (b, Some exc) ->
     let s1 := (set key value s).1 in
     use_memory (self s1) = true /\
     store (self s1) = <[key := value]> (store (self s)) /\
     get key s1 = (s1, inr (Some value)) /\
     forall ops, use_memory (self (exec_all ops s1)) = true) /\
  (forall key b exc,
     use_memory (self s) = false -> has_client (self s) = true ->
     backend_get key (backend s) = (b, inl exc) ->
     use_memory (self (get key s).1) = true /\
     (get key s).2 = inr (store (self s) !! key)) /\
  (forall pattern b exc,
     use_memory (self s) = false -> has_client (self s) = true ->
     backend_keys pattern (backend s) = (b, inl exc) ->
     use_memory (self (keys pattern s).1) = true /\
     (keys pattern s).2 = inr (match_keys pattern (store (self s)))).
Proof.
  split; [intros; apply set_returns|].
  split; [intros; apply get_returns|].
  split; [intros; apply keys_returns|].
  split; [reflexivity|].
  split; [reflexivity|].
  split; [intros ops Hm; now apply exec_all_memory|].
  split.
  { intros key value b exc Hm Hc Hset. simpl.
    assert (Hs1 : set key value s =
              (Redis.remembered Backend key value {| self := self s; backend := b |},
               inr tt)).
    { unfold_ops. simpl. rewrite Hm, Hc, Hset. reflexivity. }
    rewrite Hs1. simpl. split; [reflexivity|]. split; [reflexivity|]. split.
    - rewrite get_memory by reflexivity. simpl. now rewrite lookup_insert_eq.
    - intros ops. now apply exec_all_memory. }
  split.
  - intros key b exc Hm Hc Hget. unfold_ops. simpl. rewrite Hm, Hc, Hget. simpl. auto.
  - intros pattern b exc Hm Hc Hkeys. unfold_ops. simpl. rewrite Hm, Hc, Hkeys. simpl. auto.
Qed.

End RedisFacts.

Section RedisScenarios.

Import Redis.
Import Scenarios.

(** Scenario E: no URL and no configuration. *)
Lemma memory_store_round_trip_witness :
  (list_run_history Server server_get server_keys loads_run memory_store).2 = [] /\
  (list_run_history Server server_get server_keys loads_run
     (save_run_result Server server_set dumps_run "c-1" run_payload memory_store).1).2
    = [run_payload].
Proof.
  destruct (memory_store_round_trip Server server_connect server_set server_get
              server_keys dumps_run loads_run None (inl (ValueError "REDIS_URL"))
              unreachable "c-1" run_payload)
    as (_ & Hempty & _ & _ & _ & Hlist & _).
  - reflexivity.
  - reflexivity.
  - discriminate.
  - split; [exact Hempty | exact Hlist].
Defined.

(** The server drops the connection after the ping: the first write
    fails, is kept in memory and is read back. *)
Lemma store_operations_fail_soft_witness :
  use_memory (self dropped_store) = false /\
  let s1 := (set Server server_set "requirement:1" "login must answer 401" dropped_store).1 in
  use_memory (self s1) = true /\
  get Server server_get "requirement:1" s1 = (s1, inr (Some "login must answer 401")).
Proof.
  split; [reflexivity|].
  destruct (store_operations_fail_soft Server server_set server_get server_keys
              dumps_run loads_run dropped_store)
    as (_ & _ & _ & _ & _ & _ & Hset & _).
  destruct (Hset "requirement:1" "login must answer 401"
              {| budget := 0; data := ∅ |} ConnectionError)
    as (Hm & _ & Hget & _); [reflexivity | reflexivity | reflexivity |].
  split; [exact Hm | exact Hget].
Defined.

End RedisScenarios.

(* ================================================================== *)
(** * Part III: further properties of the program *)
(* ================================================================== *)

(** ** The test runner, continued *)

Section RunnerShape.

Import Runner.
Import Calls.

Variable World : Type.
Variable http : World -> HttpCall -> World * (Exn + Response).

Local Abbreviation run_case := (Runner.run_case World http).
Local Abbreviation run_loop := (Runner.run_loop World http).
Local Abbreviation run_native_tests := (Runner.run_native_tests World http).
Local Abbreviation AllPass := (Runner.AllPass World http).
Local Abbreviation FirstFailureAt := (Runner.FirstFailureAt World http).

(** One iteration appends one record and issues the call of its case,
    if the case has one. *)
Lemma run_case_effect (base : string) (i : nat) (test : TestCase)
    (st st1 : RunState World) (flow : option TestRunResult) :
  run_case base i test st = (st1, flow) ->
  (exists rec, history st1 = history st ++ [rec]) /\
  issued st1 = issued st ++ calls_of base i [test] /\
  match flow with
  | Some result =>
      success result = false /\ request_history result = history st1 /\
      exists f, failure result = Some f /\ test_name f = tc_name test /\
                last (history st1) = Some (failed_record f)
  | None => True
  end.
Proof.
  unfold Runner.run_case, try_body, send. simpl. unfold call_for.
  destruct (dispatch (tc_method test)) as [verb|].
  2:{ intros [= <- <-]. simpl. rewrite app_nil_r. repeat split; eauto.
      eexists. repeat split. apply last_snoc. }
  destruct (http (world st) _) as [w1 [exc|resp]]; simpl.
  { intros [= <- <-]. simpl. repeat split; eauto.
    eexists. repeat split. apply last_snoc. }
  destruct (status_in _ _); simpl.
  - destruct (requires_json test && _); intros [= <- <-]; simpl; repeat split; eauto.
    eexists. repeat split. apply last_snoc.
  - intros [= <- <-]. simpl. repeat split; eauto.
    eexists. repeat split. apply last_snoc.
Qed.

(** The loop from index [i]: what it appends to the history and to the
    log of issued calls, and the shape of its result. *)
Lemma run_loop_shape (base : string) (tests : list TestCase) :
  forall (i : nat) (st st' : RunState World) (result : TestRunResult),
    run_loop base i tests st = (st', result) ->
    exists hs,
      history st' = history st ++ hs /\
      length hs <= length tests /\
      issued st' = issued st ++ calls_of base i (take (length hs) tests) /\
      request_history result = history st' /\
      (success result = true -> failure result = None /\ length hs = length tests) /\
      (success result = false ->
         exists f test,
           failure result = Some f /\
           tests !! (length hs - 1) = Some test /\ 0 < length hs /\
           test_name f = tc_name test /\
           last (history st') = Some (failed_record f)).
Proof.
  induction tests as [|test tests IH]; intros i st st' result; simpl.
  - intros [= <- <-]. exists []. simpl. rewrite !app_nil_r.
    repeat split; auto. discriminate.
  - destruct (run_case base i test st) as [st1 flow] eqn:Hcase.
    destruct (run_case_effect _ _ _ _ _ _ Hcase) as ((rec & Hh) & Hi & Hflow).
    destruct flow as [res|].
    + intros [= Hst Hres]. subst st1 res.
      destruct Hflow as (Hs & Hr & f & Hf & Hn & Hl).
      exists [rec]. simpl.
      split; [exact Hh|]. split; [lia|].
      split; [rewrite Hi; simpl; destruct (call_for base test); reflexivity|].
      split; [exact Hr|].
      split; [intros Hs'; congruence|].
      intros _. exists f, test. repeat split; auto.
    + intros Hloop.
      destruct (IH _ _ _ _ Hloop) as (hs & Hh' & Hlen & Hi' & Hr & Hok & Hko).
      exists (rec :: hs). simpl.
      split; [rewrite Hh', Hh, <- app_assoc; reflexivity|].
      split; [lia|].
      split.
      { rewrite Hi', Hi, <- app_assoc. f_equal. simpl.
        destruct (call_for base test); reflexivity. }
      split; [exact Hr|].
      split.
      { intros Hs. destruct (Hok Hs) as [Hnone Hl]. split; [exact Hnone | now rewrite Hl]. }
      intros Hs. destruct (Hko Hs) as (f & t & Hf & Ht & Hpos & Hn & Hl).
      exists f, t.
      split; [exact Hf|]. split.
      { rewrite Nat.sub_0_r. destruct (length hs) as [|n]; [lia|].
        simpl in Ht. rewrite Nat.sub_0_r in Ht. exact Ht. }
      split; [lia|]. split; [exact Hn | exact Hl].
Qed.

(** X1. The result of a run keeps the invariant of its type: it
    succeeds exactly when it carries no failure; its history is the one
    the run accumulated, never longer than the table and as long as the
    table when the run succeeds; a failure names the case at the last
    position of the history and carries the last record. *)
Theorem run_result_invariant (tests : list TestCase) (base : string) (w : World) :
  let run := run_native_tests tests base w in
  request_history run.2 = history run.1 /\
  (success run.2 = true <-> failure run.2 = None) /\
  length (request_history run.2) <= length tests /\
  (success run.2 = true -> length (request_history run.2) = length tests) /\
  (forall f, failure run.2 = Some f ->
     last (request_history run.2) = Some (failed_record f) /\
     exists test,
       tests !! (length (request_history run.2) - 1) = Some test /\
       test_name f = tc_name test).
Proof.
  simpl. unfold Runner.run_native_tests.
  destruct (run_loop base 0 tests (initial World w)) as [st' result] eqn:Hrun.
  destruct (run_loop_shape _ _ _ _ _ _ Hrun) as (hs & Hh & Hlen & Hi & Hr & Hok & Hko).
  simpl in *. rewrite Hr, Hh.
  split; [reflexivity|]. split.
  { split.
    - intros Hs. now apply Hok.
    - intros Hnone. destruct (success result) eqn:Hs; [reflexivity|].
      destruct (Hko eq_refl) as (f & t & Hf & _). congruence. }
  split; [exact Hlen|]. split; [intros Hs; now apply Hok|].
  intros f Hf. destruct (success result) eqn:Hs.
  - destruct (Hok eq_refl) as [Hnone _]. congruence.
  - destruct (Hko eq_refl) as (f' & t & Hf' & Ht & _ & Hn & Hl).
    rewrite Hh in Hl. assert (f' = f) by congruence. subst f'.
    split; [exact Hl|]. eauto.
Qed.

(** X2. The calls a run issues are exactly the calls of the cases it
    executed, in the order of the table, each under the index of its
    case: one call for a case whose method is dispatched, none for a case
    whose method is not, and nothing for the cases after the last record
    of the history. *)
Theorem issued_calls_follow_table (tests : list TestCase) (base : string) (w : World) :
  let run := run_native_tests tests base w in
  issued run.1 = calls_of base 0 (take (length (request_history run.2)) tests) /\
  length (issued run.1) <= length (request_history run.2).
Proof.
  simpl. unfold Runner.run_native_tests.
  destruct (run_loop base 0 tests (initial World w)) as [st' result] eqn:Hrun.
  destruct (run_loop_shape _ _ _ _ _ _ Hrun) as (hs & Hh & Hlen & Hi & Hr & _).
  simpl in *. rewrite Hr, Hh, Hi. split; [reflexivity|].
  clear. generalize 0. generalize (length hs). intros n.
  revert n. induction tests as [|t tests IH]; intros [|n] i; simpl; try lia.
  destruct (call_for base t); simpl; specialize (IH n (S i)); lia.
Qed.

Lemma rstrip_snoc (c : ascii) (s : string) :
  rstrip c (s +:+ String c EmptyString) = rstrip c s.
Proof.
  induction s as [|a s IH]; simpl.
  - now rewrite Ascii.eqb_refl.
  - now rewrite IH.
Qed.

Lemma rstrip_idempotent (c : ascii) (s : string) : rstrip c (rstrip c s) = rstrip c s.
Proof.
  induction s as [|a s IH]; simpl; [reflexivity|].
  destruct (rstrip c s) as [|b r] eqn:E.
  - destruct (Ascii.eqb a c) eqn:Ea; simpl; [reflexivity|]. now rewrite Ea.
  - change (rstrip c (String a (String b r))) with
      (match rstrip c (String b r) with
       | EmptyString => if Ascii.eqb a c then EmptyString else String a EmptyString
       | String x y => String a (String x y)
       end).
    now rewrite IH.
Qed.

Lemma run_loop_same_urls (base base' : string) :
  rstrip "/"%char base' = rstrip "/"%char base ->
  forall tests i st, run_loop base' i tests st = run_loop base i tests st.
Proof.
  intros Hb. induction tests as [|test tests IH]; intros i st; simpl; [reflexivity|].
  unfold Runner.run_case, url_of. rewrite Hb.
  destruct (try_body World http i test _ st) as [st1 [exc|[res|]]]; simpl; auto.
Qed.

(** X3. Slashes at the end of the base URL do not matter: the run with
    one more slash appended, and the run with all of them stripped, are
    the run itself, with the same calls and the same result. *)
Theorem base_url_trailing_slash (tests : list TestCase) (base : string) (w : World) :
  run_native_tests tests (base +:+ "/") w = run_native_tests tests base w /\
  run_native_tests tests (rstrip "/"%char base) w = run_native_tests tests base w.
Proof.
  unfold Runner.run_native_tests. split; apply run_loop_same_urls.
  - apply rstrip_snoc.
  - apply rstrip_idempotent.
Qed.

(** The run of a case that is answered with an expected status and a
    body that is neither a dict nor a list, when JSON is required. *)
Lemma json_failure_run (base : string) (pre post : list TestCase) (test : TestCase)
    (w w1 w2 : World) (verb : Verb) (resp : Response) :
  AllPass base w pre w1 ->
  dispatch (tc_method test) = Some verb ->
  http w1 (call_of verb (url_of base test) (tc_payload test)) = (w2, inr resp) ->
  In (resp_status_code resp) (tc_expected_status test) ->
  tc_requires_json test = Some true ->
  is_structured (parse_body resp) = false ->
  (run_native_tests (pre ++ test :: post) base w).2 =
    {| success := false;
       request_history :=
         history (run_native_tests (pre ++ test :: post) base w).1;
       failure :=
         Some {| test_name := tc_name test;
                 reason := "Expected JSON response from " +:+ tc_endpoint test;
                 failed_record := response_record resp |} |} /\
  last (history (run_native_tests (pre ++ test :: post) base w).1)
    = Some (response_record resp).
Proof.
  intros Hall Hd Hh Hin Hreq Hbody.
  destruct (run_stops_at World http base pre post test w w1 Hall)
    as (st1 & hs & new & Hw & Hhist & Hlh & Hi & Hli & Hlt & Hgo).
  subst w1. apply (status_in_spec) in Hin.
  erewrite Hgo.
  2:{ unfold Runner.run_case, try_body, send. rewrite Hd, Hh. simpl. rewrite Hin. simpl.
      unfold requires_json. rewrite Hreq, Hbody. simpl. reflexivity. }
  simpl. split; [reflexivity | apply last_snoc].
Qed.

(** X4. When JSON is required, a response with an expected status
    whose body is not a dict or a list (a parsed string or number, or a
    text that does not parse) fails the run at that case with the reason
    [Expected JSON response from <endpoint>], the record of the response
    being the last of the history. *)
Theorem json_requirement_fails (base : string) (pre post : list TestCase)
    (test : TestCase) (w w1 w2 : World) (verb : Verb) (resp : Response) :
  AllPass base w pre w1 ->
  dispatch (tc_method test) = Some verb ->
  http w1 (call_of verb (url_of base test) (tc_payload test)) = (w2, inr resp) ->
  In (resp_status_code resp) (tc_expected_status test) ->
  tc_requires_json test = Some true ->
  is_structured (parse_body resp) = false ->
  let run := run_native_tests (pre ++ test :: post) base w in
  success run.2 = false /\
  length (request_history run.2) = length pre + 1 /\
  last (request_history run.2) = Some (response_record resp) /\
  failure run.2 =
    Some {| test_name := tc_name test;
            reason := "Expected JSON response from " +:+ tc_endpoint test;
            failed_record := response_record resp |}.
Proof.
  intros Hall Hd Hh Hin Hreq Hbody. simpl.
  destruct (json_failure_run base pre post test w w1 w2 verb resp
              Hall Hd Hh Hin Hreq Hbody) as [Hres Hlast].
  destruct (run_stops_at World http base pre post test w w1 Hall)
    as (st1 & hs & new & Hw & Hhist & Hlh & Hi & Hli & Hlt & Hgo).
  subst w1. apply status_in_spec in Hin.
  erewrite Hgo in *.
  2,3,4:(unfold Runner.run_case, try_body, send; rewrite Hd, Hh; simpl; rewrite Hin; simpl;
        unfold requires_json; rewrite Hreq, Hbody; simpl; reflexivity).
  simpl in *. rewrite Hhist, length_app, Hlh, last_snoc. simpl. repeat split.
Qed.

(** X5. [load_test_cases_from_dict] keeps the entries of the
    dictionary in order, names each case by its key, and always writes the
    key [requires_json], true unless the entry says otherwise; the runner
    itself reads an absent key as false.  So for an entry that does not
    mention [requires_json], answered with an expected status and a body
    that is not a dict or a list, the case as the loader builds it fails
    with [Expected JSON response from <endpoint>], while the same case
    without the key passes. *)
Theorem loader_requires_json_by_default (name : string) (config : Loader.Config)
    (base : string) (w w1 : World) (verb : Verb) (resp : Response) :
  let loaded := Loader.load_test_case (name, config) in
  let unloaded :=
    {| tc_name := tc_name loaded; tc_method := tc_method loaded;
       tc_endpoint := tc_endpoint loaded; tc_payload := tc_payload loaded;
       tc_expected_status := tc_expected_status loaded;
       tc_requires_json := None |} in
  Loader.cfg_requires_json config = None ->
  dispatch (tc_method loaded) = Some verb ->
  http w (call_of verb (url_of base loaded) (tc_payload loaded)) = (w1, inr resp) ->
  In (resp_status_code resp) (tc_expected_status loaded) ->
  is_structured (parse_body resp) = false ->
  (forall test_dict,
     map tc_name (Loader.load_test_cases_from_dict test_dict) = test_dict.*1 /\
     Forall (fun t => is_Some (tc_requires_json t))
       (Loader.load_test_cases_from_dict test_dict)) /\
  success (run_native_tests [unloaded] base w).2 = true /\
  success (run_native_tests [loaded] base w).2 = false /\
  failure (run_native_tests [loaded] base w).2 =
    Some {| test_name := name;
            reason := "Expected JSON response from " +:+ tc_endpoint loaded;
            failed_record := response_record resp |}.
Proof.
  intros loaded unloaded Hnone Hd Hh Hin Hbody. split.
  { intros test_dict. unfold Loader.load_test_cases_from_dict. split.
    - rewrite map_map. apply map_ext. intros [n c]. reflexivity.
    - apply Forall_forall. intros t Ht. apply list_elem_of_In, in_map_iff in Ht.
      destruct Ht as ([n c] & <- & _). simpl. eauto. }
  split.
  - assert (Hall : AllPass base w [unloaded] w1).
    { eapply all_pass_cons; [|constructor].
      eapply passes with (verb := verb); [exact Hd | exact Hh |].
      split; [exact Hin | discriminate]. }
    destruct (run_loop_prefix World http base [unloaded] 0 (initial World w) w1 Hall)
      as (st1 & hs & new & _ & _ & _ & _ & _ & _ & Hgo).
    unfold Runner.run_native_tests. specialize (Hgo []).
    change ([unloaded] ++ []) with [unloaded] in Hgo. rewrite Hgo. reflexivity.
  - destruct (json_failure_run base [] [] loaded w w w1 verb resp) as [Hres _].
    + constructor.
    + exact Hd.
    + exact Hh.
    + exact Hin.
    + unfold loaded. simpl. now rewrite Hnone.
    + exact Hbody.
    + change ([] ++ [loaded]) with [loaded] in Hres. rewrite Hres. split; reflexivity.
Qed.

End RunnerShape.

Section RunnerShapeScenarios.

Import Runner.
Import Scenarios.
Import MoreScenarios.

(** The health check, with JSON required: the service answers 200 with
    an empty text. *)
Lemma json_requirement_fails_witness :
  let run := Runner.run_native_tests nat (service 401) [health_check; health_json] api 0 in
  success run.2 = false /\
  length (request_history run.2) = 2 /\
  exists f, failure run.2 = Some f /\
            reason f = "Expected JSON response from /health".
Proof.
  destruct (json_requirement_fails nat (service 401) api [health_check] [] health_json
              0 1 2 GET
              (answer (call_of GET (url_of api health_json) JNull) 200 None ""))
    as (Hs & Hl & _ & Hf).
  - eapply all_pass_cons; [apply health_passes | constructor].
  - reflexivity.
  - reflexivity.
  - simpl. auto.
  - reflexivity.
  - reflexivity.
  - split; [exact Hs|]. split; [exact Hl|]. eexists. split; [exact Hf | reflexivity].
Defined.

(** An entry that names only its endpoint. *)
Lemma loader_requires_json_by_default_witness :
  let loaded := Loader.load_test_case ("health", health_entry) in
  tc_method loaded = "GET" /\
  tc_expected_status loaded = [200%Z] /\
  tc_requires_json loaded = Some true /\
  success (Runner.run_native_tests nat (service 401) [loaded] api 0).2 = false.
Proof.
  destruct (loader_requires_json_by_default nat (service 401) "health" health_entry
              api 0 1 GET
              (answer (call_of GET "http://127.0.0.1:8000/health" JNull) 200 None ""))
    as (_ & _ & Hs & _).
  - reflexivity.
  - reflexivity.
  - reflexivity.
  - simpl. auto.
  - reflexivity.
  - repeat split; exact Hs.
Defined.

End RunnerShapeScenarios.

(** ** The failure log, continued *)

Section LogShape.

Import Runner.
Import Logger.

Variable World : Type.
Variable http : World -> HttpCall -> World * (Exn + Response).

Local Abbreviation run_native_tests := (Runner.run_native_tests World http).

Lemma last_map {A B} (f : A -> B) (l : list A) :
  last (map f l) = option_map f (last l).
Proof.
  induction l as [|a [|b l] IH]; simpl in *; [reflexivity | reflexivity | exact IH].
Qed.

(** X6. The log built from the result of a run: its status is
    "passed" exactly when the run succeeded and "failed" otherwise; its
    request history has one dictionary per record, in order; for a
    succeeded run it has no test name, reason or failing call; for a
    failed run it names the failed case and its reason, and its failing
    call is the last entry of its request history, split into request
    and response. *)
Theorem log_of_run (tests : list TestCase) (base : string) (w : World)
    (commit_hash run_id timestamp : string) :
  let result := (run_native_tests tests base w).2 in
  let log := build_payload result commit_hash run_id timestamp in
  log_status log = Some (if success result then "passed" else "failed") /\
  log_request_history log = Some (map record_to_dict (request_history result)) /\
  (success result = true ->
     log_test_name log = None /\ log_failure_reason log = None /\
     log_failing_call log = None) /\
  (success result = false ->
     exists f d,
       failure result = Some f /\
       log_test_name log = Some (test_name f) /\
       log_failure_reason log = Some (reason f) /\
       last (map record_to_dict (request_history result)) = Some d /\
       log_failing_call log =
         Some {| request_data :=
                   {| rq_method := rd_method d; rq_url := rd_url d;
                      rq_headers := rd_request_headers d; rq_body := rd_request_body d |};
                 response_data :=
                   {| rs_status_code := rd_status_code d;
                      rs_headers := rd_response_headers d;
                      rs_body := rd_response_body d |} |}).
Proof.
  simpl. unfold Runner.run_native_tests.
  destruct (Runner.run_loop World http base 0 tests (initial World w))
    as [st' result] eqn:Hrun.
  destruct (run_loop_shape World http _ _ _ _ _ _ Hrun)
    as (hs & Hh & Hlen & Hi & Hr & Hok & Hko).
  simpl. unfold build_payload. destruct (success result) eqn:Hs; simpl.
  - repeat split; discriminate.
  - split; [reflexivity|]. split; [reflexivity|]. split; [discriminate|].
    intros _. destruct (Hko eq_refl) as (f & t & Hf & _ & _ & _ & Hl).
    exists f, (record_to_dict (failed_record f)). rewrite Hf.
    split; [reflexivity|]. split; [reflexivity|]. split; [reflexivity|].
    split; [|reflexivity].
    rewrite last_map, Hr, Hl. reflexivity.
Qed.

(** The call for a run identifier whose log has a plain file name. *)
Lemma save_raw_failure_log_plain (test_result : TestRunResult)
    (commit_hash run_id timestamp : string) (d : Disk) :
  plain_name (run_id +:+ "_raw.json") = true ->
  let payload := build_payload test_result commit_hash run_id timestamp in
  let made := {| cwd := cwd d; dirs := {["runs"]} ∪ dirs d; files := files d;
                 stdout := stdout d |} in
  save_raw_failure_log test_result commit_hash run_id timestamp d =
    match files d !! "runs" with
    | Some _ => (d, inl (FileExistsError "runs"))
    | None =>
        if bool_decide (log_path run_id ∈ dirs d)
        then (made, inl (IsADirectoryError (log_path run_id)))
        else ({| cwd := cwd d; dirs := {["runs"]} ∪ dirs d;
                 files := <[log_path run_id := JsonDump 4 payload]> (files d);
                 stdout := stdout d ++ ["[Logger] Raw failure log saved: "
                                        +:+ log_path run_id] |},
              inr payload)
    end.
Proof using Type.
  intros Hplain payload made. unfold save_raw_failure_log, makedirs, write_json.
  destruct (files d !! "runs"); [reflexivity|]. fold made.
  assert (Hmade : "runs" ∈ dirs made)
    by (apply elem_of_union_l, elem_of_singleton; reflexivity).
  rewrite log_path_parts, (open_w_plain "runs" _ made eq_refl Hplain Hmade).
  rewrite <- log_path_parts.
  destruct (bool_decide (log_path run_id ∈ dirs d)) eqn:Hin.
  - apply bool_decide_eq_true in Hin.
    rewrite bool_decide_eq_true_2 by (apply elem_of_union_r; exact Hin). reflexivity.
  - apply bool_decide_eq_false in Hin.
    rewrite bool_decide_eq_false_2; [reflexivity|].
    intros H. apply elem_of_union in H as [H|H]; [|contradiction].
    apply elem_of_singleton in H. now apply log_path_is_not_runs in H.
Qed.

Lemma names_of_some (p : string) : names_of p <> [].
Proof using Type.
  destruct p as [|c p]; simpl; [discriminate|].
  destruct (Ascii.eqb c "/"); [discriminate|]. destruct (names_of p); discriminate.
Qed.

Lemma append_assoc (a b c : string) : (a +:+ b) +:+ c = a +:+ (b +:+ c).
Proof using Type.
  induction a as [|x a IH]; [reflexivity|].
  change (String x ((a +:+ b) +:+ c) = String x (a +:+ (b +:+ c))). now rewrite IH.
Qed.

(** A path under [runs] that goes through a directory that is not
    there cannot be opened. *)
Lemma open_w_missing_directory (dir rest : string) (d : Disk) :
  plain_name dir = true -> "runs" ∈ dirs d -> "runs/" +:+ dir ∉ dirs d ->
  exists exc, open_w ("runs" +:+ "/" +:+ dir +:+ "/" +:+ rest) d = inl exc.
Proof using Type.
  intros Hdir Hruns Hnot.
  apply plain_name_spec in Hdir as (Hds & Hdn & Hdl & Hd0 & Hd1 & Hd2).
  assert (Hnames : names_of ("runs" +:+ "/" +:+ dir +:+ "/" +:+ rest)
                   = "runs" :: dir :: names_of rest).
  { rewrite (names_of_slash "runs" _ eq_refl), (names_of_slash dir rest Hds).
    reflexivity. }
  assert (Hrel : String.prefix "/" ("runs" +:+ "/" +:+ dir +:+ "/" +:+ rest) = false)
    by reflexivity.
  unfold open_w. rewrite Hnames, Hrel.
  set (p := "runs" +:+ "/" +:+ dir +:+ "/" +:+ rest). clearbody p.
  destruct (has_char (ascii_of_nat 0) p); [eauto|].
  destruct (PATH_MAX <=? String.length p)%nat; [eauto|].
  destruct (String.eqb p ""); [eauto|].
  destruct (names_of rest) as [|name names] eqn:Hrest;
    [now apply names_of_some in Hrest|].
  rewrite walk_step.
  assert (Hblank : forallb (String.eqb "") (dir :: name :: names) = false).
  { cbn [forallb]. now rewrite String.eqb_sym, Hd0. }
  rewrite Hblank.
  change (String.eqb "runs" "" || String.eqb "runs" ".") with false.
  change (String.eqb "runs" "..") with false.
  change (NAME_MAX <? String.length "runs")%nat with false.
  cbv iota.
  assert (Hthere : is_dir d (cwd d ++ ["runs"]) = true).
  { unfold is_dir, entry_key. rewrite relative_below.
    change (join "/" ["runs"]) with "runs".
    rewrite (bool_decide_eq_true_2 _ Hruns). apply orb_true_r. }
  rewrite Hthere, walk_step.
  destruct (forallb (String.eqb "") (name :: names)); [eauto|].
  rewrite Hd0, Hd1, Hd2, Hdl. cbn [orb].
  assert (Hgone : is_dir d ((cwd d ++ ["runs"]) ++ [dir]) = false).
  { unfold is_dir, entry_key.
    rewrite <- app_assoc, relative_below, leads_to_below by discriminate.
    change (join "/" (["runs"] ++ [dir])) with ("runs/" +:+ dir).
    now rewrite bool_decide_eq_false_2 by exact Hnot. }
  rewrite Hgone. destruct (is_file d _); eauto.
Qed.

(** X7. [save_raw_failure_log] and the file system.  For a run
    identifier whose log has a plain file name, with no slash in it, the
    function returns its dictionary exactly when [runs] is not an
    existing file and the path of the log is not a directory.  A run
    identifier that leads through a directory under [runs] that does not
    exist, as [a/b] on a fresh disk, makes the function raise.  Whenever
    an exception leaves the function no file was written and nothing was
    printed, and when [runs] is an existing file the disk is as it was. *)
Theorem save_raw_failure_log_returns_iff (test_result : TestRunResult)
    (commit_hash run_id timestamp : string) (d : Disk) :
  let out := save_raw_failure_log test_result commit_hash run_id timestamp d in
  (plain_name (run_id +:+ "_raw.json") = true ->
     ((exists payload, out.2 = inr payload) <->
        files d !! "runs" = None /\ log_path run_id ∉ dirs d)) /\
  (forall dir rest,
     run_id = dir +:+ "/" +:+ rest -> plain_name dir = true ->
     "runs/" +:+ dir ∉ dirs d ->
     exists exc, out.2 = inl exc) /\
  (forall exc, out.2 = inl exc -> files out.1 = files d /\ stdout out.1 = stdout d) /\
  (is_Some (files d !! "runs") -> out.1 = d).
Proof using Type.
  cbv zeta. split; [|split; [|split]].
  - intros Hplain. rewrite (save_raw_failure_log_plain _ _ _ _ _ Hplain). cbv zeta.
    destruct (files d !! "runs") as [x|]; simpl.
    { split; [intros [p Hp]; discriminate | intros [H _]; discriminate]. }
    destruct (bool_decide (log_path run_id ∈ dirs d)) eqn:Hin; simpl.
    + apply bool_decide_eq_true in Hin.
      split; [intros [p Hp]; discriminate | intros [_ H]; contradiction].
    + apply bool_decide_eq_false in Hin. split; [auto | eauto].
  - intros dir rest -> Hdir Hnot.
    unfold save_raw_failure_log, makedirs, write_json.
    destruct (files d !! "runs") as [x|]; [simpl; eauto|].
    set (made := {| cwd := cwd d; dirs := {["runs"]} ∪ dirs d; files := files d;
                    stdout := stdout d |}).
    assert (Hpath : log_path (dir +:+ "/" +:+ rest)
                    = "runs" +:+ "/" +:+ dir +:+ "/" +:+ (rest +:+ "_raw.json")).
    { unfold log_path. simpl. now rewrite !append_assoc. }
    destruct (open_w_missing_directory dir (rest +:+ "_raw.json") made Hdir)
      as [exc Hexc].
    + apply elem_of_union_l, elem_of_singleton. reflexivity.
    + intros H. apply elem_of_union in H as [H|H]; [|contradiction].
      apply elem_of_singleton in H. discriminate.
    + rewrite Hpath, Hexc. simpl. eauto.
  - intros exc. unfold save_raw_failure_log, makedirs, write_json.
    destruct (files d !! "runs") as [x|]; [simpl; auto|].
    destruct (open_w _ _); simpl; [auto | discriminate].
  - intros [x Hx]. unfold save_raw_failure_log, makedirs. now rewrite Hx.
Qed.

End LogShape.

(** ** The rule-based diagnosis, continued *)

Section MockDiagnosisShape.

Import Logger.
Import Llm.

Lemma text_not_empty (first : string) (rest : list string) :
  first <> "" -> text (first :: rest) <> "".
Proof.
  unfold text, join. destruct first as [|c first]; [congruence|].
  intros _. destruct rest; simpl; discriminate.
Qed.

(** X8. The rule-based diagnosis: its category is "Success" exactly
    for a log whose status is "passed", and then the diagnosis is the
    fixed one with no steps; for every other log the category is one of
    "Product Bug", "Environment Issue" and "Automation Flaw", the
    suggested fix is not empty, and the reproduction steps are never
    empty: one curl command per recorded request, or the single
    instruction to run the suite when the log records none. *)
Theorem mock_diagnosis_shape (log : FailureLog) :
  let d := generate_mock_diagnosis log in
  (FailureCategory d = "Success" <-> log_status log = Some "passed") /\
  (log_status log = Some "passed" -> d = success_diagnosis) /\
  (log_status log <> Some "passed" ->
     In (FailureCategory d) ["Product Bug"; "Environment Issue"; "Automation Flaw"] /\
     SuggestedFix d <> "" /\
     ReproductionSteps d <> [] /\
     match default [] (log_request_history log) with
     | [] => ReproductionSteps d = ["Run the test suite against the API"]
     | requests => ReproductionSteps d = map curl requests
     end).
Proof.
  simpl. unfold generate_mock_diagnosis.
  destruct (String.eqb_spec (default "unknown" (log_status log)) "passed") as [E|E].
  - assert (Hp : log_status log = Some "passed").
    { destruct (log_status log); simpl in E; [now subst | discriminate]. }
    split; [tauto|]. split; [reflexivity|]. intros H. contradiction.
  - assert (Hp : log_status log <> Some "passed").
    { intros H. rewrite H in E. now apply E. }
    simpl. split; [|split; [intros H; contradiction|]].
    { split; [|intros H; contradiction].
      destruct (classify _); simpl; discriminate. }
    intros _. split; [destruct (classify _); simpl; auto|].
    split.
    { destruct (classify _); simpl; try discriminate;
        apply text_not_empty; discriminate. }
    destruct (default [] (log_request_history log)) as [|r rs]; simpl.
    + split; [discriminate | reflexivity].
    + split; [discriminate | reflexivity].
Qed.

End MockDiagnosisShape.

(** ** The vector store and ingestion *)

Section VectorStoreFacts.

Import Logger.
Import Llm.
Import Rag.

Variable REDISVL_AVAILABLE : bool.
Variable REDIS_URL : option string.
Variable from_url : string -> option Exn.
Variable client_set : string -> string -> option Exn.
Variable json_dumps : FailureLog -> string.
Variable code_items : list (string * string).
Variable doc_items : list (string * string).

Local Abbreviation VectorDBClient_init :=
  (Rag.VectorDBClient_init REDISVL_AVAILABLE REDIS_URL from_url).
Local Abbreviation upsert_items := (Rag.upsert_items client_set).
Local Abbreviation upsert_embeddings := (Rag.upsert_embeddings client_set).
Local Abbreviation ingest_code_and_docs :=
  (Rag.ingest_code_and_docs client_set code_items doc_items).
Local Abbreviation run_rag_diagnosis :=
  (Rag.run_rag_diagnosis REDISVL_AVAILABLE REDIS_URL from_url client_set json_dumps
     code_items doc_items).
Local Abbreviation written := (Writes.written client_set).

Lemma init_has_client (url : option string) :
  has_client (VectorDBClient_init url) = enabled (VectorDBClient_init url).
Proof.
  unfold Rag.VectorDBClient_init.
  destruct (or_opt url REDIS_URL) as [address|]; [|reflexivity].
  destruct REDISVL_AVAILABLE; [|reflexivity].
  destruct (from_url address); reflexivity.
Qed.

(** X9. The wrapper is built enabled exactly when the Redis libraries
    are present, a URL is known (the argument when it is a non-empty
    string, [REDIS_URL] otherwise) and [redis.from_url] accepts it; it
    has a client exactly when it is enabled. *)
Theorem vdb_enabled_iff (url : option string) :
  let v := VectorDBClient_init url in
  (enabled v = true <->
     REDISVL_AVAILABLE = true /\
     exists address, or_opt url REDIS_URL = Some address /\ from_url address = None) /\
  has_client v = enabled v /\
  vdb_url v = or_opt url REDIS_URL /\
  (truthy_opt url = true -> vdb_url v = url) /\
  (truthy_opt url = false -> vdb_url v = REDIS_URL).
Proof.
  simpl. unfold Rag.VectorDBClient_init.
  assert (Hurl : (truthy_opt url = true -> or_opt url REDIS_URL = url) /\
                 (truthy_opt url = false -> or_opt url REDIS_URL = REDIS_URL)).
  { unfold or_opt. destruct (truthy_opt url); split; congruence. }
  destruct Hurl as [Hyes Hno].
  destruct (or_opt url REDIS_URL) as [address|] eqn:Hu.
  - destruct REDISVL_AVAILABLE.
    + destruct (from_url address) as [exc|] eqn:Hf; simpl.
      * repeat split; auto; try discriminate.
        intros (_ & a & [= <-] & Ha). congruence.
      * repeat split; eauto.
    + simpl. repeat split; auto; try discriminate. intros [H _]. discriminate.
  - simpl. repeat split; auto; try discriminate.
    intros (_ & a & Ha & _). discriminate.
Qed.

Lemma upsert_items_none (index : string) (items : list (string * string)) :
  upsert_items index items = None <-> Forall (written index) items.
Proof.
  induction items as [|[item_id body] items IH]; simpl.
  - split; [constructor | reflexivity].
  - destruct (client_set (index +:+ ":" +:+ item_id) body) as [exc|] eqn:E.
    + split; [discriminate|]. intros H. inversion H as [|x l Hx Hl]; subst.
      unfold Writes.written in Hx. simpl in Hx. congruence.
    + rewrite IH. split.
      * intros H. constructor; [exact E | exact H].
      * intros H. now inversion H.
Qed.


Lemma diagnosis_returns (raw_log : FailureLog) (commit_hash : string) :
  (exists diagnosis, (run_rag_diagnosis raw_log commit_hash).2 = inr diagnosis) <->
  log_status raw_log = Some "passed" \/
  enabled (VectorDBClient_init None) = false \/
  (Forall (written (index_name "code_index" commit_hash)) code_items /\
   Forall (written (index_name "doc_index" commit_hash)) doc_items).
Proof.
  unfold Rag.run_rag_diagnosis.
  destruct (bool_decide (log_status raw_log = Some "passed")) eqn:Hp.
  { apply bool_decide_eq_true in Hp. split; [auto | eauto]. }
  apply bool_decide_eq_false in Hp.
  pose proof (init_has_client None) as Hclient.
  destruct (enabled (VectorDBClient_init None)) eqn:He.
  2:{ simpl. split; [auto | eauto]. }
  unfold Rag.ingest_code_and_docs, Rag.upsert_embeddings. rewrite He, Hclient.
  cbn [negb orb].
  destruct (Rag.upsert_items client_set (index_name "code_index" commit_hash) code_items)
    as [exc|] eqn:Hc.
  { cbn. split; [intros [x Hx]; discriminate|].
    intros [H|[H|[H _]]]; [contradiction | discriminate |].
    apply upsert_items_none in H. congruence. }
  destruct (Rag.upsert_items client_set (index_name "doc_index" commit_hash) doc_items)
    as [exc|] eqn:Hd.
  { cbn. split; [intros [x Hx]; discriminate|].
    intros [H|[H|[_ H]]]; [contradiction | discriminate |].
    apply upsert_items_none in H. congruence. }
  destruct (Rag.retrieve_context REDISVL_AVAILABLE json_dumps raw_log commit_hash
              (Some (VectorDBClient_init None)) None) as [context calls].
  cbn. split; [|eauto]. intros _. right. right.
  split; now apply upsert_items_none.
Qed.

(** X11. The diagnosis stage returns a diagnosis exactly when the log
    is a passed one, or the wrapper it builds is disabled, or every write
    of the ingestion succeeds; in the one remaining case, a failed log
    with an enabled wrapper and a write that raises, the exception leaves
    [run_rag_diagnosis].  For a passed log the diagnosis is the fixed
    "Success" one and the wrapper is not called. *)
Theorem run_rag_diagnosis_returns_iff (raw_log : FailureLog) (commit_hash : string) :
  let out := run_rag_diagnosis raw_log commit_hash in
  ((exists diagnosis, out.2 = inr diagnosis) <->
     log_status raw_log = Some "passed" \/
     enabled (VectorDBClient_init None) = false \/
     (Forall (written (index_name "code_index" commit_hash)) code_items /\
      Forall (written (index_name "doc_index" commit_hash)) doc_items)) /\
  ((forall diagnosis, out.2 <> inr diagnosis) <->
     log_status raw_log <> Some "passed" /\
     enabled (VectorDBClient_init None) = true /\
     exists exc, out = ([], inl exc)) /\
  (log_status raw_log = Some "passed" -> out = ([], inr success_diagnosis)).
Proof.
  cbv zeta. split; [apply diagnosis_returns|]. split.
  - pose proof (diagnosis_returns raw_log commit_hash) as Hiff.
    unfold Rag.run_rag_diagnosis in *.
    destruct (bool_decide (log_status raw_log = Some "passed")) eqn:Hp.
    { split; [intros H; now specialize (H success_diagnosis)|].
      apply bool_decide_eq_true in Hp. intros [H _]. contradiction. }
    apply bool_decide_eq_false in Hp.
    destruct (enabled (VectorDBClient_init None)) eqn:He.
    2:{ split; [intros H; exfalso; eapply H; reflexivity|].
        intros (_ & H & _). discriminate. }
    destruct (Rag.ingest_code_and_docs client_set code_items doc_items
                (VectorDBClient_init None) commit_hash) as [exc|].
    + split; [|intros _ diagnosis; discriminate].
      intros _. split; [exact Hp|]. split; [reflexivity | eauto].
    + destruct (Rag.retrieve_context REDISVL_AVAILABLE json_dumps raw_log commit_hash
                  (Some (VectorDBClient_init None)) None) as [context calls].
      split; [intros H; exfalso; eapply H; reflexivity|].
      intros (_ & _ & exc & H). discriminate.
  - intros Hp. unfold Rag.run_rag_diagnosis.
    now rewrite bool_decide_eq_true_2 by exact Hp.
Qed.

Lemma append_inj_l (a b c : string) : a +:+ b = a +:+ c -> b = c.
Proof. induction a as [|x a IH]; simpl; [auto|]. intros [= H]. auto. Qed.

(** X12. Index names keep commits apart: under one base name, two
    commits have the same index name only when they are the same commit;
    and the code index of a commit is never the docs index of a commit. *)
Theorem index_names_keep_commits_apart (base commit1 commit2 : string) :
  (index_name base commit1 = index_name base commit2 <-> commit1 = commit2) /\
  index_name "code_index" commit1 <> index_name "doc_index" commit2.
Proof.
  unfold index_name. split.
  - split; [|now intros ->].
    intros H. apply append_inj_l in H. now apply (append_inj_l ":") in H.
  - simpl. discriminate.
Qed.

End VectorStoreFacts.

(** ** Tokenization, continued *)

Section TokenizeShape.

Import Skyflow.
Import Replies.

Lemma enabled_client_has_credentials (getenv : string -> option string)
    (vault token url : option string) (seconds : option Z) (flag : option bool) :
  let self := SkyflowClient_init getenv vault token url seconds flag in
  enabled self = true ->
  truthy_opt (vault_id self) = true /\ truthy_opt (api_token self) = true.
Proof.
  simpl. unfold configured.
  destruct flag as [[|]|]; simpl;
    destruct (truthy_opt (or_opt vault _)), (truthy_opt (or_opt token _)); simpl;
    intros H; try discriminate; split; reflexivity.
Qed.


Lemma tokenized_fields_absent (data record : json) :
  names_no_fields data -> tokenized_fields data record = inr record.
Proof.
  intros (reply & -> & [Hnone | (first & rest & Hrec & Hf)]);
    unfold tokenized_fields; simpl.
  - rewrite Hnone. reflexivity.
  - rewrite Hrec. simpl. destruct Hf as [Hf | (v & Hf & Hv)]; rewrite Hf; simpl.
    + reflexivity.
    + now rewrite Hv.
Qed.

(** X14. [enabled = True] in the result does not say that the record
    was tokenized.  When the vault answers 2xx with a JSON object that
    has no [records], or whose first record has no fields or empty
    ones, the result is marked enabled and its [tokenized] value is the
    original record, unchanged. *)
Theorem enabled_reply_without_fields (httpx_post : PostCall -> Exn + Reply)
    (self : SkyflowClient) (record : json) (reply : Reply) (data : json) :
  enabled self = true ->
  httpx_post (tokenize_call self record) = inr reply ->
  (reply_status_code reply / 100)%Z = 2%Z ->
  reply_json reply = Some data ->
  names_no_fields data ->
  tokenize_record httpx_post self record =
    ([tokenize_call self record],
     inr {| was_enabled := true; original := record; tokenized := record |}).
Proof.
  intros He Hpost Hs Hj Hnone.
  unfold tokenize_record, try_tokenize. rewrite He, Hpost. simpl.
  rewrite Hs, Hj. simpl. rewrite (tokenized_fields_absent _ _ Hnone). reflexivity.
Qed.

Lemma truthy_opt_some (o : option string) :
  truthy_opt o = true -> exists s, o = Some s /\ s <> "".
Proof.
  destruct o as [[|c s]|]; simpl; try discriminate. intros _.
  exists (String c s). split; [reflexivity | discriminate].
Qed.

(** X15. A client built by the constructor never posts without
    credentials: [tokenize_record] makes no post, or exactly one, and
    then the vault identifier in the URL and the token in the
    [Authorization] header are non-empty strings, and the body wraps the
    record as the single entry of [records]. *)
Theorem posts_carry_credentials (httpx_post : PostCall -> Exn + Reply)
    (getenv : string -> option string) (vault token url : option string)
    (seconds : option Z) (flag : option bool) (record : json) :
  let self := SkyflowClient_init getenv vault token url seconds flag in
  let out := tokenize_record httpx_post self record in
  out.1 = [] \/
  exists v t,
    v <> "" /\ t <> "" /\
    out.1 =
      [ {| post_url := base_url self +:+ "/vaults/" +:+ v +:+ "/tokenize";
           post_headers := [ ("Authorization", "Bearer " +:+ t);
                             ("Content-Type", "application/json") ];
           post_json := JObj [("records", JArr [JObj [("fields", record)]])];
           post_timeout := timeout self |} ].
Proof.
  intros self out.
  destruct (enabled self) eqn:He.
  2:{ left. unfold out, tokenize_record. now rewrite He. }
  right.
  destruct (enabled_client_has_credentials getenv vault token url seconds flag He)
    as (Hv & Ht).
  simpl in Hv, Ht.
  apply truthy_opt_some in Hv as (v & Hv & Hvne).
  apply truthy_opt_some in Ht as (t & Ht & Htne).
  exists v, t. split; [exact Hvne|]. split; [exact Htne|].
  assert (Hcalls : out.1 = [tokenize_call self record]).
  { unfold out, tokenize_record, try_tokenize. rewrite He. simpl.
    destruct (httpx_post (tokenize_call self record)) as [exc|reply]; [reflexivity|].
    destruct (negb _); [reflexivity|].
    destruct (reply_json reply) as [data|]; [|reflexivity].
    destruct (tokenized_fields data record); reflexivity. }
  rewrite Hcalls. unfold tokenize_call, tokenize_endpoint, headers, show.
  change (vault_id self) with (or_opt vault (getenv "SKYFLOW_VAULT_ID")).
  change (api_token self) with (or_opt token (getenv "SKYFLOW_API_TOKEN")).
  rewrite Hv, Ht. reflexivity.
Qed.

End TokenizeShape.

Section TokenizeShapeScenarios.

Import Skyflow.
Import Scenarios.
Import MoreScenarios.

(** The vault answers 200 with an empty object. *)
Lemma enabled_reply_without_fields_witness :
  (tokenize_record silent_vault
     (SkyflowClient_init vault_env None None None None None) patient).2
  = inr {| was_enabled := true; original := patient; tokenized := patient |}.
Proof.
  rewrite (enabled_reply_without_fields silent_vault
             (SkyflowClient_init vault_env None None None None None) patient
             {| reply_status_code := 200; reply_text := "{}"; reply_json := Some (JObj []) |}
             (JObj [])).
  - reflexivity.
  - reflexivity.
  - reflexivity.
  - reflexivity.
  - reflexivity.
  - exists []. split; [reflexivity|]. left. reflexivity.
Defined.

End TokenizeShapeScenarios.

(** ** The key-value store, continued *)

Section StoreLaws.

Import Redis.

Variable Backend : Type.
Variable backend_connect : string -> Backend -> Backend * option Exn.
Variable backend_set : string -> string -> Backend -> Backend * option Exn.
Variable backend_get : string -> Backend -> Backend * (Exn + option string).
Variable backend_keys : string -> Backend -> Backend * (Exn + list string).
Variable json_dumps : json -> string.
Variable json_loads : string -> option json.

Local Abbreviation State := (Redis.State Backend).
Local Abbreviation init := (Redis.VerifyPulseRedis_init Backend backend_connect).
Local Abbreviation set := (Redis.set Backend backend_set).
Local Abbreviation get := (Redis.get Backend backend_get).
Local Abbreviation keys := (Redis.keys Backend backend_keys).
Local Abbreviation store_requirement := (Redis.store_requirement Backend backend_set).
Local Abbreviation get_requirement := (Redis.get_requirement Backend backend_get).
Local Abbreviation save_run_result := (Redis.save_run_result Backend backend_set json_dumps).
Local Abbreviation collect := (Redis.collect Backend backend_get json_loads).
Local Abbreviation list_run_history :=
  (Redis.list_run_history Backend backend_get backend_keys json_loads).
Local Abbreviation exec :=
  (Redis.exec Backend backend_set backend_get backend_keys json_dumps json_loads).
Local Abbreviation exec_all :=
  (Redis.exec_all Backend backend_set backend_get backend_keys json_dumps json_loads).
Local Abbreviation remembered := (Redis.remembered Backend).
Local Abbreviation parsed := (Redis.parsed json_loads).

Ltac unfold_store :=
  unfold Redis.set, Redis.get, Redis.keys, Redis.store_requirement,
    Redis.get_requirement, Redis.save_run_result, try_except, bind, read_self,
    store_put, store_get, store_keys, client_set, client_get, client_keys,
    fall_back, ret.

(** X16. In memory mode the store obeys the laws of a dictionary: a
    value set under a key is the value read under that key, by [get] and
    by [get_requirement] alike; the values under the other keys are as
    before; a second [set] under the key replaces the first; and reading
    changes nothing. *)
Theorem memory_store_laws (s : State) (key value later other : string) :
  use_memory (self s) = true ->
  let s1 := (set key value s).1 in
  (get key s1).2 = inr (Some value) /\
  (get_requirement key (store_requirement key value s).1).2 = inr (Some value) /\
  (other <> key -> (get other s1).2 = (get other s).2) /\
  (get key (set key later s1).1).2 = inr (Some later) /\
  (get other s1).1 = s1.
Proof.
  intros Hm s1.
  assert (Hs1 : s1 = remembered key value s).
  { unfold s1. now rewrite (set_memory Backend backend_set key value s Hm). }
  assert (Hm1 : use_memory (self s1) = true) by now rewrite Hs1.
  assert (Hget : forall k, get k s1 = (s1, inr (<[key := value]> (store (self s)) !! k))).
  { intros k. rewrite (get_memory Backend backend_get k s1 Hm1). now rewrite Hs1. }
  split; [rewrite Hget; simpl; now rewrite lookup_insert_eq|].
  split.
  { change (Redis.store_requirement Backend backend_set key value s) with (set key value s).
    change (Redis.get_requirement Backend backend_get key (set key value s).1)
      with (get key s1).
    rewrite Hget. simpl. now rewrite lookup_insert_eq. }
  split.
  { intros Hne. rewrite Hget, (get_memory Backend backend_get other s Hm). simpl.
    now rewrite lookup_insert_ne by congruence. }
  split; [|now rewrite Hget].
  rewrite (set_memory Backend backend_set key later s1 Hm1). cbn [fst].
  rewrite (get_memory Backend backend_get key (remembered key later s1) eq_refl).
  simpl. now rewrite lookup_insert_eq.
Qed.

Lemma NoDup_list_filter {A} (f : A -> bool) (l : list A) :
  NoDup l -> NoDup (List.filter f l).
Proof using Type.
  induction 1 as [|x l Hx Hl IH]; simpl; [constructor|].
  destruct (f x); [|exact IH]. constructor; [|exact IH].
  intros Hin. apply Hx. apply list_elem_of_In. apply list_elem_of_In in Hin.
  apply filter_In in Hin. tauto.
Qed.

Lemma stored_keys (m : gmap string string) (k : string) :
  k ∈ (map_to_list m).*1 <-> is_Some (m !! k).
Proof using Type.
  rewrite list_elem_of_fmap. split.
  - intros ([k' v] & -> & Hin). apply elem_of_map_to_list in Hin. simpl. eauto.
  - intros [v Hv]. exists (k, v). split; [reflexivity|]. now apply elem_of_map_to_list.
Qed.

(** X17. In memory mode [keys(pattern)] reads the dictionary and
    leaves the instance as it is.  It lists every stored key once; for
    the pattern [*] all of them, for a pattern that ends in a star those
    that start with what precedes the star, and for any other pattern
    those that contain the pattern as a substring. *)
Theorem memory_keys_match (s : State) (pattern k : string) :
  use_memory (self s) = true ->
  exists ks,
    keys pattern s = (s, inr ks) /\
    NoDup ks /\
    (k ∈ ks <->
       is_Some (store (self s) !! k) /\
       if String.eqb pattern "*" then True
       else if endswith_char "*"%char pattern
            then startswith (drop_last pattern) k = true
            else contains pattern k = true).
Proof using Backend backend_keys.
  clear backend_connect backend_set backend_get json_dumps json_loads.
  intros Hm. eexists. split; [apply keys_memory; exact Hm|].
  unfold match_keys.
  pose proof (NoDup_fst_map_to_list (store (self s))) as Hnd.
  destruct (String.eqb pattern "*").
  - split; [exact Hnd|]. rewrite stored_keys. tauto.
  - destruct (endswith_char "*" pattern).
    + split; [now apply NoDup_list_filter|].
      rewrite list_elem_of_In, filter_In, <- list_elem_of_In, stored_keys. tauto.
    + split; [now apply NoDup_list_filter|].
      rewrite list_elem_of_In, filter_In, <- list_elem_of_In, stored_keys. tauto.
Qed.

(** X18. In memory mode the history is read off the dictionary and
    the instance is left as it is: a value is part of the history exactly
    when some key that starts with [run:] holds a non-empty text that
    parses to it.  Entries that do not parse, empty entries and entries
    under other keys are left out, and do not stand in the way of the
    others. *)
Theorem history_is_the_parsed_runs (s : State) (v : json) :
  use_memory (self s) = true ->
  (list_run_history s).1 = s /\
  (v ∈ (list_run_history s).2 <->
     exists key body,
       startswith "run:" key = true /\
       store (self s) !! key = Some body /\
       body <> "" /\ json_loads body = Some v).
Proof.
  intros Hm. rewrite list_run_history_memory by exact Hm. simpl.
  split; [reflexivity|]. rewrite list_elem_of_omap. split.
  - intros (key & Hin & Hp). apply list_elem_of_In, filter_In in Hin as [Hin Hpre].
    apply list_elem_of_In, stored_keys in Hin as [body Hbody].
    exists key, body. rewrite Hbody in Hp. simpl in Hp.
    destruct body as [|c body]; simpl in Hp; [discriminate|].
    repeat split; auto.
  - intros (key & body & Hpre & Hbody & Hne & Hv). exists key. split.
    + apply list_elem_of_In, filter_In. split; [|exact Hpre].
      apply list_elem_of_In, stored_keys. eauto.
    + rewrite Hbody. simpl. destruct body; [congruence | exact Hv].
Qed.

(** X19. In memory mode a run saved again under the same identifier
    replaces the one saved before: the instance is as if only the last
    save had happened, and the text read back is the one of the last
    payload. *)
Theorem save_run_result_last_wins (s : State) (run_id : string) (first second : json) :
  use_memory (self s) = true ->
  let s1 := (save_run_result run_id first s).1 in
  (save_run_result run_id second s1).1 = (save_run_result run_id second s).1 /\
  (get ("run:" +:+ run_id) (save_run_result run_id second s1).1).2
    = inr (Some (json_dumps second)).
Proof.
  intros Hm s1.
  assert (Hs1 : s1 = remembered ("run:" +:+ run_id) (json_dumps first) s).
  { unfold s1.
    now rewrite (save_run_result_memory Backend backend_set json_dumps run_id first s Hm). }
  assert (Hm1 : use_memory (self s1) = true) by now rewrite Hs1.
  rewrite (save_run_result_memory Backend backend_set json_dumps run_id second s1 Hm1).
  rewrite (save_run_result_memory Backend backend_set json_dumps run_id second s Hm).
  cbn [fst]. split.
  - rewrite Hs1. unfold Redis.remembered. simpl. now rewrite insert_insert_eq.
  - rewrite (get_memory Backend backend_get ("run:" +:+ run_id)
               (remembered ("run:" +:+ run_id) (json_dumps second) s1) eq_refl).
    simpl. now rewrite lookup_insert_eq.
Qed.

(** *** What the operations never change *)

Lemma get_keeps_client (key : string) (s : State) :
  has_client (self (get key s).1) = has_client (self s).
Proof.
  unfold_store. simpl. destruct (use_memory (self s)); [reflexivity|].
  destruct (has_client (self s)) eqn:Hc; [|simpl; now rewrite Hc].
  destruct (backend_get key (backend s)) as [b [exc|r]]; simpl; now rewrite Hc.
Qed.

Lemma set_keeps_client (key value : string) (s : State) :
  has_client (self (set key value s).1) = has_client (self s).
Proof.
  unfold_store. simpl. destruct (use_memory (self s)); [reflexivity|].
  destruct (has_client (self s)) eqn:Hc; [|simpl; now rewrite Hc].
  destruct (backend_set key value (backend s)) as [b [exc|]]; simpl; now rewrite Hc.
Qed.

Lemma keys_keeps_client (pattern : string) (s : State) :
  has_client (self (keys pattern s).1) = has_client (self s).
Proof.
  unfold_store. simpl. destruct (use_memory (self s)); [reflexivity|].
  destruct (has_client (self s)) eqn:Hc; [|simpl; now rewrite Hc].
  destruct (backend_keys pattern (backend s)) as [b [exc|r]]; simpl; now rewrite Hc.
Qed.

Lemma collect_keeps_client (ks : list string) :
  forall results (s : State),
    has_client (self (collect ks results s).1) = has_client (self s).
Proof.
  induction ks as [|key ks IH]; intros results s; simpl; [reflexivity|].
  pose proof (get_keeps_client key s) as Hg.
  destruct (Redis.get Backend backend_get key s) as [s1 [exc|raw]]; simpl in *;
    [exact Hg|].
  destruct raw as [body|]; [|now rewrite IH].
  destruct (truthy_str body); [|now rewrite IH].
  destruct (json_loads body); now rewrite IH.
Qed.

Lemma exec_keeps_client (op : Op) (s : State) :
  has_client (self (exec op s)) = has_client (self s).
Proof.
  destruct op; simpl.
  - apply set_keeps_client.
  - apply get_keeps_client.
  - apply keys_keeps_client.
  - apply set_keeps_client.
  - apply get_keeps_client.
  - unfold Redis.save_run_result, try_except.
    pose proof (set_keeps_client ("run:" +:+ run_id) (json_dumps payload) s) as Hs.
    pose proof (set_returns Backend backend_set ("run:" +:+ run_id) (json_dumps payload) s)
      as Hr.
    destruct (Redis.set Backend backend_set _ _ s) as [s1 [exc|u]]; simpl in *;
      [discriminate | exact Hs].
  - unfold Redis.list_run_history.
    pose proof (keys_keeps_client "run:*" s) as Hk.
    destruct (Redis.keys Backend backend_keys "run:*" s) as [s1 [exc|ks]]; simpl in *;
      [exact Hk|].
    now rewrite collect_keeps_client.
Qed.

(** Every instance the constructor builds, after any operations, is in
    memory mode or has a client. *)
Lemma reachable_modes (url : option string) (load_config : Exn + string) (b : Backend)
    (ops : list Op) :
  let s := exec_all ops (init url load_config b) in
  use_memory (self s) = true \/ has_client (self s) = true.
Proof.
  simpl.
  assert (Hinit : use_memory (self (init url load_config b)) = true \/
                  has_client (self (init url load_config b)) = true).
  { unfold Redis.VerifyPulseRedis_init.
    destruct (negb _ || negb _); [now left|].
    destruct (backend_connect _ b) as [b1 [exc|]]; simpl; auto. }
  revert Hinit. generalize (init url load_config b).
  induction ops as [|op ops IH]; intros s Hs; [exact Hs|].
  unfold Redis.exec_all. simpl. apply IH. destruct Hs as [Hm|Hc].
  - left. now apply (exec_memory Backend backend_set backend_get backend_keys
                       json_dumps json_loads op s).
  - right. now rewrite exec_keeps_client.
Qed.

(** X20. No [set] is dropped.  An instance built by the constructor,
    after any sequence of public operations, is in memory mode or has a
    client, so a [set] on it either ends in memory mode with the value
    in the dictionary, or leaves the instance in server mode after the
    server has taken the write without raising. *)
Theorem set_is_never_dropped (url : option string) (load_config : Exn + string)
    (b : Backend) (ops : list Op) (key value : string) :
  let s := exec_all ops (init url load_config b) in
  let s1 := (set key value s).1 in
  (use_memory (self s1) = true /\ store (self s1) !! key = Some value) \/
  (use_memory (self s1) = false /\
   backend_set key value (backend s) = (backend s1, None)).
Proof.
  intros s s1. pose proof (reachable_modes url load_config b ops) as Hmodes.
  cbv zeta in Hmodes. fold s in Hmodes. unfold s1. clearbody s. clear s1.
  destruct (use_memory (self s)) eqn:Hm.
  - left. rewrite (set_memory Backend backend_set key value s Hm). simpl.
    split; [reflexivity | apply lookup_insert_eq].
  - destruct Hmodes as [H|Hc]; [congruence|].
    unfold_store. simpl. rewrite Hm, Hc.
    destruct (backend_set key value (backend s)) as [b1 [exc|]] eqn:Hset; simpl.
    + left. split; [reflexivity | apply lookup_insert_eq].
    + right. split; [exact Hm | reflexivity].
Qed.

(** X21. What the server accepted is not in the dictionary.  In
    server mode a [set] that the server takes leaves the dictionary as it
    was; when the server raises on the [get] that follows, the instance
    falls back to memory and the [get] returns what the dictionary
    holds under the key, not the value just set. *)
Theorem server_values_are_lost_on_fallback (s : State) (key value : string)
    (b1 b2 : Backend) (exc : Exn) :
  use_memory (self s) = false ->
  has_client (self s) = true ->
  backend_set key value (backend s) = (b1, None) ->
  backend_get key b1 = (b2, inl exc) ->
  let s1 := (set key value s).1 in
  store (self s1) = store (self s) /\
  use_memory (self s1) = false /\
  (get key s1).2 = inr (store (self s) !! key) /\
  use_memory (self (get key s1).1) = true.
Proof.
  intros Hm Hc Hset Hget s1.
  assert (Hs1 : s1 = {| self := self s; backend := b1 |}).
  { unfold s1. unfold_store. simpl. now rewrite Hm, Hc, Hset. }
  rewrite Hs1. split; [reflexivity|]. split; [exact Hm|].
  assert (Hg : get key {| self := self s; backend := b1 |} =
               ({| self := {| use_memory := true; store := store (self s);
                              has_client := has_client (self s) |};
                   backend := b2 |}, inr (store (self s) !! key))).
  { unfold_store. simpl. rewrite Hm, Hc. simpl. rewrite Hget. simpl.
    rewrite Hc. reflexivity. }
  rewrite Hg. split; reflexivity.
Qed.

(** X22. An empty string is read differently in the two modes: in
    memory mode a key set to the empty string reads back as the empty
    string, while in server mode an empty string answered by the server
    is returned as [None], as if the key were absent. *)
Theorem empty_value_reads_differ (s : State) (key : string) :
  (use_memory (self s) = true ->
     (get key (set key "" s).1).2 = inr (Some "")) /\
  (forall b, use_memory (self s) = false -> has_client (self s) = true ->
     backend_get key (backend s) = (b, inr (Some "")) ->
     (get key s).2 = inr None).
Proof.
  split.
  - intros Hm. rewrite (set_memory Backend backend_set key "" s Hm). cbn [fst].
    rewrite (get_memory Backend backend_get key (remembered key "" s) eq_refl).
    simpl. now rewrite lookup_insert_eq.
  - intros b Hm Hc Hget. unfold_store. simpl. now rewrite Hm, Hc, Hget.
Qed.

End StoreLaws.

Section StoreLawsScenarios.

Import Redis.
Import Scenarios.
Import MoreScenarios.

(** The store built without a URL. *)
Lemma memory_store_laws_witness :
  (get Server server_get "a" (set Server server_set "a" "1" memory_store).1).2
    = inr (Some "1") /\
  (get Server server_get "b" (set Server server_set "a" "1" memory_store).1).2
    = inr None.
Proof.
  destruct (memory_store_laws Server server_set server_get memory_store "a" "1" "2" "b")
    as (Hsame & _ & Hother & _); [reflexivity|].
  split; [exact Hsame|]. rewrite Hother by discriminate. reflexivity.
Defined.

Lemma memory_keys_match_witness :
  exists ks,
    keys Server server_keys "requirement:*" two_requirements = (two_requirements, inr ks) /\
    "requirement:1" ∈ ks /\ ~ "run:7" ∈ ks.
Proof.
  destruct (memory_keys_match Server server_keys two_requirements "requirement:*"
              "requirement:1") as (ks & Hk & _ & Hin); [reflexivity|].
  destruct (memory_keys_match Server server_keys two_requirements "requirement:*"
              "run:7") as (ks' & Hk' & _ & Hout); [reflexivity|].
  assert (ks' = ks) by congruence. subst ks'.
  exists ks. split; [exact Hk|]. split.
  - apply Hin. split; [|reflexivity]. vm_compute. eauto.
  - intros H. apply Hout in H as [_ H]. simpl in H. discriminate.
Defined.

(** A store that holds a run, a text that does not parse and a
    requirement. *)
Lemma history_is_the_parsed_runs_witness :
  run_payload ∈ (list_run_history Server server_get server_keys loads_run mixed_store).2 /\
  ~ JNull ∈ (list_run_history Server server_get server_keys loads_run mixed_store).2.
Proof.
  split.
  - apply (history_is_the_parsed_runs Server server_get server_keys loads_run
             mixed_store run_payload); [reflexivity|].
    exists "run:c-1", (dumps_run run_payload).
    split; [reflexivity|]. split; [vm_compute; reflexivity|].
    split; [discriminate | reflexivity].
  - intros H.
    apply (history_is_the_parsed_runs Server server_get server_keys loads_run
             mixed_store JNull) in H as (key & body & _ & _ & _ & Hload);
      [|reflexivity].
    unfold loads_run in Hload. destruct (String.eqb body _); discriminate.
Defined.

Lemma save_run_result_last_wins_witness :
  (get Server server_get "run:c-1"
     (save_run_result Server server_set dumps_run "c-1" run_payload
        (save_run_result Server server_set dumps_run "c-1" JNull memory_store).1).1).2
  = inr (Some (dumps_run run_payload)).
Proof.
  apply (save_run_result_last_wins Server server_set server_get dumps_run
           memory_store "c-1" JNull run_payload).
  reflexivity.
Defined.

(** The server takes one write and then drops the connection. *)
Lemma server_values_are_lost_on_fallback_witness :
  let s1 := (set Server server_set "requirement:1" "login" flaky_store).1 in
  use_memory (self s1) = false /\
  (get Server server_get "requirement:1" s1).2 = inr None.
Proof.
  destruct (server_values_are_lost_on_fallback Server server_set server_get flaky_store
              "requirement:1" "login"
              {| budget := 0; data := <["requirement:1" := "login"]> ∅ |}
              {| budget := 0; data := <["requirement:1" := "login"]> ∅ |}
              ConnectionError)
    as (_ & Hm & Hget & _); try reflexivity.
  split; [exact Hm | exact Hget].
Defined.

End StoreLawsScenarios.

(** ** The orchestrator *)

Section AgentFacts.

Import Runner.
Import Logger.
Import Llm.
Import Report.
Import Agent.

Variable World : Type.
Variable http : World -> HttpCall -> World * (Exn + Response).
Variable test_cases : list TestCase.
Variable REDISVL_AVAILABLE : bool.
Variable REDIS_URL : option string.
Variable from_url : string -> option Exn.
Variable client_set : string -> string -> option Exn.
Variable json_dumps : FailureLog -> string.
Variable code_items : list (string * string).
Variable doc_items : list (string * string).
Variable render : string -> Diagnosis -> option FailureLog -> string.
Variable absolute : string -> string.
Variable uuid4 : UUID.
Variable now : string.

Local Abbreviation run_native_tests := (Runner.run_native_tests World http).
Local Abbreviation AllPass := (Runner.AllPass World http).
Local Abbreviation run_rag_diagnosis :=
  (Rag.run_rag_diagnosis REDISVL_AVAILABLE REDIS_URL from_url client_set json_dumps
     code_items doc_items).
Local Abbreviation run_agent :=
  (Agent.run_agent World http test_cases REDISVL_AVAILABLE REDIS_URL from_url client_set
     json_dumps code_items doc_items render absolute uuid4 now).
Local Abbreviation run_id := (Agent.run_id uuid4).
Local Abbreviation main :=
  (Agent.main World http test_cases REDISVL_AVAILABLE REDIS_URL from_url client_set
     json_dumps code_items doc_items render absolute uuid4 now).

(** A run succeeds exactly when every case of the table passes. *)
Lemma run_success_iff (tests : list TestCase) (base : string) (w : World) :
  success (run_native_tests tests base w).2 = true <-> exists w', AllPass base w tests w'.
Proof using Type.
  split.
  - intros Hs.
    destruct (all_pass_or_first_failure World http base tests w)
      as [Hall | (i & pre & test & post & w1 & -> & Hlen & Hall & Hf)]; [exact Hall|].
    exfalso.
    destruct (run_stops_at World http base pre post test w w1 Hall)
      as (st1 & hs & new & Hw & _ & _ & _ & _ & _ & Hgo).
    rewrite <- Hw in Hf.
    destruct (run_case_fails World http base (length pre) test st1 Hf)
      as (st' & why & rec & Hcase & _).
    rewrite (Hgo _ _ Hcase) in Hs. simpl in Hs. discriminate.
  - intros (w' & Hall).
    destruct (run_loop_prefix World http base tests 0 (initial World w) w' Hall)
      as (st1 & hs & new & _ & _ & _ & _ & _ & _ & Hgo).
    unfold Runner.run_native_tests. specialize (Hgo []). rewrite app_nil_r in Hgo.
    rewrite Hgo. reflexivity.
Qed.

Lemma payload_status (test_result : TestRunResult) (commit_hash run_id timestamp : string) :
  log_status (build_payload test_result commit_hash run_id timestamp) = Some "passed"
  <-> success test_result = true.
Proof using Type.
  unfold build_payload. destruct (success test_result); simpl; split;
    try reflexivity; discriminate.
Qed.

(** The text of a UUID: 36 characters, none of them a slash or NUL. *)
Lemma hex_digit_is_plain (m : nat) :
  m < 16 ->
  Ascii.eqb (hex_digit m) "/" = false /\ Ascii.eqb (hex_digit m) (ascii_of_nat 0) = false.
Proof using Type.
  intros Hm. do 16 (destruct m as [|m]; [split; reflexivity|]). lia.
Qed.

Lemma hex_length (digits : nat) (n : N) : String.length (hex digits n) = digits.
Proof using Type.
  revert n. induction digits as [|k IH]; intros n; [reflexivity|].
  change (hex (S k) n)
    with (hex k (n / 16) +:+ String (hex_digit (N.to_nat (n mod 16))) EmptyString).
  rewrite append_length, IH. simpl. lia.
Qed.

Lemma hex_is_plain (digits : nat) (n : N) :
  has_char "/" (hex digits n) = false /\ has_char (ascii_of_nat 0) (hex digits n) = false.
Proof using Type.
  revert n. induction digits as [|k IH]; intros n; [split; reflexivity|].
  change (hex (S k) n)
    with (hex k (n / 16) +:+ String (hex_digit (N.to_nat (n mod 16))) EmptyString).
  rewrite !has_char_app. destruct (IH (n / 16)%N) as [-> ->].
  destruct (hex_digit_is_plain (N.to_nat (n mod 16))) as [Hs Hn].
  { pose proof (N.mod_upper_bound n 16). lia. }
  cbn [has_char orb]. rewrite Hs, Hn. split; reflexivity.
Qed.

Lemma str_uuid_is_plain (u : UUID) (suffix : string) :
  has_char "/" suffix = false -> has_char (ascii_of_nat 0) suffix = false ->
  String.length suffix <= 200 ->
  plain_name (str_uuid u +:+ suffix) = true.
Proof using Type.
  intros Hs Hn Hlen. apply long_name_is_plain.
  - unfold str_uuid. rewrite !has_char_app, Hs.
    rewrite !(proj1 (hex_is_plain _ _)). reflexivity.
  - unfold str_uuid. rewrite !has_char_app, Hn.
    rewrite !(proj2 (hex_is_plain _ _)). reflexivity.
  - unfold str_uuid. rewrite !append_length, !hex_length. unfold NAME_MAX. simpl. lia.
Qed.

Lemma run_id_names (u : UUID) :
  plain_name (Agent.run_id u +:+ "_raw.json") = true /\
  plain_name (Agent.run_id u +:+ "_diagnostic_report.html") = true.
Proof using Type.
  unfold Agent.run_id. split; apply str_uuid_is_plain; try reflexivity; simpl; lia.
Qed.

(** The path of a report whose file name is a plain one. *)
Lemma report_path_plain (run_id : string) :
  plain_name (run_id +:+ "_diagnostic_report.html") = true ->
  report_path run_id = "reports" +:+ "/" +:+ (run_id +:+ "_diagnostic_report.html").
Proof using Type.
  intros Hplain. unfold report_path, under_reports.
  set (name := run_id +:+ "_diagnostic_report.html") in *. clearbody name.
  apply plain_name_spec in Hplain as (Hs & _ & _ & H0 & H1 & _).
  assert (Hrel : String.prefix "/" name = false).
  { destruct name as [|c name]; [reflexivity|].
    destruct (String.prefix "/" (String c name)) eqn:E; [|reflexivity].
    apply prefix_correct in E. simpl in E. injection E as E.
    simpl in Hs. rewrite E in Hs. discriminate. }
  rewrite Hrel. unfold parts. rewrite (names_of_name name Hs).
  cbn [List.filter]. rewrite H0, H1. reflexivity.
Qed.

Lemma report_path_is_not_a_folder (u : UUID) :
  report_path (Agent.run_id u) <> "reports" /\ report_path (Agent.run_id u) <> "runs" /\
  log_path (Agent.run_id u) <> "reports" /\
  report_path (Agent.run_id u) <> log_path (Agent.run_id u).
Proof using Type.
  rewrite (report_path_plain _ (proj2 (run_id_names u))).
  unfold log_path. simpl. repeat split; discriminate.
Qed.

(** The call for a run identifier whose report has a plain file name. *)
Lemma generate_html_report_plain (run_id : string) (diagnosis : Diagnosis)
    (raw_log : option FailureLog) (d : Disk) :
  plain_name (run_id +:+ "_diagnostic_report.html") = true ->
  let made := {| cwd := cwd d; dirs := {["reports"]} ∪ dirs d; files := files d;
                 stdout := stdout d |} in
  generate_html_report render absolute run_id diagnosis raw_log d =
    match files d !! "reports" with
    | Some _ => (d, inl (FileExistsError "reports"))
    | None =>
        if bool_decide (report_path run_id ∈ dirs d)
        then (made, inl (IsADirectoryError (report_path run_id)))
        else ({| cwd := cwd d; dirs := {["reports"]} ∪ dirs d;
                 files := <[report_path run_id :=
                              OtherData (render run_id diagnosis raw_log)]> (files d);
                 stdout := stdout d ++ ["[HTML] Report generated: "
                                        +:+ report_path run_id] |},
              inr (absolute (report_path run_id)))
    end.
Proof using Type.
  intros Hplain made. unfold generate_html_report, makedirs, write_text.
  destruct (files d !! "reports"); [reflexivity|]. fold made.
  assert (Hmade : "reports" ∈ dirs made)
    by (apply elem_of_union_l, elem_of_singleton; reflexivity).
  rewrite (report_path_plain _ Hplain).
  rewrite (open_w_plain "reports" _ made eq_refl Hplain Hmade).
  set (p := "reports" +:+ "/" +:+ (run_id +:+ "_diagnostic_report.html")).
  assert (Hp : p <> "reports") by (unfold p; simpl; discriminate).
  clearbody p.
  destruct (bool_decide (p ∈ dirs d)) eqn:Hin.
  - apply bool_decide_eq_true in Hin.
    rewrite bool_decide_eq_true_2 by (apply elem_of_union_r; exact Hin). reflexivity.
  - apply bool_decide_eq_false in Hin.
    rewrite bool_decide_eq_false_2; [reflexivity|].
    intros H. apply elem_of_union in H as [H|H]; [|contradiction].
    apply elem_of_singleton in H. contradiction.
Qed.

(** What [run_agent] does, stage by stage. *)
Lemma run_agent_cases (api_url commit_hash : string) (h : Host World) :
  let run := run_native_tests test_cases api_url (network h) in
  let log := build_payload run.2 commit_hash run_id now in
  let out := run_agent api_url commit_hash h in
  (documents h !! "runs" = None /\ (log_path run_id ∉ folders h) /\
   documents h !! "reports" = None /\ (report_path run_id ∉ folders h) /\
   exists diagnosis, (run_rag_diagnosis log commit_hash).2 = inr diagnosis /\
     out =
       ({| network := world run.1;
           workdir := workdir h;
           folders := {["reports"]} ∪ ({["runs"]} ∪ folders h);
           documents :=
             <[report_path run_id := OtherData (render run_id diagnosis (Some log))]>
               (<[log_path run_id := JsonDump 4 log]> (documents h)) |},
        inr {| agent_run_id := run_id;
               agent_report_path := absolute (report_path run_id);
               agent_diagnosis := diagnosis;
               agent_success := success run.2 |})) \/
  (exists exc, out.2 = inl exc /\ network out.1 = world run.1 /\
     documents out.1 !! report_path run_id = documents h !! report_path run_id /\
     ~ (documents h !! "runs" = None /\ (log_path run_id ∉ folders h) /\
        documents h !! "reports" = None /\ (report_path run_id ∉ folders h) /\
        exists diagnosis, (run_rag_diagnosis log commit_hash).2 = inr diagnosis)).
Proof using Type.
  intros run log out.
  destruct (run_id_names uuid4) as [Hraw Hpage].
  destruct (report_path_is_not_a_folder uuid4) as (Hn1 & Hn2 & Hn3 & Hnl).
  unfold out, Agent.run_agent. fold run.
  rewrite (save_raw_failure_log_plain _ _ _ _ _ Hraw). cbv zeta. fold log.
  cbn [cwd dirs files stdout disk_of].
  destruct (documents h !! "runs") eqn:Hruns.
  { right. eexists. cbn [fst snd host network documents files].
    repeat split. intros (H & _). discriminate. }
  destruct (bool_decide (log_path run_id ∈ folders h)) eqn:Hlog.
  { apply bool_decide_eq_true in Hlog.
    right. eexists. cbn [fst snd host network documents files].
    repeat split. intros (_ & H & _). contradiction. }
  apply bool_decide_eq_false in Hlog.
  destruct ((run_rag_diagnosis log commit_hash).2) as [exc|diagnosis] eqn:Hrag.
  { right. eexists. cbn [fst snd host network documents files]. repeat split.
    - now rewrite lookup_insert_ne by congruence.
    - intros (_ & _ & _ & _ & d & Hd). discriminate. }
  rewrite (generate_html_report_plain _ _ _ _ Hpage). cbv zeta.
  cbn [cwd dirs files stdout].
  rewrite lookup_insert_ne by exact Hn3.
  destruct (documents h !! "reports") eqn:Hreports.
  { right. eexists. cbn [fst snd host network documents files]. repeat split.
    - now rewrite lookup_insert_ne by congruence.
    - intros (_ & _ & H & _). discriminate. }
  destruct (bool_decide (report_path run_id ∈ {["runs"]} ∪ folders h)) eqn:Hreport.
  { apply bool_decide_eq_true in Hreport.
    right. eexists. cbn [fst snd host network documents files]. repeat split.
    - now rewrite lookup_insert_ne by congruence.
    - intros (_ & _ & _ & H & _). apply H.
      apply elem_of_union in Hreport as [Hin|Hin]; [|exact Hin].
      apply elem_of_singleton in Hin. contradiction. }
  apply bool_decide_eq_false in Hreport.
  left. split; [reflexivity|]. split; [exact Hlog|]. split; [reflexivity|]. split.
  { intros Hin. apply Hreport. apply elem_of_union. now right. }
  exists diagnosis. split; reflexivity.
Qed.

(** The four stages on a working directory that takes both files. *)
Lemma run_agent_stages (api_url commit_hash : string) (h : Host World)
    (diagnosis : Diagnosis) :
  let run := run_native_tests test_cases api_url (network h) in
  let log := build_payload run.2 commit_hash run_id now in
  documents h !! "runs" = None -> log_path run_id ∉ folders h ->
  documents h !! "reports" = None -> report_path run_id ∉ folders h ->
  (run_rag_diagnosis log commit_hash).2 = inr diagnosis ->
  run_agent api_url commit_hash h =
    ({| network := world run.1;
        workdir := workdir h;
        folders := {["reports"]} ∪ ({["runs"]} ∪ folders h);
        documents :=
          <[report_path run_id := OtherData (render run_id diagnosis (Some log))]>
            (<[log_path run_id := JsonDump 4 log]> (documents h)) |},
     inr {| agent_run_id := run_id;
            agent_report_path := absolute (report_path run_id);
            agent_diagnosis := diagnosis;
            agent_success := success run.2 |}).
Proof using Type.
  intros run log Hruns Hlog Hreports Hreport Hrag.
  destruct (run_agent_cases api_url commit_hash h)
    as [(_ & _ & _ & _ & diagnosis' & Hrag' & Hout) | (exc & _ & _ & _ & Hnot)].
  - fold run in Hrag'. fold log in Hrag'. rewrite Hrag in Hrag'.
    injection Hrag' as <-. exact Hout.
  - exfalso. apply Hnot. repeat (split; [assumption|]). eauto.
Qed.

(** When [run_agent] returns, every stage returned. *)
Lemma run_agent_returned (api_url commit_hash : string) (h h' : Host World)
    (result : AgentRun) :
  let run := run_native_tests test_cases api_url (network h) in
  let log := build_payload run.2 commit_hash run_id now in
  run_agent api_url commit_hash h = (h', inr result) ->
  documents h !! "runs" = None /\ (log_path run_id ∉ folders h) /\
  documents h !! "reports" = None /\ (report_path run_id ∉ folders h) /\
  (run_rag_diagnosis log commit_hash).2 = inr (agent_diagnosis result).
Proof using Type.
  intros run log Hrun.
  destruct (run_agent_cases api_url commit_hash h)
    as [(Hruns & Hlog & Hreports & Hreport & diagnosis & Hrag & Hout)
       | (exc & Hexc & _)].
  - rewrite Hrun in Hout. injection Hout as _ ->.
    repeat (split; [assumption|]). exact Hrag.
  - rewrite Hrun in Hexc. discriminate.
Qed.


(** X24. When [run_agent] returns and when it does not.  The tests
    are run against the service in either case.  The function returns
    exactly when [runs] and [reports] are not existing files, neither of
    the two paths it writes is a directory, and the diagnosis stage
    returns: every case passed, or the vector store is disabled, or every
    write of the ingestion succeeds.  Otherwise the exception of the stage
    leaves the function, and then no report has been written.  The two
    paths are those of the run identifier, the text of the UUID drawn for
    the run. *)
Theorem run_agent_returns_iff (api_url commit_hash : string) (h : Host World) :
  let out := run_agent api_url commit_hash h in
  let run := run_native_tests test_cases api_url (network h) in
  network out.1 = world run.1 /\
  ((exists result, out.2 = inr result) <->
     documents h !! "runs" = None /\ (log_path run_id ∉ folders h) /\
     documents h !! "reports" = None /\ (report_path run_id ∉ folders h) /\
     (success run.2 = true \/
      Rag.enabled (Rag.VectorDBClient_init REDISVL_AVAILABLE REDIS_URL from_url None)
        = false \/
      (Forall (Writes.written client_set (Rag.index_name "code_index" commit_hash))
         code_items /\
       Forall (Writes.written client_set (Rag.index_name "doc_index" commit_hash))
         doc_items))) /\
  (forall exc, out.2 = inl exc ->
     documents out.1 !! report_path run_id = documents h !! report_path run_id).
Proof using Type.
  intros out run.
  set (log := build_payload run.2 commit_hash run_id now).
  pose proof (diagnosis_returns REDISVL_AVAILABLE REDIS_URL from_url client_set
                json_dumps code_items doc_items log commit_hash) as Hdiag.
  assert (Hstatus : log_status log = Some "passed" <-> success run.2 = true)
    by apply payload_status.
  pose proof (run_agent_cases api_url commit_hash h) as Hcases.
  cbv zeta in Hcases. fold run in Hcases. fold log in Hcases. fold out in Hcases.
  destruct Hcases as [(Hruns & Hlog & Hreports & Hreport & diagnosis & Hrag & Hout)
                     | (exc & Hexc & Hnet & Hdoc & Hnot)].
  - rewrite Hout. cbn [fst snd network].
    split; [reflexivity|]. split; [|intros e He; discriminate].
    split; [|eauto]. intros _.
    split; [exact Hruns|]. split; [exact Hlog|]. split; [exact Hreports|].
    split; [exact Hreport|].
    rewrite <- Hstatus. apply Hdiag. eauto.
  - split; [exact Hnet|]. split.
    + split; [intros [r Hr]; congruence|].
      intros (Hruns & Hlog & Hreports & Hreport & Hrest). exfalso. apply Hnot.
      split; [exact Hruns|]. split; [exact Hlog|]. split; [exact Hreports|].
      split; [exact Hreport|]. apply Hdiag. rewrite Hstatus. exact Hrest.
    + intros _ _. exact Hdoc.
Qed.

End AgentFacts.

Section AgentScenarios.

Import Runner.
Import Logger.
Import Llm.
Import Report.
Import Agent.
Import Scenarios.
Import MoreScenarios.


End AgentScenarios.

(** ** The endpoints over the store *)

Section ApiFacts.

Import Redis.
Import Api.

Variable Backend : Type.
Variable backend_connect : string -> Backend -> Backend * option Exn.
Variable backend_set : string -> string -> Backend -> Backend * option Exn.
Variable backend_get : string -> Backend -> Backend * (Exn + option string).
Variable backend_keys : string -> Backend -> Backend * (Exn + list string).
Variable json_dumps : json -> string.
Variable json_loads : string -> option json.
Variable load_config : Exn + string.

Local Abbreviation init := (Redis.VerifyPulseRedis_init Backend backend_connect).
Local Abbreviation connect := (Api.connect Backend backend_connect load_config).
Local Abbreviation run_endpoint :=
  (Api.run_endpoint Backend backend_connect backend_set json_dumps load_config).
Local Abbreviation history_endpoint :=
  (Api.history_endpoint Backend backend_connect backend_get backend_keys json_loads
     load_config).
Local Abbreviation run_requests :=
  (Api.run_requests Backend backend_connect backend_set json_dumps load_config).

(** A new instance holds nothing. *)
Lemma init_store_empty (url : option string) (config : Exn + string) (b : Backend) :
  store (self (init url config b)) = ∅.
Proof using Type.
  unfold Redis.VerifyPulseRedis_init.
  destruct (negb _ || negb _); [reflexivity|].
  destruct (backend_connect _ b) as [b1 [exc|]]; reflexivity.
Qed.

Lemma history_of_new_instance (b : Backend) :
  use_memory (self (connect b)) = true ->
  history_endpoint b = (backend (connect b), {| count := 0; runs := [] |}).
Proof using Type.
  intros Hm. unfold Api.history_endpoint.
  rewrite (list_run_history_memory Backend backend_get backend_keys json_loads _ Hm).
  unfold Api.connect. rewrite init_store_empty, map_to_list_empty. reflexivity.
Qed.

Lemma run_endpoint_without_url (result : json) (b : Backend) :
  strip_truthy (configured_url None load_config) = false ->
  run_endpoint result b = b.
Proof using Type.
  intros Hblank. unfold Api.run_endpoint, Api.connect.
  rewrite (init_without_url Backend backend_connect None load_config b Hblank).
  destruct result as [| | | |items|fields]; try reflexivity.
  destruct (Skyflow.assoc "collection_id" fields) as [collection_id|]; [|reflexivity].
  rewrite (save_run_result_memory Backend backend_set json_dumps) by reflexivity.
  reflexivity.
Qed.

(** X25. The history endpoint reads a store it has just built.  When
    that instance is in memory mode, because no URL is configured or
    because the server does not answer the ping, the endpoint reports no
    run, whatever was saved before.  In a deployment without a URL the
    run endpoint leaves nothing behind at all: after any sequence of
    requests to [/run], the history is empty and the server was never
    reached. *)
Theorem history_needs_the_server (results : list json) (b : Backend) :
  strip_truthy (configured_url None load_config) = false ->
  run_requests results b = b /\
  history_endpoint (run_requests results b) = (b, {| count := 0; runs := [] |}) /\
  (forall b', use_memory (self (connect b')) = true ->
     (history_endpoint b').2 = {| count := 0; runs := [] |}).
Proof using Type.
  intros Hblank.
  assert (Hsame : run_requests results b = b).
  { unfold Api.run_requests. induction results as [|result results IH]; simpl;
      [reflexivity|].
    now rewrite (run_endpoint_without_url result b Hblank). }
  split; [exact Hsame|]. split.
  - rewrite Hsame, history_of_new_instance.
    + unfold Api.connect.
      now rewrite (init_without_url Backend backend_connect None load_config b Hblank).
    + unfold Api.connect.
      now rewrite (init_without_url Backend backend_connect None load_config b Hblank).
  - intros b' Hm. now rewrite history_of_new_instance.
Qed.

End ApiFacts.

Section ApiScenarios.

Import Redis.
Import Api.
Import Scenarios.
Import MoreScenarios.

(** Two runs are posted to a deployment whose configuration has an
    empty [REDIS_URL]; the history is asked for afterwards. *)
Lemma history_needs_the_server_witness :
  history_endpoint Server server_connect server_get server_keys loads_run (inr "")
    (run_requests Server server_connect server_set dumps_run (inr "") evening
       {| budget := 9; data := ∅ |})
  = ({| budget := 9; data := ∅ |}, {| count := 0; runs := [] |}).
Proof.
  apply (history_needs_the_server Server server_connect server_set server_get server_keys
           dumps_run loads_run (inr "") evening {| budget := 9; data := ∅ |}).
  reflexivity.
Defined.

End ApiScenarios.

(** ** The tokenizer of test data *)

Section PiiFacts.

Import Skyflow.
Import Pii.

Variable EMAIL_PATTERN : string -> bool.
Variable PHONE_PATTERN : string -> bool.
Variable SSN_PATTERN : string -> bool.
Variable CREDIT_CARD_PATTERN : string -> bool.

Local Abbreviation tokenize_string :=
  (Pii.tokenize_string EMAIL_PATTERN PHONE_PATTERN SSN_PATTERN CREDIT_CARD_PATTERN).
Local Abbreviation tokenize_value :=
  (Pii.tokenize_value EMAIL_PATTERN PHONE_PATTERN SSN_PATTERN CREDIT_CARD_PATTERN).
Local Abbreviation tokenize_data :=
  (Pii.tokenize_data EMAIL_PATTERN PHONE_PATTERN SSN_PATTERN CREDIT_CARD_PATTERN).

(** Induction on a value, with the items of a list and the values of a
    dictionary as smaller values. *)
Lemma json_nested_ind (P : json -> Prop) :
  P JNull -> (forall b, P (JBool b)) -> (forall z, P (JNum z)) -> (forall s, P (JStr s)) ->
  (forall items, Forall P items -> P (JArr items)) ->
  (forall fields, Forall (fun kv => P kv.2) fields -> P (JObj fields)) ->
  forall v, P v.
Proof using Type.
  intros HN HB HZ HS HA HO. fix IH 1. intros [| b | z | s | items | fields].
  - exact HN.
  - apply HB.
  - apply HZ.
  - apply HS.
  - apply HA. induction items as [|x items IHl]; constructor; [apply IH | exact IHl].
  - apply HO. induction fields as [|[k x] fields IHl]; constructor; [apply IH | exact IHl].
Qed.

(** The attribute lookup raises, so the placeholder is returned with or
    without the stub. *)
Lemma tokenize_with_placeholder (self : PIITokenizer) (field placeholder value : string) :
  tokenize_with self field placeholder value = JStr placeholder.
Proof using Type.
  unfold tokenize_with. destruct (use_stub self); [reflexivity|].
  unfold insert_record. destruct (skyflow_client self); reflexivity.
Qed.

Local Abbreviation entry :=
  (Pii.entry EMAIL_PATTERN PHONE_PATTERN SSN_PATTERN CREDIT_CARD_PATTERN).
Local Abbreviation item_of :=
  (Pii.item_of EMAIL_PATTERN PHONE_PATTERN SSN_PATTERN CREDIT_CARD_PATTERN).
Local Abbreviation ignores_placeholders :=
  (Pii.ignores_placeholders EMAIL_PATTERN PHONE_PATTERN SSN_PATTERN CREDIT_CARD_PATTERN).

Lemma tokenize_data_entries (self : PIITokenizer) (data : list (string * json)) :
  tokenize_data self data = map (entry self) data.
Proof using Type.
  unfold Pii.tokenize_data. apply map_ext. intros [k v]. reflexivity.
Qed.

Lemma tokenize_value_list (self : PIITokenizer) (key : string) (items : list json) :
  tokenize_value self key (JArr items) = JArr (map (item_of self) items).
Proof using Type. reflexivity. Qed.

(** A string is kept or replaced by a placeholder; which of the two
    does not depend on the tokenizer. *)
Lemma tokenize_string_cases (self : PIITokenizer) (value field_name : string) :
  let hinted name := contains name (lower field_name) in
  tokenize_string self value field_name =
    if hinted "email" then JStr "{{tokenized_email}}"
    else if hinted "password" then JStr "{{tokenized_password}}"
    else if hinted "phone" || hinted "mobile" then JStr "{{tokenized_phone}}"
    else if hinted "ssn" || hinted "social" then JStr "{{tokenized_ssn}}"
    else if hinted "card" || hinted "credit" then JStr "{{tokenized_credit_card}}"
    else if EMAIL_PATTERN value then JStr "{{tokenized_email}}"
    else if PHONE_PATTERN value then JStr "{{tokenized_phone}}"
    else if SSN_PATTERN value then JStr "{{tokenized_ssn}}"
    else if CREDIT_CARD_PATTERN value then JStr "{{tokenized_credit_card}}"
    else JStr value.
Proof using Type.
  unfold Pii.tokenize_string, tokenize_email, tokenize_password, tokenize_phone,
    tokenize_ssn, tokenize_credit_card.
  rewrite !tokenize_with_placeholder. reflexivity.
Qed.

Lemma map_fixed {A} (f : A -> A) (l : list A) :
  Forall (fun x => f x = x) l -> map f l = l.
Proof using Type.
  induction 1 as [|x l Hx Hl IH]; simpl; [reflexivity|]. now rewrite Hx, IH.
Qed.

Lemma map_agree {A B} (f g : A -> B) (l : list A) :
  Forall (fun x => f x = g x) l -> map f l = map g l.
Proof using Type.
  induction 1 as [|x l Hx Hl IH]; simpl; [reflexivity|]. now rewrite Hx, IH.
Qed.

(** X26. [tokenize_data] keeps the shape of its dictionary: the same
    keys in the same order.  It keeps every value that is not a string, a
    dictionary or a list, and every list that holds no dictionary, so
    the strings inside a list are never tokenized, whatever the key and
    whatever the strings.  A nested dictionary is tokenized by the same
    rules, under its own keys. *)
Theorem tokenize_data_shape (self : PIITokenizer) (data : list (string * json)) :
  (tokenize_data self data).*1 = data.*1 /\
  (forall k v, (k, v) ∈ data ->
     (k, tokenize_value self k v) ∈ tokenize_data self data) /\
  (forall k v, match v with JNull | JBool _ | JNum _ => True | _ => False end ->
     tokenize_value self k v = v) /\
  (forall k items, Forall (fun item => is_dict item = false) items ->
     tokenize_value self k (JArr items) = JArr items) /\
  (forall k fields,
     tokenize_value self k (JObj fields) = JObj (tokenize_data self fields)).
Proof using Type.
  split; [|split; [|split; [|split]]].
  - rewrite tokenize_data_entries.
    induction data as [|[k v] data IH]; [reflexivity|]. cbn. f_equal. exact IH.
  - intros k v Hin. rewrite tokenize_data_entries.
    change (k, tokenize_value self k v) with (entry self (k, v)).
    apply list_elem_of_In, in_map, list_elem_of_In. exact Hin.
  - intros k [| b | z | s | items | fields] H; try reflexivity; contradiction.
  - intros k items Hitems. rewrite tokenize_value_list. f_equal.
    apply map_fixed. eapply Forall_impl; [exact Hitems|].
    intros [| b | z | s | l | fields] H; try reflexivity. discriminate.
  - reflexivity.
Qed.

(** The tokenizer plays no part in the result. *)
Lemma tokenize_value_any (self other : PIITokenizer) (v : json) :
  forall key, tokenize_value self key v = tokenize_value other key v.
Proof using Type.
  induction v as [| b | z | s | items IH | fields IH] using json_nested_ind;
    intros key; try reflexivity.
  - cbn [Pii.tokenize_value]. now rewrite !tokenize_string_cases.
  - rewrite !tokenize_value_list. f_equal. apply map_agree.
    eapply Forall_impl; [exact IH|].
    intros [| b | z | s | l | fields] H; try reflexivity.
    specialize (H ""). cbn [Pii.tokenize_value] in H. exact H.
  - cbn [Pii.tokenize_value]. f_equal. apply map_agree.
    eapply Forall_impl; [exact IH|]. intros [k v] H. simpl in H. now rewrite (H k).
Qed.

(** X27. No token is ever obtained from the vault.  [SkyflowClient]
    has no method [insert_record], so the call raises and the placeholder
    is returned: the result of [tokenize_data] is the same for every
    tokenizer, with or without a client and whatever the stub flag.  A
    string under a key that names an e-mail address becomes the e-mail
    placeholder and, failing that, one under a key that names a password
    becomes the password placeholder, whatever the string; and every
    string of the result at the top level is the original or one of the
    five placeholders. *)
Theorem tokenize_data_never_reaches_the_vault (self : PIITokenizer)
    (data : list (string * json)) :
  (forall other, tokenize_data self data = tokenize_data other data) /\
  (forall k s, (k, JStr s) ∈ data ->
     exists out,
       (k, JStr out) ∈ tokenize_data self data /\
       (out = s \/ out ∈ placeholders) /\
       (contains "email" (lower k) = true -> out = "{{tokenized_email}}") /\
       (contains "email" (lower k) = false -> contains "password" (lower k) = true ->
        out = "{{tokenized_password}}")).
Proof using Type.
  split.
  - intros other. rewrite !tokenize_data_entries. apply map_ext.
    intros [k v]. unfold Pii.entry. simpl. now rewrite (tokenize_value_any self other).
  - intros k s Hin.
    assert (Hout : (k, tokenize_value self k (JStr s)) ∈ tokenize_data self data).
    { rewrite tokenize_data_entries.
      change (k, tokenize_value self k (JStr s)) with (entry self (k, JStr s)).
      apply list_elem_of_In, in_map, list_elem_of_In. exact Hin. }
    cbn [Pii.tokenize_value] in Hout. rewrite tokenize_string_cases in Hout.
    cbv zeta in Hout. unfold placeholders.
    destruct (contains "email" (lower k)).
    { eexists. split; [exact Hout|]. split; [right; apply list_elem_of_In; simpl; tauto|].
      split; [reflexivity | discriminate]. }
    destruct (contains "password" (lower k)).
    { eexists. split; [exact Hout|]. split; [right; apply list_elem_of_In; simpl; tauto|].
      split; [discriminate | reflexivity]. }
    destruct (contains "phone" (lower k) || contains "mobile" (lower k)).
    { eexists. split; [exact Hout|]. split; [right; apply list_elem_of_In; simpl; tauto|].
      split; discriminate. }
    destruct (contains "ssn" (lower k) || contains "social" (lower k)).
    { eexists. split; [exact Hout|]. split; [right; apply list_elem_of_In; simpl; tauto|].
      split; discriminate. }
    destruct (contains "card" (lower k) || contains "credit" (lower k)).
    { eexists. split; [exact Hout|]. split; [right; apply list_elem_of_In; simpl; tauto|].
      split; discriminate. }
    destruct (EMAIL_PATTERN s).
    { eexists. split; [exact Hout|]. split; [right; apply list_elem_of_In; simpl; tauto|].
      split; discriminate. }
    destruct (PHONE_PATTERN s).
    { eexists. split; [exact Hout|]. split; [right; apply list_elem_of_In; simpl; tauto|].
      split; discriminate. }
    destruct (SSN_PATTERN s).
    { eexists. split; [exact Hout|]. split; [right; apply list_elem_of_In; simpl; tauto|].
      split; discriminate. }
    destruct (CREDIT_CARD_PATTERN s).
    { eexists. split; [exact Hout|]. split; [right; apply list_elem_of_In; simpl; tauto|].
      split; discriminate. }
    eexists. split; [exact Hout|]. split; [now left|]. split; discriminate.
Qed.

(** A second pass over a tokenized string changes nothing. *)
Lemma tokenize_string_twice (self : PIITokenizer) (value key : string) :
  ignores_placeholders ->
  exists out,
    tokenize_string self value key = JStr out /\
    tokenize_string self out key = JStr out.
Proof using Type.
  intros Hp. rewrite tokenize_string_cases. cbv zeta.
  assert (He : "{{tokenized_email}}" ∈ placeholders)
    by (apply list_elem_of_In; simpl; tauto).
  assert (Hph : "{{tokenized_phone}}" ∈ placeholders)
    by (apply list_elem_of_In; simpl; tauto).
  assert (Hs : "{{tokenized_ssn}}" ∈ placeholders)
    by (apply list_elem_of_In; simpl; tauto).
  assert (Hc : "{{tokenized_credit_card}}" ∈ placeholders)
    by (apply list_elem_of_In; simpl; tauto).
  apply Hp in He, Hph, Hs, Hc.
  destruct He as (He1 & He2 & He3 & He4), Hph as (Hp1 & Hp2 & Hp3 & Hp4),
    Hs as (Hs1 & Hs2 & Hs3 & Hs4), Hc as (Hc1 & Hc2 & Hc3 & Hc4).
  destruct (contains "email" (lower key)) eqn:K1.
  { eexists. split; [reflexivity|]. rewrite tokenize_string_cases. cbv zeta.
    now rewrite K1. }
  destruct (contains "password" (lower key)) eqn:K2.
  { eexists. split; [reflexivity|]. rewrite tokenize_string_cases. cbv zeta.
    now rewrite K1, K2. }
  destruct (contains "phone" (lower key) || contains "mobile" (lower key)) eqn:K3.
  { eexists. split; [reflexivity|]. rewrite tokenize_string_cases. cbv zeta.
    now rewrite K1, K2, K3. }
  destruct (contains "ssn" (lower key) || contains "social" (lower key)) eqn:K4.
  { eexists. split; [reflexivity|]. rewrite tokenize_string_cases. cbv zeta.
    now rewrite K1, K2, K3, K4. }
  destruct (contains "card" (lower key) || contains "credit" (lower key)) eqn:K5.
  { eexists. split; [reflexivity|]. rewrite tokenize_string_cases. cbv zeta.
    now rewrite K1, K2, K3, K4, K5. }
  destruct (EMAIL_PATTERN value) eqn:V1.
  { eexists. split; [reflexivity|]. rewrite tokenize_string_cases. cbv zeta.
    now rewrite K1, K2, K3, K4, K5, He1, He2, He3, He4. }
  destruct (PHONE_PATTERN value) eqn:V2.
  { eexists. split; [reflexivity|]. rewrite tokenize_string_cases. cbv zeta.
    now rewrite K1, K2, K3, K4, K5, Hp1, Hp2, Hp3, Hp4. }
  destruct (SSN_PATTERN value) eqn:V3.
  { eexists. split; [reflexivity|]. rewrite tokenize_string_cases. cbv zeta.
    now rewrite K1, K2, K3, K4, K5, Hs1, Hs2, Hs3, Hs4. }
  destruct (CREDIT_CARD_PATTERN value) eqn:V4.
  { eexists. split; [reflexivity|]. rewrite tokenize_string_cases. cbv zeta.
    now rewrite K1, K2, K3, K4, K5, Hc1, Hc2, Hc3, Hc4. }
  eexists. split; [reflexivity|]. rewrite tokenize_string_cases. cbv zeta.
  now rewrite K1, K2, K3, K4, K5, V1, V2, V3, V4.
Qed.

Lemma tokenize_value_twice (self : PIITokenizer) (v : json) :
  ignores_placeholders ->
  forall key, tokenize_value self key (tokenize_value self key v) = tokenize_value self key v.
Proof using Type.
  intros Hp.
  induction v as [| b | z | s | items IH | fields IH] using json_nested_ind;
    intros key; try reflexivity.
  - cbn [Pii.tokenize_value].
    destruct (tokenize_string_twice self s key Hp) as (out & H1 & H2).
    rewrite H1. cbn [Pii.tokenize_value]. exact H2.
  - rewrite !tokenize_value_list. f_equal. rewrite map_map. apply map_agree.
    eapply Forall_impl; [exact IH|].
    intros [| b | z | s | l | fields] H; try reflexivity.
    specialize (H ""). cbn [Pii.tokenize_value] in H. exact H.
  - cbn [Pii.tokenize_value]. f_equal. rewrite map_map. apply map_agree.
    eapply Forall_impl; [exact IH|]. intros [k v] H. simpl in H. now rewrite (H k).
Qed.

(** X28. When no pattern finds a match in a placeholder, tokenizing
    is idempotent: tokenized data passes through [tokenize_data]
    unchanged, at every depth. *)
Theorem tokenize_data_idempotent (self : PIITokenizer) (data : list (string * json)) :
  ignores_placeholders ->
  tokenize_data self (tokenize_data self data) = tokenize_data self data.
Proof using Type.
  intros Hp. rewrite !tokenize_data_entries, map_map. apply map_ext.
  intros [k v]. unfold Pii.entry. simpl. now rewrite tokenize_value_twice.
Qed.

End PiiFacts.

Section PiiScenarios.

Import Pii.
Import Scenarios.
Import MoreScenarios.

Lemma stand_ins_ignore_placeholders :
  ignores_placeholders has_at has_digit has_digit has_digit.
Proof.
  intros p Hp. unfold placeholders in Hp.
  repeat (apply elem_of_cons in Hp as [->|Hp]; [repeat split; reflexivity|]).
  now apply elem_of_nil in Hp.
Qed.

(** The sign-up form, tokenized once and twice. *)
Lemma tokenize_data_idempotent_witness :
  let once := tokenize_data has_at has_digit has_digit has_digit stub_tokenizer signup in
  tokenize_data has_at has_digit has_digit has_digit stub_tokenizer once = once /\
  once =
    [ ("user_email", JStr "{{tokenized_email}}");
      ("password", JStr "{{tokenized_password}}");
      ("contact", JStr "{{tokenized_email}}");
      ("age", JNum 36);
      ("emails", JArr [JStr "ada@example.com"; JStr "ada@work.example"]);
      ("guardian", JObj [("mobile", JStr "{{tokenized_phone}}"); ("name", JStr "Grace")]) ].
Proof.
  split.
  - apply (tokenize_data_idempotent has_at has_digit has_digit has_digit stub_tokenizer
             signup stand_ins_ignore_placeholders).
  - reflexivity.
Defined.

End PiiScenarios.

(** ** The web search client and the plan *)

Section SearchFacts.

Import Parallel.

Variable post : WebCall -> Exn + WebReply.

Local Abbreviation search_web := (Parallel.search_web post).
Local Abbreviation search_security_guidelines := (Parallel.search_security_guidelines post).
Local Abbreviation plan_with_guidelines := (Planner.plan_with_guidelines post).

(** The three ways [search_web] comes back with a dictionary, and the
    one way it does not. *)
Lemma search_web_cases (self : ParallelClient) (query : string) (max_tokens : option Z) :
  let call := search_call self query (default 256%Z max_tokens) in
  let out := search_web self query max_tokens in
  (enabled self = false /\
   out = ([], inr [ ("enabled", JBool false);
                    ("reason", JStr "Parallel API key missing");
                    ("query", JStr query) ])) \/
  (enabled self = true /\
   exists exc,
     (post call = inl exc \/ exists resp, post call = inr resp /\ status_error resp = Some exc) /\
     out = ([call], inr [ ("enabled", JBool false);
                          ("reason", JStr ("Parallel request failed: " +:+ exn_str exc));
                          ("query", JStr query) ])) \/
  (enabled self = true /\
   exists resp data,
     post call = inr resp /\ status_error resp = None /\ body_json resp = Some data /\
     out = ([call], inr [ ("enabled", JBool true); ("query", JStr query); ("raw", data) ])) \/
  (enabled self = true /\
   exists resp,
     post call = inr resp /\ status_error resp = None /\ body_json resp = None /\
     out = ([call], inl Skyflow.JSONDecodeError)).
Proof using Type.
  cbv zeta. unfold Parallel.search_web.
  destruct (enabled self); simpl; [|left; auto].
  right.
  destruct (post (search_call self query (default 256%Z max_tokens))) as [exc|resp] eqn:Hpost.
  { left. split; [reflexivity|]. exists exc. split; [now left | reflexivity]. }
  destruct (status_error resp) as [exc|] eqn:Hstatus.
  { left. split; [reflexivity|]. exists exc. split; [|reflexivity]. right. eauto. }
  destruct (body_json resp) as [data|] eqn:Hbody.
  - right. left. split; [reflexivity|]. exists resp, data. auto.
  - right. right. split; [reflexivity|]. exists resp. auto.
Qed.



End SearchFacts.

Section SearchScenarios.

Import Parallel.
Import Scenarios.
Import MoreScenarios.


End SearchScenarios.
